(** * Kernel-extension inventory: normalizer, graph builder, categorizer, diff

    A shallow embedding of the Python sources
      - [analyze_kexts.py] (and its copy [host_kext/analyze_kext_only.py]):
        [parse_plist_file], [scan_kexts_only], [create_graphml];
      - [compare_kexts.py]: [analyze_kexts], [compare_kext_datasets];
    together with the properties the specification states about them.

    Conventions of the embedding.
      - A Python [str] is a [string]; case folding and substring search act on
        the ASCII letters, which is where every pattern of the source lives.
      - A Python [dict] is an insertion-ordered association list with unique
        keys (module [PyDict]): iteration follows insertion order and
        assigning to an existing key keeps its position.
      - A Python [set] is a [gset].
      - A decoded property list is a [value], a tagged union of the shapes the
        decoder can return.
      - A raised exception is [None] in the [option] monad. *)

From Stdlib Require Import Ascii String QArith.
From stdpp Require Import base option list gmap sets strings sorting.

Set Warnings "-register-all,-clear-no-such-hyp".

Local Open Scope string_scope.
Local Open Scope list_scope.

(** ** Python strings *)

Module PyStr.

(** [c.lower()] on one character: the ASCII capitals move to lower case. *)
Definition lower_ascii (c : ascii) : ascii :=
  let n := nat_of_ascii c in
  if (65 <=? n)%nat && (n <=? 90)%nat then ascii_of_nat (n + 32) else c.

(** [s.lower()] *)
Fixpoint lower (s : string) : string :=
  match s with
  | EmptyString => EmptyString
  | String c t => String (lower_ascii c) (lower t)
  end.

(** [hay.startswith(needle)] *)
Fixpoint startswith (needle hay : string) : bool :=
  match needle, hay with
  | EmptyString, _ => true
  | String _ _, EmptyString => false
  | String a n', String b h' => if Ascii.eqb a b then startswith n' h' else false
  end.

(** [needle in hay] for two strings: [needle] occurs as a contiguous run. *)
Fixpoint contains (needle hay : string) : bool :=
  startswith needle hay ||
  match hay with
  | EmptyString => false
  | String _ t => contains needle t
  end.

(** [s.split(sep)] for a one-character separator: the pieces between the
    separators, at least one piece, empty pieces kept. *)
Fixpoint split (sep : ascii) (s : string) : list string :=
  match s with
  | EmptyString => [EmptyString]
  | String c t =>
      if Ascii.eqb c sep then EmptyString :: split sep t
      else match split sep t with
           | h :: r => String c h :: r
           | [] => [String c EmptyString]
           end
  end.

(** [s.replace(old, new)] for single characters. *)
Fixpoint replace (old new : ascii) (s : string) : string :=
  match s with
  | EmptyString => EmptyString
  | String c t => String (if Ascii.eqb c old then new else c) (replace old new t)
  end.

(** [xs[-1]] on a list that is known to be non-empty ([split] never returns
    the empty list); [None] stands for the IndexError. *)
Definition last_item {A} (xs : list A) : option A := last xs.

End PyStr.

(** ** The categorizer ([analyze_kexts] and [generate_statistics]) *)

Inductive category :=
  | graphics | audio | usb | bluetooth | apple_specific | intel | amd | other.

Definition all_categories : list category :=
  [graphics; audio; usb; bluetooth; apple_specific; intel; amd; other].

(** The key under which a category is tallied in the [categories] dict. *)
Definition category_key (c : category) : string :=
  match c with
  | graphics => "graphics"
  | audio => "audio"
  | usb => "usb"
  | bluetooth => "bluetooth"
  | apple_specific => "apple_specific"
  | intel => "intel"
  | amd => "amd"
  | other => "other"
  end.

(** The [if]/[elif] cascade of the source, on the two strings it computes
    first: [name = kext.get('name', '').lower()] and
    [bundle_lower = bundle_id.lower()].  The cascade is the same text in
    [compare_kexts.analyze_kexts] and in [analyze_kexts.generate_statistics]. *)
Definition cascade (name bundle_lower : string) : category :=
  if PyStr.contains "graphics" name || PyStr.contains "metal" name
     || PyStr.contains "gpu" name || PyStr.contains "framebuffer" name
  then graphics
  else if PyStr.contains "audio" name || PyStr.contains "hda" bundle_lower
  then audio
  else if PyStr.contains "usb" name || PyStr.contains "usb" bundle_lower
  then usb
  else if PyStr.contains "bluetooth" name || PyStr.contains "bt" bundle_lower
  then bluetooth
  else if PyStr.contains "apple" bundle_lower
  then apple_specific
  else if PyStr.contains "intel" name || PyStr.contains "intel" bundle_lower
  then intel
  else if PyStr.contains "amd" name
  then amd
  else other.

(** The categorizer on a record's [name] and its [bundle_id]. *)
Definition categorize (name bundle_id : string) : category :=
  cascade (PyStr.lower name) (PyStr.lower bundle_id).

(** ** Python dicts *)

(** A [dict] with string keys: the items in insertion order, one per key. *)
Abbreviation dict V := (list (string * V)).

Module PyDict.
Section Ops.
Context {V : Type}.

(** [d.get(k)]; [None] when the key is absent. *)
Fixpoint get (k : string) (d : dict V) : option V :=
  match d with
  | [] => None
  | (k', v) :: r => if String.eqb k k' then Some v else get k r
  end.

(** [k in d] *)
Definition mem (k : string) (d : dict V) : bool :=
  match get k d with Some _ => true | None => false end.

(** [d[k] = v]: an existing key keeps its place and takes the new value,
    a new key goes to the end. *)
Fixpoint set (k : string) (v : V) (d : dict V) : dict V :=
  match d with
  | [] => [(k, v)]
  | (k', v') :: r =>
      if String.eqb k k' then (k, v) :: r else (k', v') :: set k v r
  end.

(** [d.keys()], [d.values()], [len(d)] *)
Definition keys (d : dict V) : list string := map fst d.
Definition values (d : dict V) : list V := map snd d.
Definition len (d : dict V) : nat := length d.

(** The well-formedness every Python dict has: no key twice. *)
Definition wf (d : dict V) : Prop := NoDup (keys d).
End Ops.
End PyDict.

(** ** Decoded property-list values *)

(** What [plistlib.load] can hand back, and [VNone] for the [None] that
    [dict.get] returns on a miss.  Reals are the finite ones. *)
Inductive value :=
  | VNone
  | VBool (b : bool)
  | VInt (z : Z)
  | VReal (q : Q)
  | VStr (s : string)
  | VData (bs : list ascii)
  | VDate (t : Z)
  | VList (l : list value)
  | VDict (d : list (string * value)).

Module Py.

(** [hash(v)] succeeds: lists and dicts are the unhashable shapes. *)
Definition hashable (v : value) : bool :=
  match v with
  | VList _ | VDict _ => false
  | _ => true
  end.

(** [bool(v)] *)
Definition truthy (v : value) : bool :=
  match v with
  | VNone => false
  | VBool b => b
  | VInt z => negb (Z.eqb z 0)
  | VReal q => negb (Qeq_bool q 0)
  | VStr s => negb (String.eqb s "")
  | VData bs => match bs with [] => false | _ => true end
  | VDate _ => true
  | VList l => match l with [] => false | _ => true end
  | VDict d => match d with [] => false | _ => true end
  end.

(** The number a bool, int or real stands for in a comparison. *)
Definition numeric (v : value) : option Q :=
  match v with
  | VBool b => Some (inject_Z (if b then 1 else 0))
  | VInt z => Some (inject_Z z)
  | VReal q => Some q
  | _ => None
  end.

(** [a == b] between hashable values. *)
Definition eqb (a b : value) : bool :=
  match numeric a, numeric b with
  | Some x, Some y => Qeq_bool x y
  | _, _ =>
      match a, b with
      | VNone, VNone => true
      | VStr s, VStr t => String.eqb s t
      | VData x, VData y => bool_decide (x = y)
      | VDate s, VDate t => Z.eqb s t
      | _, _ => false
      end
  end.

(** One value per equality class, the first one met. *)
Fixpoint dedup (xs : list value) : list value :=
  match xs with
  | [] => []
  | x :: r => x :: filter (λ y, eqb x y = false) (dedup r)
  end.

(** [list(set(xs))]: a TypeError when an element is unhashable.  A set keeps
    one value per equality class, the first one added.  CPython lists them
    in an order that depends on their hashes, which for strings are drawn
    anew for each process; the model lists them as first met, and what is
    said of the list is said of every rearrangement of it (see
    [returns_up_to_set_order]). *)
Definition list_of_set (xs : list value) : option (list value) :=
  if forallb hashable xs then Some (dedup xs) else None.

(** [needle in v] for a string [needle]: substring of a string, element of
    a list, key of a dict; a TypeError on bytes and on every value that is
    not a container. *)
Definition str_in (needle : string) (v : value) : option bool :=
  match v with
  | VStr s => Some (PyStr.contains needle s)
  | VList l => Some (existsb (eqb (VStr needle)) l)
  | VDict d => Some (PyDict.mem needle d)
  | _ => None
  end.

(** [v.get(k)]: only a dict has the method (AttributeError otherwise); a
    missing key gives Python's [None]. *)
Definition method_get (v : value) (k : string) : option value :=
  match v with
  | VDict d => Some (default VNone (PyDict.get k d))
  | _ => None
  end.

(** [data.get(k, dflt)] on the decoded top-level value. *)
Definition get_or (data : value) (k : string) (dflt : value) : option value :=
  match data with
  | VDict d => Some (default dflt (PyDict.get k d))
  | _ => None
  end.

(** A [for] loop whose body may raise: the state is threaded through, the
    first exception ends the loop. *)
Fixpoint for_each {A S : Type} (body : S → A → option S) (xs : list A) (st : S)
  : option S :=
  match xs with
  | [] => Some st
  | x :: r => st' ← body st x; for_each body r st'
  end.

End Py.

(** ** The record normalizer ([parse_plist_file], [scan_kexts_only]) *)

(** The [result] dict that [parse_plist_file] returns: the keys are fixed, so
    it is a record.  [bundle_id] has gone through [.split('.')], which only a
    [str] survives; [name], [version] and [executable] are stored unchecked. *)
Record kext := Kext {
  path : string;
  bundle_id : string;
  name : value;
  version : value;
  executable : value;
  kext_name : string;
  source_type : string;
  dependencies : list value;
  libraries : list value;
  iokit_classes : list value;
  provides : list value;
}.

(** The shape test shared by [OSBundleRequirements] and [OSBundleLibraries]:
<<
    dependencies = []
    if isinstance(x, dict):   dependencies = list(x.keys())
    elif isinstance(x, list): dependencies = x
>> *)
Definition coerce_sequence (x : value) : list value :=
  match x with
  | VDict m => map VStr (PyDict.keys m)
  | VList l => l
  | _ => []
  end.

(** The body of the loop over [iokit_personalities.items()]:
<<
    if 'IOClass' in value:
        iokit_services.append(value.get('IOClass'))
>> *)
Definition personality_step (iokit_services : list value) (item : string * value)
  : option (list value) :=
  has ← Py.str_in "IOClass" item.2;
  if has : bool
  then c ← Py.method_get item.2 "IOClass"; Some (iokit_services ++ [c])
  else Some iokit_services.

(** [iokit_services] after the loop; the loop runs only over a dict. *)
Definition collect_iokit_services (iokit_personalities : value) : option (list value) :=
  match iokit_personalities with
  | VDict m => Py.for_each personality_step m []
  | _ => Some []
  end.

(** [result['provides']]: a list stays, another value becomes the one-element
    list when it is truthy and the empty list when it is not. *)
Definition normalize_provides (p : value) : list value :=
  match p with
  | VList l => l
  | _ => if Py.truthy p then [p] else []
  end.

(** ['CFBundleIdentifier'].split('.')[-1]: a TypeError on bytes, an
    AttributeError on everything else that is not a [str]. *)
Definition last_segment (bundle : value) : option (string * string) :=
  match bundle with
  | VStr s => seg ← PyStr.last_item (PyStr.split "." s); Some (s, seg)
  | _ => None
  end.

(** [parse_plist_file(plist_path)].  [decoded] is what opening the file and
    [plistlib.load] gave, [None] when either raised.  The whole body sits in
    [try: ... except Exception: return None]. *)
Definition parse_plist_file (plist_path : string) (decoded : option value)
  : option kext :=
  data ← decoded;
  bundle ← Py.get_or data "CFBundleIdentifier" (VStr "");
  name ← Py.get_or data "CFBundleName" (VStr "");
  version ← Py.get_or data "CFBundleVersion" (VStr "");
  executable ← Py.get_or data "CFBundleExecutable" (VStr "");
  id_seg ← last_segment bundle;
  os_bundle_requirements ← Py.get_or data "OSBundleRequirements" (VDict []);
  os_bundle_libraries ← Py.get_or data "OSBundleLibraries" (VDict []);
  iokit_personalities ← Py.get_or data "IOKitPersonalities" (VDict []);
  iokit_services ← collect_iokit_services iokit_personalities;
  iokit_classes ← Py.list_of_set iokit_services;
  provider ← Py.get_or data "IOProviderClass" (VList []);
  Some {| path := plist_path;
          bundle_id := id_seg.1;
          name := name;
          version := version;
          executable := executable;
          kext_name := id_seg.2;
          source_type := "kext";
          dependencies := coerce_sequence os_bundle_requirements;
          libraries := coerce_sequence os_bundle_libraries;
          iokit_classes := iokit_classes;
          provides := normalize_provides provider |}.

(** One found [Info.plist]: its path and what decoding it gave. *)
Definition plist_file : Type := string * option value.

(** The body of the loop of [scan_kexts_only]:
<<
    data = parse_plist_file(plist_path)
    if data:
        bundle_id = data.get('bundle_id')
        if bundle_id:
            kexts[bundle_id] = data
>>
    A returned [data] is a dict with eleven keys, so [if data] is the test
    for [None]. *)
Definition scan_step (kexts : dict kext) (f : plist_file) : dict kext :=
  match parse_plist_file f.1 f.2 with
  | Some data =>
      if negb (String.eqb (bundle_id data) "")
      then PyDict.set (bundle_id data) data kexts
      else kexts
  | None => kexts
  end.

(** [scan_kexts_only()], on the list of files the directory walk found. *)
Definition scan_kexts_only (plist_files : list plist_file) : dict kext :=
  fold_left scan_step plist_files [].

(** The records that came out of the normalizer, in scan order. *)
Definition normalized (plist_files : list plist_file) : list kext :=
  omap (λ f, parse_plist_file f.1 f.2) plist_files.

(** ** The graph builder ([create_graphml]) *)

Inductive edge_kind := depends | uses_library.

(** An edge as the loop decides it: the two bundle ids that go into
    [edges_added], and which of the two inner loops made it. *)
Record edge := Edge {
  source_id : string;
  target_id : string;
  kind : edge_kind;
}.

(** The state of the edge loop: the edges appended to the graph so far and
    the set [edges_added]. *)
Record edge_state := EdgeState {
  edges : list edge;
  edges_added : gset (string * string);
}.

(** The body shared by the two inner loops, for one [dep] (or [lib]):
<<
    if dep in kexts and (bundle_id, dep) not in edges_added:
        edge = ET.SubElement(graph, 'edge', ...)
        edges_added.add((bundle_id, dep))
>>
    [dep in kexts] hashes [dep], a TypeError on a list or a dict; a hashable
    value that is not a [str] equals no key. *)
Definition add_edge (k : edge_kind) (kexts : dict kext) (bundle_id : string)
    (st : edge_state) (dep : value) : option edge_state :=
  match dep with
  | VList _ | VDict _ => None
  | VStr t =>
      if PyDict.mem t kexts && bool_decide ((bundle_id, t) ∉ edges_added st)
      then Some {| edges := edges st ++ [Edge bundle_id t k];
                   edges_added := {[ (bundle_id, t) ]} ∪ edges_added st |}
      else Some st
  | _ => Some st
  end.

(** The body of the outer loop over [kexts.items()]: the dependencies, then
    the libraries. *)
Definition edges_of_item (kexts : dict kext) (st : edge_state)
    (item : string * kext) : option edge_state :=
  st' ← Py.for_each (add_edge depends kexts item.1) (dependencies item.2) st;
  Py.for_each (add_edge uses_library kexts item.1) (libraries item.2) st'.

(** The edge loop of [create_graphml] (from [edges_added = set()] on). *)
Definition edge_loop (kexts : dict kext) : option edge_state :=
  Py.for_each (edges_of_item kexts) kexts
    {| edges := []; edges_added := ∅ |}.

(** The attributes of the XML elements. *)
Definition sanitize (bundle_id : string) : string := PyStr.replace "." "_" bundle_id.

Record edge_element := {
  source : string;
  target : string;
  label : string;
}.

Definition edge_label (k : edge_kind) : string :=
  match k with depends => "depends" | uses_library => "uses library" end.

Definition render_edge (e : edge) : edge_element :=
  {| source := sanitize (source_id e);
     target := sanitize (target_id e);
     label := edge_label (kind e) |}.

(** What [create_graphml] puts under the [graph] element: one node per item
    of [kexts] (its [id]; the label is display text and is left out) and the
    edges in the order they were appended. *)
Record graphml := {
  node_ids : list string;
  edge_elements : list edge_element;
}.

Definition create_graphml (kexts : dict kext) : option graphml :=
  st ← edge_loop kexts;
  Some {| node_ids := map sanitize (PyDict.keys kexts);
          edge_elements := map render_edge (edges st) |}.

(** The dependency graph behind the document: the nodes are [kexts], the
    edges those of the loop. *)
Definition graph_edges (kexts : dict kext) : option (list edge) :=
  edges <$> edge_loop kexts.

(** ** The dataset analysis and the diff ([compare_kexts.py]) *)

Module Compare.

(** One record of a dataset read back from JSON, with the four fields
    [analyze_kexts] reads.  Each may be absent (the [.get] defaults of the
    source); a present field has the type of the data model. *)
Record entry := Entry {
  name : option string;
  version : option string;
  libraries : option (list string);
  dependencies : option (list string);
}.

(** The literal [categories = {'graphics': 0, ..., 'other': 0}]. *)
Definition initial_categories : dict nat :=
  [("graphics", 0); ("audio", 0); ("usb", 0); ("bluetooth", 0);
   ("apple_specific", 0); ("intel", 0); ("amd", 0); ("other", 0)].

(** [categories[key] += 1] *)
Definition increment (key : string) (categories : dict nat) : dict nat :=
  PyDict.set key (default 0 (PyDict.get key categories) + 1) categories.

(** The body of the first loop: lower-case the name and the key, run the
    cascade, add one to the branch taken. *)
Definition tally_step (categories : dict nat) (item : string * entry) : dict nat :=
  let name := PyStr.lower (default "" (name item.2)) in
  let bundle_lower := PyStr.lower item.1 in
  increment (category_key (cascade name bundle_lower)) categories.

(** The body of the version loop:
<<
    version = kext.get('version', 'N/A')
    versions[version] = versions.get(version, 0) + 1
>> *)
Definition count_version (versions : dict nat) (kext : entry) : dict nat :=
  let version := default "N/A" (version kext) in
  PyDict.set version (default 0 (PyDict.get version versions) + 1) versions.

(** [sorted(items, key=lambda x: x[1], reverse=True)]: a stable sort into
    descending counts, items of equal count staying in their order.  What a
    stable sort returns does not depend on the algorithm; the model inserts
    each item before the first one that does not have a larger count. *)
Fixpoint insert_desc (x : string * nat) (l : list (string * nat))
  : list (string * nat) :=
  match l with
  | [] => [x]
  | y :: r => if (x.2 <? y.2)%nat then y :: insert_desc x r else x :: y :: r
  end.

Definition sorted_desc (items : list (string * nat)) : list (string * nat) :=
  foldr insert_desc [] items.

Record analysis := Analysis {
  total : nat;
  categories : dict nat;
  total_libraries : nat;
  total_dependencies : nat;
  unique_versions : nat;
  top_versions : list (string * nat);
}.

(** [analyze_kexts(data)] *)
Definition analyze_kexts (data : dict entry) : analysis :=
  let categories := fold_left tally_step data initial_categories in
  let versions := fold_left count_version (PyDict.values data) [] in
  {| total := PyDict.len data;
     categories := categories;
     total_libraries :=
       sum_list (map (λ kext, length (default [] (libraries kext))) (PyDict.values data));
     total_dependencies :=
       sum_list (map (λ kext, length (default [] (dependencies kext))) (PyDict.values data));
     unique_versions := PyDict.len versions;
     top_versions := take 5 (sorted_desc versions) |}.

(** The quantities [compare_kext_datasets] computes from the two loaded
    datasets: the two analyses and the three sets of bundle ids. *)
Record comparison := Comparison {
  vmapple_analysis : analysis;
  host_analysis : analysis;
  only_in_vmapple : gset string;
  only_in_host : gset string;
  common : gset string;
}.

Definition compare_kext_datasets (vmapple host : dict entry) : comparison :=
  let vmapple_bundles : gset string := list_to_set (PyDict.keys vmapple) in
  let host_bundles : gset string := list_to_set (PyDict.keys host) in
  {| vmapple_analysis := analyze_kexts vmapple;
     host_analysis := analyze_kexts host;
     only_in_vmapple := vmapple_bundles ∖ host_bundles;
     only_in_host := host_bundles ∖ vmapple_bundles;
     common := vmapple_bundles ∩ host_bundles |}.

(** [ids(A)]: the bundle ids of a dataset. *)
Definition ids (data : dict entry) : gset string := list_to_set (PyDict.keys data).

End Compare.

(** ** The specification's vocabulary *)

(** *** The rule list of the categorizer, as the specification words it *)

(** A rule names its category, the patterns looked for in [name] and the
    patterns looked for in [bundle_id]. *)
Record rule := Rule {
  rule_category : category;
  name_patterns : list string;
  bundle_patterns : list string;
}.

Definition spec_rules : list rule :=
  [ Rule graphics ["graphics"; "metal"; "gpu"; "framebuffer"] [];
    Rule audio ["audio"] ["hda"];
    Rule usb ["usb"] ["usb"];
    Rule bluetooth ["bluetooth"] ["bt"];
    Rule apple_specific [] ["apple"];
    Rule intel ["intel"] ["intel"];
    Rule amd ["amd"] [] ].

(** Letter case, as the alphabet has it: each capital with its small
    letter.  The specification's "case-insensitive" is read off this table,
    not off the [lower()] of the source. *)
Definition capitals : string := "ABCDEFGHIJKLMNOPQRSTUVWXYZ".
Definition small_letters : string := "abcdefghijklmnopqrstuvwxyz".

Definition alphabet : list (ascii * ascii) :=
  zip (list_ascii_of_string capitals) (list_ascii_of_string small_letters).

(** Two characters are the same letter when case is ignored: the same
    character, or a capital and its small letter, either way round. *)
Definition same_letter (a b : ascii) : bool :=
  Ascii.eqb a b
  || existsb (λ p, (Ascii.eqb a p.1 && Ascii.eqb b p.2)
                   || (Ascii.eqb a p.2 && Ascii.eqb b p.1)) alphabet.

(** Two strings of the same length that agree letter by letter, case
    ignored. *)
Inductive equal_ignoring_case : string → string → Prop :=
  | equal_empty : equal_ignoring_case "" ""
  | equal_letter a b s t :
      same_letter a b = true → equal_ignoring_case s t →
      equal_ignoring_case (String a s) (String b t).

(** [pattern] occurs in [s] when letter case is ignored: some contiguous run
    of [s] is [pattern] up to case. *)
Definition occurs_ignoring_case (pattern s : string) : Prop :=
  ∃ pre mid post,
    s = pre +:+ mid +:+ post ∧ equal_ignoring_case pattern mid.

(** The same as a test: [pattern] stands at the head of [s], case ignored. *)
Fixpoint heads_ignoring_case (pattern s : string) : bool :=
  match pattern, s with
  | EmptyString, _ => true
  | String _ _, EmptyString => false
  | String a p, String b t => same_letter a b && heads_ignoring_case p t
  end.

(** [pattern] stands at the head of [s] or of one of its tails. *)
Fixpoint occurs_ci (pattern s : string) : bool :=
  heads_ignoring_case pattern s ||
  match s with
  | EmptyString => false
  | String _ t => occurs_ci pattern t
  end.

Definition rule_matches (r : rule) (name bundle_id : string) : bool :=
  existsb (λ p, occurs_ci p name) (name_patterns r)
  || existsb (λ p, occurs_ci p bundle_id) (bundle_patterns r).

(** Ordered, short-circuiting evaluation: the first rule that matches gives
    the category, [other] when none does. *)
Fixpoint first_match (rules : list rule) (name bundle_id : string) : category :=
  match rules with
  | [] => other
  | r :: rest =>
      if rule_matches r name bundle_id then rule_category r
      else first_match rest name bundle_id
  end.

(** *** Shapes of a raw field, as the specification words them *)

Inductive shape := Mapping (m : list (string * value)) | Sequence (l : list value) | OtherShape.

(** The shape of a field of the raw mapping; a missing field is [None]. *)
Definition shape_of (field : option value) : shape :=
  match field with
  | Some (VDict m) => Mapping m
  | Some (VList l) => Sequence l
  | _ => OtherShape
  end.

(** "A mapping: its keys in encounter order; a sequence: as it is; any other
    shape: the empty sequence." *)
Definition spec_coerce (field : option value) : list value :=
  match shape_of field with
  | Mapping m => map (λ kv, VStr kv.1) m
  | Sequence l => l
  | OtherShape => []
  end.

(** The raw mapping with one field replaced (or added). *)
Definition with_field (k : string) (v : value) (d : list (string * value)) :=
  PyDict.set k v d.

(** The raw mapping without a field. *)
Definition without_field (k : string) (d : list (string * value)) :=
  filter (λ kv, kv.1 ≠ k) d.

(** *** Ranking of the version histogram *)

(** The position at which [v] is first met in [vs] ([length vs] if never). *)
Fixpoint first_index (v : string) (vs : list string) : nat :=
  match vs with
  | [] => 0
  | x :: r => if String.eqb v x then 0 else S (first_index v r)
  end.

(** How often [v] occurs in [vs]. *)
Definition occurrences (v : string) (vs : list string) : nat :=
  length (filter (λ x, x = v) vs).

(** [a] ranks before [b]: a higher count, or the same count and first met
    earlier. *)
Definition ranks_before (vs : list string) (a b : string * nat) : Prop :=
  (b.2 < a.2)%nat ∨ (a.2 = b.2 ∧ (first_index a.1 vs < first_index b.1 vs)%nat).

(** *** Edges *)

(** Two edges join the same two ids, in whichever direction. *)
Definition same_unordered_pair (e1 e2 : edge) : Prop :=
  (source_id e1 = source_id e2 ∧ target_id e1 = target_id e2)
  ∨ (source_id e1 = target_id e2 ∧ target_id e1 = source_id e2).

(** Two edges run from the same source to the same target. *)
Definition same_ordered_pair (e1 e2 : edge) : Prop :=
  source_id e1 = source_id e2 ∧ target_id e1 = target_id e2.

(** No two edges of [es], at different positions, are related by [R]. *)
Definition at_most_one_per (R : edge → edge → Prop) (es : list edge) : Prop :=
  ∀ i j e1 e2, es !! i = Some e1 → es !! j = Some e2 → R e1 e2 → i = j.

(** ** Auxiliary notions for the proofs *)

(** *** Graph builder *)

(** The pair that an edge puts into [edges_added]. *)
Definition pair_of (e : edge) : string * string := (source_id e, target_id e).

(** What the edge loop keeps true of its state: no ordered pair has two
    edges, [edges_added] holds exactly the pairs of the edges made, and each
    edge joins two keys of [kexts]. *)
Record edge_invariant (kexts : dict kext) (st : edge_state) : Prop := {
  inv_nodup : NoDup (map pair_of (edges st));
  inv_added : ∀ p, p ∈ edges_added st ↔ p ∈ map pair_of (edges st);
  inv_nodes : Forall (λ e, PyDict.mem (source_id e) kexts = true
                           ∧ PyDict.mem (target_id e) kexts = true) (edges st);
}.

(** Every reference of the record can be hashed (strings can). *)
Definition only_hashable_references (k : kext) : Prop :=
  Forall (λ v, Py.hashable v = true) (dependencies k)
  ∧ Forall (λ v, Py.hashable v = true) (libraries k).

(** *** Scan *)

(** What the scan loop does with a record the normalizer returned. *)
Definition store (kexts : dict kext) (data : kext) : dict kext :=
  if negb (String.eqb (bundle_id data) "")
  then PyDict.set (bundle_id data) data kexts
  else kexts.

(** The two raw fields that go through [coerce_sequence]. *)
Definition requirement_fields : list string :=
  ["OSBundleRequirements"; "OSBundleLibraries"].

(** *** Analysis *)

(** [categories[key]] for the key of [c], 0 if the key were absent. *)
Definition category_count (c : category) (categories : dict nat) : nat :=
  default 0 (PyDict.get (category_key c) categories).

(** [kext.get('version', 'N/A')] *)
Definition version_of (kext : Compare.entry) : string :=
  match Compare.version kext with Some v => v | None => "N/A" end.

(** The version loop on the version strings themselves. *)
Definition tick (versions : dict nat) (version : string) : dict nat :=
  PyDict.set version (default 0 (PyDict.get version versions) + 1) versions.

(** [a] is first met before [b] in [vs]. *)
Definition met_before (vs : list string) (a b : string) : Prop :=
  (first_index a vs < first_index b vs)%nat.

(** [d] is the histogram of [vs]: a dict, one item per distinct string with
    its number of occurrences, the items in the order the strings are first
    met. *)
Record histogram_of (vs : list string) (d : dict nat) : Prop := {
  hist_wf : PyDict.wf d;
  hist_counts : ∀ v c, (v, c) ∈ d ↔ v ∈ vs ∧ c = occurrences v vs;
  hist_order : StronglySorted (met_before vs) (PyDict.keys d);
}.

(** Descending counts, equal counts allowed. *)
Definition count_ge (a b : string * nat) : Prop := (b.2 ≤ a.2)%nat.

(** The items of [l] whose count is [c], in their order. *)
Definition with_count (c : nat) (l : list (string * nat)) : list (string * nat) :=
  filter (λ e, e.2 = c) l.

(** ** Concrete inputs used below *)

Module Samples.

(** A decoded descriptor with an identifier, a name and further fields. *)
Definition descriptor (id name : string) (fields : list (string * value)) : value :=
  VDict (("CFBundleIdentifier", VStr id) :: ("CFBundleName", VStr name) :: fields).

(** A record with the given references and nothing else of interest. *)
Definition record (id : string) (deps libs : list string) : kext :=
  {| path := "Info.plist"; bundle_id := id; name := VStr ""; version := VStr "";
     executable := VStr "";
     kext_name := default "" (PyStr.last_item (PyStr.split "." id));
     source_type := "kext";
     dependencies := map VStr deps; libraries := map VStr libs;
     iokit_classes := []; provides := [] |}.

(** Two descriptors that require each other. *)
Definition mutual_files : list plist_file :=
  [ ("/a/Info.plist",
     Some (descriptor "com.x.a" "A"
             [("OSBundleRequirements", VDict [("com.x.b", VStr "1.0")])]));
    ("/b/Info.plist",
     Some (descriptor "com.x.b" "B"
             [("OSBundleRequirements", VDict [("com.x.a", VStr "1.0")])])) ].

(** The dataset the scan makes of them: two records, [com.x.a] with the one
    requirement [com.x.b] and [com.x.b] with the one requirement [com.x.a]. *)
Definition mutual : dict kext := scan_kexts_only mutual_files.

(** [com.x.b] names [com.x.a] as a requirement and as a library, and names
    [com.x.gone], which is not in the dataset. *)
Definition overlapping : dict kext :=
  [ ("com.x.a", record "com.x.a" [] []);
    ("com.x.b", record "com.x.b" ["com.x.a"; "com.x.gone"] ["com.x.a"; "com.x.gone"]) ].

(** Three files; the first and the last carry the same identifier. *)
Definition twice : list plist_file :=
  [ ("/a/Info.plist", Some (descriptor "com.x.a" "Old" []));
    ("/b/Info.plist", Some (descriptor "com.x.b" "B" []));
    ("/c/Info.plist", Some (descriptor "com.x.a" "New" [])) ].

(** The records the normalizer returns for the three files of [twice]. *)
Definition normalized_as (file_path id name : string) : kext :=
  {| path := file_path; bundle_id := id; name := VStr name; version := VStr "";
     executable := VStr ""; kext_name := default "" (PyStr.last_item (PyStr.split "." id));
     source_type := "kext"; dependencies := []; libraries := [];
     iokit_classes := []; provides := [] |}.

Definition older : kext := normalized_as "/a/Info.plist" "com.x.a" "Old".
Definition other_record : kext := normalized_as "/b/Info.plist" "com.x.b" "B".
Definition newer : kext := normalized_as "/c/Info.plist" "com.x.a" "New".

(** The requirement field as a mapping, the library field as a string. *)
Definition dual_shape : list (string * value) :=
  [ ("CFBundleIdentifier", VStr "com.x.d");
    ("OSBundleRequirements", VDict [("com.x.a", VInt 1); ("com.x.b", VInt 2)]);
    ("OSBundleLibraries", VStr "com.x.a") ].

(** A personality that is a string in which [IOClass] occurs. *)
Definition bad_personality : list (string * value) :=
  [ ("CFBundleIdentifier", VStr "com.x.bad");
    ("IOKitPersonalities", VDict [("Main", VStr "IOClass=IOService")]) ].

(** The same descriptor without the personality. *)
Definition no_personality : list (string * value) :=
  [ ("CFBundleIdentifier", VStr "com.x.bad") ].

(** A descriptor that cannot be normalized, between two that can. *)
Definition with_malformed : list plist_file :=
  [ ("/a/Info.plist", Some (descriptor "com.x.a" "A" []));
    ("/bad/Info.plist", Some (VDict bad_personality));
    ("/b/Info.plist", Some (descriptor "com.x.b" "B" [])) ].

(** A dataset whose versions are 1.0, 1.0, 2.0. *)
Definition three_versions : dict Compare.entry :=
  [ ("com.x.a", Compare.Entry (Some "A") (Some "1.0") (Some []) (Some []));
    ("com.x.b", Compare.Entry (Some "B") (Some "1.0") (Some []) (Some []));
    ("com.x.c", Compare.Entry (Some "C") (Some "2.0") (Some []) (Some [])) ].

End Samples.

(** ** Further notions for the normalizer and the scan *)

(** The pieces of [init], each followed by the separator, in a row. *)
Fixpoint joined (sep : ascii) (init : list string) : string :=
  match init with
  | [] => ""
  | p :: r => p +:+ String sep (joined sep r)
  end.

(** [x] is a string, or is missing. *)
Definition absent_or_string (x : option value) : Prop :=
  x = None ∨ ∃ s, x = Some (VStr s).

(** A value of the personalities mapping that the loop of
    [parse_plist_file] and the later [set(...)] get past: a string in which
    [IOClass] does not occur, a list none of whose elements is the string
    [IOClass], or a mapping whose [IOClass] entry, if any, can be hashed. *)
Definition harmless_personality (v : value) : Prop :=
  (∃ s, v = VStr s ∧ PyStr.contains "IOClass" s = false)
  ∨ (∃ l, v = VList l ∧ VStr "IOClass" ∉ l)
  ∨ (∃ pd, v = VDict pd ∧
       ∀ c, PyDict.get "IOClass" pd = Some c → Py.hashable c = true).

(** The personalities field lets the record through: it is missing, or not
    a mapping, or a mapping of harmless values. *)
Definition harmless_personalities (x : option value) : Prop :=
  match x with
  | Some (VDict m) => ∀ key v, (key, v) ∈ m → harmless_personality v
  | _ => True
  end.

(** The decoded file can be normalized. *)
Definition normalizable (decoded : option value) : Prop :=
  ∃ d, decoded = Some (VDict d)
       ∧ absent_or_string (PyDict.get "CFBundleIdentifier" d)
       ∧ harmless_personalities (PyDict.get "IOKitPersonalities" d).

(** The [IOClass] value of a personality that is a mapping and has one. *)
Definition io_class (item : string * value) : option value :=
  match item.2 with
  | VDict pd => PyDict.get "IOClass" pd
  | _ => None
  end.

(** The distinct elements of [xs], each at its first position. *)
Fixpoint first_occurrences (xs : list string) : list string :=
  match xs with
  | [] => []
  | x :: r => x :: filter (λ y, y ≠ x) (first_occurrences r)
  end.

(** The non-empty bundle ids of the normalized records, in scan order. *)
Definition stored_ids (plist_files : list plist_file) : list string :=
  filter (λ s, s ≠ "") (map bundle_id (normalized plist_files)).

(** [r] is [r0] with its [iokit_classes] in some order. *)
Definition reordered (r0 r : kext) : Prop :=
  iokit_classes r ≡ₚ iokit_classes r0
  ∧ r = {| path := path r0; bundle_id := bundle_id r0; name := name r0;
           version := version r0; executable := executable r0;
           kext_name := kext_name r0; source_type := source_type r0;
           dependencies := dependencies r0; libraries := libraries r0;
           iokit_classes := iokit_classes r; provides := provides r0 |}.

(** [r] is what [parse_plist_file] returns, up to the order in which
    [list(set(iokit_services))] lists the classes: a run of the source
    returns the record of the model with its [iokit_classes] in the order of
    the hashes of that run. *)
Definition returns_up_to_set_order (plist_path : string) (decoded : option value)
    (r : kext) : Prop :=
  ∃ r0, parse_plist_file plist_path decoded = Some r0 ∧ reordered r0 r.

(** ** Further notions for the graph builder *)

(** How the record [r] lists [t] for an edge of kind [k]: among its
    requirements, or among its libraries and not among its requirements. *)
Definition listed_as (k : edge_kind) (r : kext) (t : string) : Prop :=
  match k with
  | depends => VStr t ∈ dependencies r
  | uses_library => VStr t ∈ libraries r ∧ VStr t ∉ dependencies r
  end.

(** What one inner loop adds to the state [st0] it starts from, for the
    source [s], the kind [k] and the entries [ds]: the edges [new], one for
    each entry that is a key and whose pair [st0] does not hold. *)
Definition inner_post (kexts : dict kext) (k : edge_kind) (s : string)
    (st0 : edge_state) (ds : list value) (st : edge_state) : Prop :=
  ∃ new,
    edges st = edges st0 ++ new
    ∧ (∀ p, p ∈ edges_added st ↔ p ∈ edges_added st0 ∨ p ∈ map pair_of new)
    ∧ ∀ e, e ∈ new ↔
        ∃ t, e = Edge s t k ∧ VStr t ∈ ds ∧ PyDict.mem t kexts = true
             ∧ (s, t) ∉ edges_added st0.

(** What the outer loop has established after the items [pre]. *)
Definition outer_post (kexts : dict kext) (pre : dict kext) (st : edge_state) : Prop :=
  (∀ p, p ∈ edges_added st ↔ p ∈ map pair_of (edges st))
  ∧ ∀ s t k, Edge s t k ∈ edges st ↔
      ∃ r, (s, r) ∈ pre ∧ PyDict.mem t kexts = true ∧ listed_as k r t.

(** The number of references a record makes. *)
Definition references (r : kext) : nat :=
  (length (dependencies r) + length (libraries r))%nat.

(** ** [generate_statistics] of [analyze_kexts.py] *)

(** [kext.get('name', '').lower()], as far as the cascade can use it: a
    [str] is lower-cased; bytes have [lower()] too but then make
    ['graphics' in name] a TypeError, and no other value has the method. *)
Definition lowered_name (name : value) : option string :=
  match name with
  | VStr s => Some (PyStr.lower s)
  | _ => None
  end.

(** The literal [categories = {'graphics': 0, ..., 'other': 0}] of
    [generate_statistics] (lines 210 to 219 of [analyze_kexts.py]). *)
Definition statistics_categories : dict nat :=
  [("graphics", 0); ("audio", 0); ("usb", 0); ("bluetooth", 0);
   ("apple_specific", 0); ("intel", 0); ("amd", 0); ("other", 0)].

(** [categories[key] += 1]: the entry is read, then written; reading a key
    that is not there is a KeyError. *)
Definition add_one (key : string) (categories : dict nat) : option (dict nat) :=
  n ← PyDict.get key categories;
  Some (PyDict.set key (n + 1) categories).

(** The body of the category loop of [generate_statistics], transcribed
    from lines 221 to 240 of [analyze_kexts.py] on its own, not through the
    cascade of [compare_kexts.py]:
<<
    name = kext.get('name', '').lower()
    bundle_lower = bundle_id.lower()
    if 'graphics' in name or 'metal' in name or 'gpu' in name or 'framebuffer' in name:
        categories['graphics'] += 1
    elif 'audio' in name or 'hda' in bundle_lower:
        categories['audio'] += 1
    elif 'usb' in name or 'usb' in bundle_lower:
        categories['usb'] += 1
    elif 'bluetooth' in name or 'bt' in bundle_lower:
        categories['bluetooth'] += 1
    elif 'apple' in bundle_lower:
        categories['apple_specific'] += 1
    elif 'intel' in name or 'intel' in bundle_lower:
        categories['intel'] += 1
    elif 'amd' in name:
        categories['amd'] += 1
    else:
        categories['other'] += 1
>> *)
Definition statistics_step (categories : dict nat) (item : string * kext)
  : option (dict nat) :=
  name ← lowered_name (name item.2);
  let bundle_lower := PyStr.lower item.1 in
  if PyStr.contains "graphics" name || PyStr.contains "metal" name
     || PyStr.contains "gpu" name || PyStr.contains "framebuffer" name
  then add_one "graphics" categories
  else if PyStr.contains "audio" name || PyStr.contains "hda" bundle_lower
  then add_one "audio" categories
  else if PyStr.contains "usb" name || PyStr.contains "usb" bundle_lower
  then add_one "usb" categories
  else if PyStr.contains "bluetooth" name || PyStr.contains "bt" bundle_lower
  then add_one "bluetooth" categories
  else if PyStr.contains "apple" bundle_lower
  then add_one "apple_specific" categories
  else if PyStr.contains "intel" name || PyStr.contains "intel" bundle_lower
  then add_one "intel" categories
  else if PyStr.contains "amd" name
  then add_one "amd" categories
  else add_one "other" categories.

(** What [generate_statistics] prints. *)
Record statistics := Statistics {
  total_kexts : nat;
  total_deps : nat;
  total_libs : nat;
  category_distribution : dict nat;
}.

(** [generate_statistics(kexts)]; [None] when the category loop raises. *)
Definition generate_statistics (kexts : dict kext) : option statistics :=
  let total_deps := sum_list (map (λ k, length (dependencies k)) (PyDict.values kexts)) in
  let total_libs := sum_list (map (λ k, length (libraries k)) (PyDict.values kexts)) in
  categories ← Py.for_each statistics_step kexts statistics_categories;
  Some {| total_kexts := PyDict.len kexts;
          total_deps := total_deps;
          total_libs := total_libs;
          category_distribution := categories |}.

(** The name of a dataset record as the extraction would have stored it. *)
Definition stored_name (e : Compare.entry) : value :=
  VStr (default "" (Compare.name e)).

(** A stored record and a dataset record under the same key and name. *)
Definition same_key_and_name (item : string * kext) (e : string * Compare.entry) : Prop :=
  item.1 = e.1 ∧ name item.2 = stored_name e.2.

(** The dataset record with the name [s] and nothing else. *)
Definition named (s : string) : Compare.entry :=
  Compare.Entry (Some s) None None None.

(** ** The rest of [compare_kexts.py] *)

Module Report.

(** The first loop of [generate_comparison_report], over the bundle ids that
    only the first dataset has:
<<
    kext = vmapple[bundle_id]
    name = kext.get('name', '').lower()
    if 'usb' in name or 'hda' in bundle_id.lower():
        usb_audio_count += 1
    elif 'mobiledisp' in bundle_id.lower():
        mobile_display_count += 1
>>
    The state is the pair of the two counters.  [vmapple[bundle_id]] is a
    KeyError on an id that is no key, which [None] stands for. *)
Definition count_step (vmapple : dict Compare.entry) (counts : nat * nat)
    (bundle_id : string) : option (nat * nat) :=
  kext ← PyDict.get bundle_id vmapple;
  let name := PyStr.lower (default "" (Compare.name kext)) in
  if PyStr.contains "usb" name || PyStr.contains "hda" (PyStr.lower bundle_id)
  then Some (S counts.1, counts.2)
  else if PyStr.contains "mobiledisp" (PyStr.lower bundle_id)
  then Some (counts.1, S counts.2)
  else Some counts.

(** The test of the first list comprehension, on a bundle id. *)
Definition usb_or_hda (k : string) : bool :=
  PyStr.contains "usb" (PyStr.lower k) || PyStr.contains "hda" (PyStr.lower k).

(** The test of the last list comprehension, on a bundle id. *)
Definition pmgr_or_ppm (k : string) : bool :=
  PyStr.contains "pmgr" (PyStr.lower k) || PyStr.contains "ppm" (PyStr.lower k).

(** [sorted(set(xs))] for strings: the distinct elements in ascending order
    of their characters. *)
Definition sorted_set (xs : list string) : list string :=
  merge_sort String.le (elements (list_to_set xs : gset string)).

(** One row of the category table: the name, the two counts ([.get(cat, 0)])
    and their difference, which may be negative. *)
Definition category_row (va ha : Compare.analysis) (cat : string)
  : string * nat * nat * Z :=
  let vm_count := default 0%nat (PyDict.get cat (Compare.categories va)) in
  let host_count := default 0%nat (PyDict.get cat (Compare.categories ha)) in
  (cat, vm_count, host_count, (Z.of_nat vm_count - Z.of_nat host_count)%Z).

(** The rows of the category table, in both [compare_kext_datasets] (printed)
    and [generate_comparison_report] (written). *)
Definition category_table (va ha : Compare.analysis) : list (string * nat * nat * Z) :=
  map (category_row va ha)
      (sorted_set (PyDict.keys (Compare.categories va)
                   ++ PyDict.keys (Compare.categories ha))).

(** The numbers that [generate_comparison_report] puts into the report. *)
Record figures := Figures {
  common_count : nat;
  common_percent : Q;
  only_vmapple_count : nat;
  usb_audio_heading : nat;
  usb_audio_count : nat;
  mobile_display_count : nat;
  apple_silicon_count : nat;
  only_host_count : nat;
  power_management_count : nat;
  rows : list (string * nat * nat * Z);
}.

(** [generate_comparison_report(vmapple, host, vmapple_analysis,
    host_analysis)], up to the text around the numbers.  The percentage is
    [len(common) / max(len(vmapple), len(host)) * 100], a ZeroDivisionError
    when both datasets are empty; it is kept as the exact quotient, which the
    report prints rounded to one decimal.  The loop goes through the set
    [only_in_vmapple] in the order [elements] lists it. *)
Definition generate_comparison_report (vmapple host : dict Compare.entry)
    (vmapple_analysis host_analysis : Compare.analysis) : option figures :=
  let vmapple_bundles : gset string := list_to_set (PyDict.keys vmapple) in
  let host_bundles : gset string := list_to_set (PyDict.keys host) in
  let common := size (vmapple_bundles ∩ host_bundles) in
  let largest := Nat.max (PyDict.len vmapple) (PyDict.len host) in
  if (largest =? 0)%nat then None
  else
    let only_in_vmapple := vmapple_bundles ∖ host_bundles in
    counts ← Py.for_each (count_step vmapple) (elements only_in_vmapple) (0%nat, 0%nat);
    Some {| common_count := common;
            common_percent :=
              (inject_Z (Z.of_nat common) / inject_Z (Z.of_nat largest) * 100)%Q;
            only_vmapple_count := size only_in_vmapple;
            usb_audio_heading :=
              length (filter (λ k, PyDict.mem k host = false ∧ usb_or_hda k = true)
                             (PyDict.keys vmapple));
            usb_audio_count := counts.1;
            mobile_display_count := counts.2;
            apple_silicon_count :=
              length (filter (λ k, PyStr.contains "t8015" (PyStr.lower k) = true)
                             (elements only_in_vmapple));
            only_host_count := size (host_bundles ∖ vmapple_bundles);
            power_management_count :=
              length (filter (λ k, PyDict.mem k vmapple = false ∧ pmgr_or_ppm k = true)
                             (PyDict.keys host));
            rows := category_table vmapple_analysis host_analysis |}.

(** [compare_kext_datasets] from the loaded datasets to its last line, which
    calls the report generator with the two analyses. *)
Definition compare_and_report (vmapple host : dict Compare.entry)
  : option (Compare.comparison * figures) :=
  let c := Compare.compare_kext_datasets vmapple host in
  f ← generate_comparison_report vmapple host
         (Compare.vmapple_analysis c) (Compare.host_analysis c);
  Some (c, f).

End Report.

(** The eight category names in ascending order. *)
Definition sorted_category_names : list string :=
  ["amd"; "apple_specific"; "audio"; "bluetooth"; "graphics"; "intel"; "other"; "usb"].

(** The test of the first branch of the report loop, for the id [k] of the
    dataset [data]. *)
Definition usb_audio_record (data : dict Compare.entry) (k : string) : bool :=
  match PyDict.get k data with
  | Some kext =>
      PyStr.contains "usb" (PyStr.lower (default "" (Compare.name kext)))
      || PyStr.contains "hda" (PyStr.lower k)
  | None => false
  end.

(** The test of the second branch, reached when the first one fails. *)
Definition mobile_display_record (data : dict Compare.entry) (k : string) : bool :=
  negb (usb_audio_record data k) && PyStr.contains "mobiledisp" (PyStr.lower k).

(** The difference column of a category table, added up. *)
Definition difference_total (rows : list (string * nat * nat * Z)) : Z :=
  foldr Z.add 0%Z (map snd rows).

(** ** The orchestration ([main.py]) *)

Module Suite.

(** The command-line flags. *)
Record args := Args {
  flag_all : bool;
  flag_analyze : bool;
  flag_compare : bool;
  flag_visualize : bool;
  flag_vmapple : bool;
  flag_host : bool;
  flag_check : bool;
}.

(** What [main] prints itself (what [run_script] and the scripts print is
    theirs). *)
Inductive message :=
  | Banner
  | Help
  | MissingFiles (files : list string)
  | AllFilesExist
  | SomeFilesMissing
  | RunningWorkflow
  | FailedAnalysis
  | FailedComparison
  | SkippingComparison
  | FailedVisualization
  | SkippingVisualization
  | WorkflowFinished
  | CannotCompare
  | CannotVisualize
  | VmappleNotImplemented
  | HostNotImplemented.

(** [any(vars(args).values())] *)
Definition any_flag (a : args) : bool :=
  flag_all a || flag_analyze a || flag_compare a || flag_visualize a
  || flag_vmapple a || flag_host a || flag_check a.

Definition required_files : list string :=
  ["vmapple_kext/kexts_data.json"; "host_kext/kexts_data.json"].

Section World.

(** The file system and the subprocesses are outside the program: [world] is
    their state, [exists_file] is [os.path.exists] and [run script w] is what
    [run_script] returns for [script] started in [w], with the state it
    leaves. *)
Context {world : Type}.
Variable exists_file : world → string → bool.
Variable run : string → world → bool * world.

(** What happens, in order: a script run in a state with its result, or a
    message. *)
Inductive event :=
  | Ran (script : string) (before : world) (ok : bool)
  | Said (m : message).

(** A computation that reads and changes the world and logs events. *)
Definition action (A : Type) : Type := world → A * list event * world.

Definition ret {A} (x : A) : action A := λ w, (x, [], w).

Definition bind {A B} (m : action A) (k : A → action B) : action B :=
  λ w, let '(x, log1, w1) := m w in
       let '(y, log2, w2) := k x w1 in
       (y, log1 ++ log2, w2).

Definition say (m : message) : action unit := λ w, (tt, [Said m], w).

(** [run_script(script_name, description)] *)
Definition run_script (script : string) : action bool :=
  λ w, let '(ok, w') := run script w in (ok, [Ran script w ok], w').

(** [check_data_files()] *)
Definition check_data_files : action bool :=
  λ w, let missing_files := filter (λ f, exists_file w f = false) required_files in
       match missing_files with
       | [] => (true, [], w)
       | _ => (false, [Said (MissingFiles missing_files)], w)
       end.

(** A step of the workflow that needs the data files: run [script] if they
    are there and report [failed] if it fails, report [skipped] if not. *)
Definition guarded_step (script : string) (failed skipped : message) : action unit :=
  bind check_data_files (λ present,
    if present : bool
    then bind (run_script script) (λ ok, if ok : bool then ret tt else say failed)
    else say skipped).

(** The branch [if args.all:] *)
Definition workflow : action unit :=
  bind (say RunningWorkflow) (λ _,
  bind (run_script "analyze_kexts.py") (λ ok,
    if ok : bool
    then
      bind (guarded_step "compare_kexts.py" FailedComparison SkippingComparison) (λ _,
      bind (guarded_step "generate_visualizations.py"
              FailedVisualization SkippingVisualization) (λ _,
      say WorkflowFinished))
    else say FailedAnalysis)).

(** A single component that needs the data files: the result of the script
    is not looked at. *)
Definition component (script : string) (cannot : message) : action unit :=
  bind check_data_files (λ present,
    if present : bool
    then bind (run_script script) (λ _, ret tt)
    else say cannot).

Definition when (b : bool) (m : action unit) : action unit :=
  if b then m else ret tt.

(** The individual components, after the three early returns. *)
Definition components (a : args) : action unit :=
  bind (when (flag_analyze a) (bind (run_script "analyze_kexts.py") (λ _, ret tt))) (λ _,
  bind (when (flag_compare a) (component "compare_kexts.py" CannotCompare)) (λ _,
  bind (when (flag_visualize a)
          (component "generate_visualizations.py" CannotVisualize)) (λ _,
  bind (when (flag_vmapple a) (say VmappleNotImplemented)) (λ _,
  when (flag_host a) (say HostNotImplemented))))).

(** [main()], from the parsed arguments on. *)
Definition main (a : args) : action unit :=
  bind (say Banner) (λ _,
    if negb (any_flag a) then say Help
    else if flag_check a then
      bind check_data_files (λ present,
        if present : bool then say AllFilesExist else say SomeFilesMissing)
    else if flag_all a then workflow
    else components a).

(** The log of a run and the state it ends in. *)
Definition log_of (m : action unit) (w : world) : list event := (m w).1.2.
Definition final (m : action unit) (w : world) : world := (m w).2.

End World.

(** The scripts of a log, in order. *)
Definition scripts {world : Type} (log : list (@event world)) : list string :=
  omap (λ e, match e with Ran s _ _ => Some s | Said _ => None end) log.

(** Both data files exist. *)
Definition data_present {world : Type} (exists_file : world → string → bool)
    (w : world) : Prop :=
  ∀ f, f ∈ required_files → exists_file w f = true.

(** Every script that [m] starts, other than the analysis, is started with
    both data files there. *)
Definition guarded {world : Type} (exists_file : world → string → bool)
    (m : @action world unit) : Prop :=
  ∀ w s w0 ok, Ran s w0 ok ∈ (m w).1.2 →
    s = "analyze_kexts.py" ∨ data_present exists_file w0.

(** The three scripts, in the order of the workflow. *)
Definition all_scripts : list string :=
  ["analyze_kexts.py"; "compare_kexts.py"; "generate_visualizations.py"].

(** The scripts that [m] starts are some of [l], in the order of [l]. *)
Definition starts_among {world : Type} {A : Type} (m : @action world A)
    (l : list string) : Prop :=
  ∀ w, sublist (scripts (m w).1.2) l.

End Suite.

(** ** Further concrete inputs *)

Module MoreSamples.

(** Personalities: two with the same class, one with another, and a note
    that is no mapping. *)
Definition with_personalities : list (string * value) :=
  [ ("CFBundleIdentifier", VStr "com.x.p");
    ("IOKitPersonalities",
     VDict [ ("First", VDict [("IOClass", VStr "IOService")]);
             ("Second", VDict [("IOClass", VStr "IOService")]);
             ("Third", VDict [("IOClass", VStr "IOHID")]);
             ("Note", VStr "see the manual") ]) ].

(** The record it normalizes to, with its classes in the given order. *)
Definition personalities_record (classes : list value) : kext :=
  {| path := "/p/Info.plist"; bundle_id := "com.x.p"; name := VStr "";
     version := VStr ""; executable := VStr ""; kext_name := "p";
     source_type := "kext"; dependencies := []; libraries := [];
     iokit_classes := classes; provides := [] |}.

(** A descriptor without an identifier. *)
Definition nameless : list (string * value) := [("CFBundleName", VStr "Nameless")].

(** Two ids that differ in a dot and an underscore. *)
Definition colliding : dict kext :=
  [ ("com.x.a_b", Samples.record "com.x.a_b" [] []);
    ("com.x.a.b", Samples.record "com.x.a.b" [] []) ].

(** Two datasets with one id in common. *)
Definition vm_dataset : dict Compare.entry :=
  [ ("com.x.a", Compare.Entry (Some "A") (Some "1.0") (Some []) (Some []));
    ("com.x.serial", Compare.Entry (Some "USB Serial") (Some "1.0") (Some []) (Some []));
    ("com.x.mobiledisp", Compare.Entry (Some "Panel") (Some "2.0") (Some []) (Some [])) ].

Definition host_dataset : dict Compare.entry :=
  [ ("com.x.a", Compare.Entry (Some "A") (Some "1.0") (Some []) (Some []));
    ("com.x.pmgr", Compare.Entry (Some "Power") (Some "3.0") (Some []) (Some [])) ].

(** The numbers of the report on them. *)
Definition vm_host_figures : Report.figures :=
  {| Report.common_count := 1;
     Report.common_percent := (inject_Z 1 / inject_Z 3 * 100)%Q;
     Report.only_vmapple_count := 2;
     Report.usb_audio_heading := 0;
     Report.usb_audio_count := 1;
     Report.mobile_display_count := 1;
     Report.apple_silicon_count := 0;
     Report.only_host_count := 1;
     Report.power_management_count := 1;
     Report.rows := Report.category_table (Compare.analyze_kexts vm_dataset)
                      (Compare.analyze_kexts host_dataset) |}.

(** The keys and names of [Samples.overlapping] as a dataset. *)
Definition overlapping_names : dict Compare.entry :=
  [ ("com.x.a", named ""); ("com.x.b", named "") ].

(** What [generate_statistics] prints for [Samples.overlapping]. *)
Definition overlapping_statistics : statistics :=
  {| total_kexts := 2; total_deps := 2; total_libs := 2;
     category_distribution :=
       [("graphics", 0); ("audio", 0); ("usb", 0); ("bluetooth", 0);
        ("apple_specific", 0); ("intel", 0); ("amd", 0); ("other", 2)]%nat |}.

(** The document for [Samples.overlapping]. *)
Definition overlapping_document : graphml :=
  {| node_ids := ["com_x_a"; "com_x_b"];
     edge_elements := [ {| source := "com_x_b"; target := "com_x_a";
                           label := "depends" |} ] |}.

Definition colliding_document : graphml :=
  {| node_ids := ["com_x_a_b"; "com_x_a_b"]; edge_elements := [] |}.

(** A world that counts the scripts run so far; the data files are there
    once a script has run. *)
Definition data_after_first_run (w : nat) (f : string) : bool := (0 <? w)%nat.

(** Every script succeeds but the comparison. *)
Definition comparison_fails (script : string) (w : nat) : bool * nat :=
  (negb (String.eqb script "compare_kexts.py"), S w).

(** Every script fails. *)
Definition nothing_works (script : string) (w : nat) : bool * nat := (false, S w).

Definition only_all : Suite.args := Suite.Args true false false false false false false.
Definition every_flag : Suite.args := Suite.Args true true true true true true true.

End MoreSamples.

(** * Properties *)

(** Case analysis on every substring test of the goal. *)
Ltac split_contains :=
  repeat match goal with
    | |- context [PyStr.contains ?p ?s] =>
        destruct (PyStr.contains p s); simpl; try reflexivity
    end.

(** ** Strings *)

Module PyStrFacts.
Import PyStr.

Lemma lower_app a b : lower (a +:+ b) = lower a +:+ lower b.
Proof. induction a as [|c a IH]; simpl; [done | by rewrite IH]. Qed.

Lemma lower_app_inv s a b :
  lower s = a +:+ b → ∃ a' b', s = a' +:+ b' ∧ lower a' = a ∧ lower b' = b.
Proof.
  revert s. induction a as [|c a IH]; intros s H.
  - exists "", s. done.
  - destruct s as [|c' s]; simpl in H; [done|].
    injection H as Hc Hs. destruct (IH _ Hs) as (a' & b' & -> & Ha & Hb).
    exists (String c' a'), b'. simpl. by rewrite Hc, Ha.
Qed.

Lemma startswith_spec n h : startswith n h = true ↔ ∃ post, h = n +:+ post.
Proof.
  revert h. induction n as [|a n IH]; intros h; simpl.
  - split; [by exists h | done].
  - destruct h as [|b h].
    + split; [done | by intros [? ?]].
    + destruct (Ascii.eqb_spec a b) as [->|Hne].
      * rewrite IH. split; intros [post Hp]; exists post; [by rewrite Hp | by injection Hp].
      * split; [done | intros [post Hp]; by injection Hp as ? ?].
Qed.

Lemma contains_spec n h :
  contains n h = true ↔ ∃ pre post, h = pre +:+ n +:+ post.
Proof.
  induction h as [|c h IH]; simpl.
  - rewrite orb_false_r, startswith_spec. split.
    + intros [post Hp]. by exists "", post.
    + intros (pre & post & Hp). destruct pre; [by exists post | done].
  - rewrite orb_true_iff, startswith_spec, IH. split.
    + intros [[post Hp] | (pre & post & Hp)].
      * by exists "", post.
      * exists (String c pre), post. simpl. by rewrite Hp.
    + intros (pre & post & Hp). destruct pre as [|c' pre]; simpl in Hp.
      * left. by exists post.
      * right. injection Hp as _ Hp. by exists pre, post.
Qed.
End PyStrFacts.

(** ** The categorizer *)

(** The [lower()] of the source identifies exactly the characters that the
    alphabet calls the same letter.  Both sides are decided on each of the
    256 x 256 pairs of characters. *)
Lemma same_letter_lower a b :
  same_letter a b = Ascii.eqb (PyStr.lower_ascii a) (PyStr.lower_ascii b).
Proof.
  assert (Hall : ∀ c : ascii, c ∈ map ascii_of_nat (seq 0 256)).
  { intros c. rewrite <- (ascii_nat_embedding c). apply list_elem_of_fmap_2.
    apply elem_of_seq. pose proof (nat_ascii_bounded c). lia. }
  assert (Hcheck :
    forallb (λ x, forallb (λ y,
      Bool.eqb (same_letter x y)
               (Ascii.eqb (PyStr.lower_ascii x) (PyStr.lower_ascii y)))
      (map ascii_of_nat (seq 0 256))) (map ascii_of_nat (seq 0 256)) = true).
  { by vm_compute. }
  rewrite forallb_forall in Hcheck.
  specialize (Hcheck a (proj1 (list_elem_of_In _ _) (Hall a))).
  rewrite forallb_forall in Hcheck.
  specialize (Hcheck b (proj1 (list_elem_of_In _ _) (Hall b))).
  by apply Bool.eqb_prop in Hcheck.
Qed.

Lemma heads_ignoring_case_lower pattern s :
  heads_ignoring_case pattern s
  = PyStr.startswith (PyStr.lower pattern) (PyStr.lower s).
Proof.
  revert s. induction pattern as [|a p IH]; intros [|b t]; simpl; try done.
  rewrite same_letter_lower, IH. by destruct (Ascii.eqb _ _).
Qed.

(** The test of the source, [pattern in s.lower()] with a pattern in small
    letters, is the case-insensitive test of the rules. *)
Lemma occurs_ci_lower pattern s :
  occurs_ci pattern s = PyStr.contains (PyStr.lower pattern) (PyStr.lower s).
Proof.
  induction s as [|b t IH].
  - simpl. by rewrite heads_ignoring_case_lower.
  - cbn [occurs_ci PyStr.lower PyStr.contains].
    by rewrite IH, heads_ignoring_case_lower.
Qed.

Lemma equal_ignoring_case_lower s t :
  equal_ignoring_case s t ↔ PyStr.lower s = PyStr.lower t.
Proof.
  split.
  - induction 1 as [|a b s t Hab _ IH]; [done|]. simpl.
    rewrite same_letter_lower in Hab. apply Ascii.eqb_eq in Hab. by rewrite Hab, IH.
  - revert t. induction s as [|a s IH]; intros [|b t]; simpl; try done.
    + constructor.
    + intros [= Hab Hst]. constructor; [|by apply IH].
      rewrite same_letter_lower. by apply Ascii.eqb_eq.
Qed.

(** The test the rules use is case-insensitive substring search. *)
Lemma occurs_ci_spec pattern s :
  occurs_ci pattern s = true ↔ occurs_ignoring_case pattern s.
Proof.
  rewrite occurs_ci_lower. unfold occurs_ignoring_case.
  rewrite PyStrFacts.contains_spec. split.
  - intros (pre & post & H).
    apply PyStrFacts.lower_app_inv in H as (pre' & rest & -> & Hpre & Hrest).
    apply PyStrFacts.lower_app_inv in Hrest as (mid & post' & -> & Hmid & Hpost).
    exists pre', mid, post'. split; [done|]. by apply equal_ignoring_case_lower.
  - intros (pre & mid & post & -> & Hmid).
    apply equal_ignoring_case_lower in Hmid.
    exists (PyStr.lower pre), (PyStr.lower post).
    by rewrite !PyStrFacts.lower_app, Hmid.
Qed.

(** The cascade of the source is first-match evaluation of the rule list. *)
Lemma cascade_first_match name bundle_id :
  categorize name bundle_id = first_match spec_rules name bundle_id.
Proof.
  unfold categorize, cascade, spec_rules, first_match, rule_matches.
  cbn -[PyStr.contains PyStr.lower occurs_ci].
  rewrite !occurs_ci_lower.
  repeat match goal with
    | |- context [PyStr.lower (String ?c ?t)] =>
        let v := eval vm_compute in (PyStr.lower (String c t)) in
        change (PyStr.lower (String c t)) with v
    end.
  split_contains.
Qed.

(** The category does not depend on the case of the letters of the name
    and of the bundle id. *)
Lemma categorize_ignores_case name name' bundle_id bundle_id' :
  equal_ignoring_case name name' → equal_ignoring_case bundle_id bundle_id' →
  categorize name' bundle_id' = categorize name bundle_id.
Proof.
  rewrite !equal_ignoring_case_lower. unfold categorize. by intros -> ->.
Qed.

Lemma all_categories_complete c : c ∈ all_categories.
Proof. destruct c; unfold all_categories; rewrite !elem_of_cons; tauto. Qed.

Lemma all_categories_NoDup : NoDup all_categories.
Proof.
  unfold all_categories.
  repeat (apply NoDup_cons; split;
          [rewrite ?elem_of_cons, elem_of_nil; intros H; intuition discriminate |]).
  apply NoDup_nil_2.
Qed.

(** C3. The categorizer is total and single-valued over the eight categories:
    every record gets exactly one of them, the one of the first rule of the
    ordered rule list that matches (case-insensitive substring search on name
    and bundle id, case being that of the alphabet), [other] if none does.
    The category is the same for every way of writing the name and the
    bundle id in capitals and small letters.  "Intel USB Controller" with
    bundle id "com.example.usb" is [usb], not [intel]; so it is with the
    bundle id "com.example.device", where only the capitals "USB" of the name
    match the pattern [usb]; and the bundle id "com.APPLE.driver" is
    [apple_specific]. *)
Theorem categorizer_total_first_match (name bundle_id : string) :
  (exists! c, c ∈ all_categories ∧ categorize name bundle_id = c)
  ∧ NoDup all_categories ∧ length all_categories = 8
  ∧ categorize name bundle_id = first_match spec_rules name bundle_id
  ∧ (∀ pattern s, occurs_ci pattern s = true ↔ occurs_ignoring_case pattern s)
  ∧ (∀ name' bundle_id',
       equal_ignoring_case name name' → equal_ignoring_case bundle_id bundle_id' →
       categorize name' bundle_id' = categorize name bundle_id)
  ∧ categorize "Intel USB Controller" "com.example.usb" = usb
  ∧ categorize "Intel USB Controller" "com.example.usb" ≠ intel
  ∧ categorize "Intel USB Controller" "com.example.device" = usb
  ∧ PyStr.contains "usb" "Intel USB Controller" = false
  ∧ occurs_ci "usb" "Intel USB Controller" = true
  ∧ categorize "Panel" "com.APPLE.driver" = apple_specific
  ∧ categorize "INTEL GRAPHICS" "com.example.device" = graphics.
Proof.
  split_and!.
  - exists (categorize name bundle_id). split.
    + split; [apply all_categories_complete | done].
    + by intros c [_ <-].
  - apply all_categories_NoDup.
  - done.
  - apply cascade_first_match.
  - apply occurs_ci_spec.
  - intros name' bundle_id'. apply categorize_ignores_case.
  - by vm_compute.
  - by vm_compute.
  - by vm_compute.
  - by vm_compute.
  - by vm_compute.
  - by vm_compute.
  - by vm_compute.
Qed.

(** ** The diff engine *)

(** C4. The three id sets of the comparison cover exactly the ids of the two
    datasets and are pairwise disjoint, whatever the datasets (the empty ones
    included). *)
Theorem diff_sets_partition (A B : dict Compare.entry) :
  let r := Compare.compare_kext_datasets A B in
  Compare.common r ∪ Compare.only_in_vmapple r ∪ Compare.only_in_host r
    = Compare.ids A ∪ Compare.ids B
  ∧ Compare.common r ## Compare.only_in_vmapple r
  ∧ Compare.common r ## Compare.only_in_host r
  ∧ Compare.only_in_vmapple r ## Compare.only_in_host r.
Proof.
  unfold Compare.compare_kext_datasets, Compare.ids. simpl.
  set (a := list_to_set (PyDict.keys A) : gset string).
  set (b := list_to_set (PyDict.keys B) : gset string).
  split_and!.
  - apply set_eq. intros x.
    rewrite !elem_of_union, elem_of_intersection, !elem_of_difference.
    destruct (decide (x ∈ a)), (decide (x ∈ b)); tauto.
  - apply elem_of_disjoint. intros x.
    rewrite elem_of_intersection, elem_of_difference. tauto.
  - apply elem_of_disjoint. intros x.
    rewrite elem_of_intersection, elem_of_difference. tauto.
  - apply elem_of_disjoint. intros x. rewrite !elem_of_difference. tauto.
Qed.

(** ** Dicts and loops *)

Module PyDictFacts.
Import PyDict.
Section Facts.
Context {V : Type}.
Implicit Types (d : dict V) (k : string) (v : V).

Lemma get_Some_elem k v d : get k d = Some v → (k, v) ∈ d.
Proof.
  induction d as [|[k' v'] d IH]; simpl; [done|].
  destruct (String.eqb_spec k k') as [->|Hne].
  - intros [= ->]. apply elem_of_cons. by left.
  - intros H. apply elem_of_cons. right. by apply IH.
Qed.

Lemma mem_keys k d : mem k d = true ↔ k ∈ keys d.
Proof.
  unfold mem, keys. induction d as [|[k' v'] d IH]; simpl.
  - rewrite elem_of_nil. split; [done | tauto].
  - rewrite elem_of_cons. destruct (String.eqb_spec k k') as [->|Hne].
    + tauto.
    + rewrite IH. tauto.
Qed.

Lemma elem_mem k v d : (k, v) ∈ d → mem k d = true.
Proof.
  intros H. apply mem_keys. unfold keys.
  apply (list_elem_of_fmap_2 fst) in H. done.
Qed.

Lemma get_None_keys k d : get k d = None ↔ k ∉ keys d.
Proof.
  rewrite <- mem_keys. unfold mem. destruct (get k d); naive_solver.
Qed.

Lemma get_set_eq k v d : get k (set k v d) = Some v.
Proof.
  induction d as [|[k' v'] d IH]; simpl.
  - by rewrite String.eqb_refl.
  - destruct (String.eqb_spec k k') as [->|Hne]; simpl.
    + by rewrite String.eqb_refl.
    + destruct (String.eqb_spec k k'); [done | apply IH].
Qed.

Lemma get_set_ne k k' v d : k ≠ k' → get k' (set k v d) = get k' d.
Proof.
  intros Hne. induction d as [|[k0 v0] d IH]; simpl.
  - destruct (String.eqb_spec k' k); [by subst | done].
  - destruct (String.eqb_spec k k0) as [->|Hne0]; simpl.
    + destruct (String.eqb_spec k' k0); [by subst | done].
    + by rewrite IH.
Qed.

Lemma keys_set k v d :
  keys (set k v d) = if mem k d then keys d else keys d ++ [k].
Proof.
  unfold mem, keys. induction d as [|[k' v'] d IH]; simpl; [done|].
  destruct (String.eqb_spec k k') as [->|Hne]; simpl; [done|].
  rewrite IH. by destruct (get k d).
Qed.

Lemma wf_set k v d : wf d → wf (set k v d).
Proof.
  unfold wf. rewrite keys_set. destruct (mem k d) eqn:Hm; [done|].
  intros Hnd. apply NoDup_app. split_and!; [done | | apply NoDup_singleton].
  intros x Hx Hx'. apply list_elem_of_singleton in Hx' as ->.
  apply mem_keys in Hx. congruence.
Qed.
End Facts.
End PyDictFacts.

Module LoopFacts.
Import Py.
Section Loop.
Context {A S : Type} (body : S → A → option S).

(** A property the body keeps holds when the loop ends. *)
Lemma for_each_invariant (P : S → Prop) xs st st' :
  (∀ s x s', x ∈ xs → P s → body s x = Some s' → P s') →
  P st → for_each body xs st = Some st' → P st'.
Proof.
  revert st. induction xs as [|x xs IH]; intros st Hstep HP; simpl.
  - by intros [= <-].
  - destruct (body st x) as [s1|] eqn:Hb; simpl; [|done].
    apply IH.
    + intros s y s' Hy. apply Hstep. apply elem_of_cons. by right.
    + eapply Hstep; [|done..]. apply elem_of_cons. by left.
Qed.

(** A body that never raises gives a loop that never raises. *)
Lemma for_each_total xs st :
  (∀ s x, x ∈ xs → is_Some (body s x)) → is_Some (for_each body xs st).
Proof.
  revert st. induction xs as [|x xs IH]; intros st Hb; simpl; [by eexists|].
  destruct (Hb st x) as [s1 ->]; [apply elem_of_cons; by left|]. simpl.
  apply IH. intros s y Hy. apply Hb. apply elem_of_cons. by right.
Qed.

(** One element on which the body always raises makes the loop raise. *)
Lemma for_each_raises xs st x :
  x ∈ xs → (∀ s, body s x = None) → for_each body xs st = None.
Proof.
  revert st. induction xs as [|y xs IH]; intros st Hx Hb.
  - by apply elem_of_nil in Hx.
  - simpl. apply elem_of_cons in Hx as [<-|Hx].
    + by rewrite Hb.
    + destruct (body st y); simpl; [by apply IH | done].
Qed.
End Loop.
End LoopFacts.

(** ** The graph builder *)

Lemma edge_invariant_init kexts :
  edge_invariant kexts {| edges := []; edges_added := ∅ |}.
Proof.
  split; simpl.
  - apply NoDup_nil_2.
  - intros p. rewrite elem_of_empty, elem_of_nil. tauto.
  - constructor.
Qed.

Lemma add_edge_invariant k kexts bundle_id st dep st' :
  PyDict.mem bundle_id kexts = true →
  edge_invariant kexts st →
  add_edge k kexts bundle_id st dep = Some st' →
  edge_invariant kexts st'.
Proof.
  intros Hsrc [Hnd Hadd Hnodes]. unfold add_edge.
  destruct dep as [| | | |t| | | |]; try (by intros [= <-]); try done.
  destruct (PyDict.mem t kexts) eqn:Ht; simpl; [|by intros [= <-]].
  case_bool_decide as Hnew; intros [= <-]; [|done].
  split; simpl.
  - rewrite map_app. simpl. apply NoDup_app. split_and!; [done| |apply NoDup_singleton].
    intros p Hp Hp'. apply list_elem_of_singleton in Hp' as ->.
    apply Hnew, Hadd, Hp.
  - intros p. rewrite elem_of_union, elem_of_singleton, map_app, elem_of_app, Hadd.
    simpl. rewrite list_elem_of_singleton. unfold pair_of at 2. simpl. tauto.
  - apply Forall_app. split; [done|]. by repeat constructor.
Qed.

Lemma edges_of_item_invariant kexts st item st' :
  item ∈ kexts →
  edge_invariant kexts st →
  edges_of_item kexts st item = Some st' →
  edge_invariant kexts st'.
Proof.
  intros Hin Hinv. unfold edges_of_item.
  destruct item as [bundle_id kext_data]. simpl.
  assert (Hsrc : PyDict.mem bundle_id kexts = true)
    by (by eapply PyDictFacts.elem_mem).
  destruct (Py.for_each _ (dependencies _) st) as [st1|] eqn:Hd; simpl; [|done].
  intros Hl.
  eapply LoopFacts.for_each_invariant in Hd; [| |exact Hinv].
  - eapply LoopFacts.for_each_invariant in Hl; [done| |exact Hd].
    intros s x s' _. by apply add_edge_invariant.
  - intros s x s' _. by apply add_edge_invariant.
Qed.

Lemma edge_loop_invariant kexts st :
  edge_loop kexts = Some st → edge_invariant kexts st.
Proof.
  unfold edge_loop. apply LoopFacts.for_each_invariant.
  - intros s x s'. apply edges_of_item_invariant.
  - apply edge_invariant_init.
Qed.

Lemma add_edge_total k kexts bundle_id st dep :
  Py.hashable dep = true → is_Some (add_edge k kexts bundle_id st dep).
Proof.
  unfold add_edge. destruct dep; simpl; try done; intros _; try by eexists.
  destruct (_ && _); by eexists.
Qed.

Lemma edge_loop_total kexts :
  Forall (λ item, only_hashable_references item.2) kexts →
  is_Some (edge_loop kexts).
Proof.
  intros Hall. unfold edge_loop. apply LoopFacts.for_each_total.
  intros s [b kd] Hin. rewrite Forall_forall in Hall.
  destruct (Hall _ Hin) as [Hd Hl]. simpl in *. unfold edges_of_item. simpl.
  destruct (LoopFacts.for_each_total (add_edge depends kexts b) (dependencies kd) s) as [s1 ->].
  { intros s0 x Hx. apply add_edge_total. rewrite Forall_forall in Hd. by apply Hd. }
  simpl. apply LoopFacts.for_each_total.
  intros s0 x Hx. apply add_edge_total. rewrite Forall_forall in Hl. by apply Hl.
Qed.

(** C1, as the code has it.  In every built graph at most one edge is kept
    per ordered pair (source id, target id), however many reference kinds
    apply between the two: once an edge from [s] to [t] has been made,
    whether from the requirements or from the libraries, no further edge from
    [s] to [t] is made.  The opposite direction is a pair of its own. *)
Theorem one_edge_per_ordered_pair (kexts : dict kext) (es : list edge) :
  graph_edges kexts = Some es →
  at_most_one_per same_ordered_pair es.
Proof.
  unfold graph_edges. destruct (edge_loop kexts) as [st|] eqn:Hl; [|done].
  intros [= <-]. apply edge_loop_invariant in Hl as [Hnd _ _].
  intros i j e1 e2 Hi Hj [Hs Ht].
  eapply NoDup_lookup; [exact Hnd | |].
  - rewrite list_lookup_fmap, Hi. done.
  - rewrite list_lookup_fmap, Hj. simpl. unfold pair_of. by rewrite Hs, Ht.
Qed.

Lemma one_edge_per_ordered_pair_witness :
  graph_edges Samples.overlapping = Some [Edge "com.x.b" "com.x.a" depends]
  ∧ at_most_one_per same_ordered_pair [Edge "com.x.b" "com.x.a" depends].
Proof.
  split; [by vm_compute|].
  apply (one_edge_per_ordered_pair Samples.overlapping). by vm_compute.
Defined.

(** C1, as the specification words it, fails: two extensions that require
    each other get two edges, one in each direction, on the same unordered
    pair. *)
Lemma unordered_pair_counterexample :
  PyDict.keys Samples.mutual = ["com.x.a"; "com.x.b"]
  ∧ map dependencies (PyDict.values Samples.mutual)
    = [[VStr "com.x.b"]; [VStr "com.x.a"]]
  ∧ graph_edges Samples.mutual
    = Some [Edge "com.x.a" "com.x.b" depends; Edge "com.x.b" "com.x.a" depends]
  ∧ ¬ at_most_one_per same_unordered_pair
        [Edge "com.x.a" "com.x.b" depends; Edge "com.x.b" "com.x.a" depends].
Proof.
  split_and!; [by vm_compute..|]. intros H.
  specialize (H 0%nat 1%nat _ _ eq_refl eq_refl).
  discriminate H. by right.
Qed.

(** C2.  Every edge of a built graph joins two keys of the nodes mapping: a
    requirement or library entry that is not a node id makes no edge.  Such
    an entry is skipped without an error: the builder returns a graph
    whenever the entries can be hashed, as strings can. *)
Theorem edges_join_nodes (kexts : dict kext) :
  (Forall (λ item, only_hashable_references item.2) kexts →
     is_Some (graph_edges kexts))
  ∧ ∀ es, graph_edges kexts = Some es →
      ∀ e, e ∈ es →
        source_id e ∈ PyDict.keys kexts ∧ target_id e ∈ PyDict.keys kexts.
Proof.
  unfold graph_edges. split.
  - intros H. destruct (edge_loop_total kexts H) as [st ->]. by eexists.
  - intros es. destruct (edge_loop kexts) as [st|] eqn:Hl; [|done].
    intros [= <-] e He. apply edge_loop_invariant in Hl as [_ _ Hn].
    rewrite Forall_forall in Hn. destruct (Hn _ He) as [Hs Ht].
    by rewrite <- !PyDictFacts.mem_keys.
Qed.

Lemma edges_join_nodes_witness :
  is_Some (graph_edges Samples.overlapping)
  ∧ graph_edges Samples.overlapping = Some [Edge "com.x.b" "com.x.a" depends]
  ∧ ∀ e, e ∈ [Edge "com.x.b" "com.x.a" depends] →
      source_id e ∈ PyDict.keys Samples.overlapping
      ∧ target_id e ∈ PyDict.keys Samples.overlapping.
Proof.
  destruct (edges_join_nodes Samples.overlapping) as [Htotal Hedges].
  split_and!.
  - apply Htotal. repeat constructor.
  - by vm_compute.
  - apply Hedges. by vm_compute.
Defined.

(** Hashable entries are needed for that: a requirement list that holds a
    mapping makes [dep in kexts] raise. *)
Lemma unhashable_reference_raises :
  create_graphml
    [("com.x.a", {| path := "Info.plist"; bundle_id := "com.x.a"; name := VStr "";
                    version := VStr ""; executable := VStr ""; kext_name := "a";
                    source_type := "kext"; dependencies := [VDict []];
                    libraries := []; iokit_classes := []; provides := [] |})]
  = None.
Proof. done. Qed.

(** The edge elements of the document are the rendered edges of the loop,
    in order. *)
Lemma create_graphml_edges kexts g :
  create_graphml kexts = Some g →
  ∃ es, graph_edges kexts = Some es ∧ edge_elements g = map render_edge es.
Proof.
  unfold create_graphml, graph_edges.
  destruct (edge_loop kexts) as [st|]; [|done].
  intros [= <-]. by exists (edges st).
Qed.

(** ** The record normalizer and the scan *)

Lemma scan_step_store kexts f :
  scan_step kexts f = match parse_plist_file f.1 f.2 with
                      | Some data => store kexts data
                      | None => kexts
                      end.
Proof. done. Qed.

Lemma scan_fold_store files kexts :
  fold_left scan_step files kexts = fold_left store (normalized files) kexts.
Proof.
  revert kexts. induction files as [|f files IH]; intros kexts; [done|].
  simpl. rewrite IH, scan_step_store. unfold normalized. simpl.
  by destruct (parse_plist_file f.1 f.2).
Qed.

Lemma store_wf kexts data : PyDict.wf kexts → PyDict.wf (store kexts data).
Proof.
  unfold store. destruct (negb _); [apply PyDictFacts.wf_set | done].
Qed.

Lemma fold_store_wf records kexts :
  PyDict.wf kexts → PyDict.wf (fold_left store records kexts).
Proof.
  revert kexts. induction records as [|r records IH]; intros kexts H; [done|].
  simpl. by apply IH, store_wf.
Qed.

(** The scan returns a dict: no bundle id is a key twice. *)
Lemma scan_wf files : PyDict.wf (scan_kexts_only files).
Proof.
  unfold scan_kexts_only. rewrite scan_fold_store.
  apply fold_store_wf. apply NoDup_nil_2.
Qed.

Lemma store_keys_nonempty kexts data :
  "" ∉ PyDict.keys kexts → "" ∉ PyDict.keys (store kexts data).
Proof.
  unfold store. destruct (String.eqb_spec (bundle_id data) "") as [|Hne]; [done|].
  simpl. rewrite PyDictFacts.keys_set. destruct (PyDict.mem _ _); [done|].
  intros H Hin. apply elem_of_app in Hin as [Hin|Hin]; [done|].
  apply list_elem_of_singleton in Hin. congruence.
Qed.

(** A record whose bundle id is empty is never stored. *)
Lemma scan_keys_nonempty files : "" ∉ PyDict.keys (scan_kexts_only files).
Proof.
  unfold scan_kexts_only. rewrite scan_fold_store.
  assert (H : "" ∉ PyDict.keys ([] : dict kext)) by apply not_elem_of_nil.
  revert H. generalize ([] : dict kext).
  induction (normalized files) as [|r rs IH]; intros kexts H; [done|].
  simpl. by apply IH, store_keys_nonempty.
Qed.

Lemma fold_store_other b records kexts :
  Forall (λ r, bundle_id r ≠ b) records →
  PyDict.get b (fold_left store records kexts) = PyDict.get b kexts.
Proof.
  revert kexts. induction records as [|r records IH]; intros kexts H; [done|].
  apply Forall_cons in H as [Hr H]. simpl. rewrite IH by done.
  unfold store. destruct (negb _); [|done].
  by apply PyDictFacts.get_set_ne.
Qed.

Lemma filter_key_absent {V} (k : string) (d : dict V) :
  k ∉ PyDict.keys d → filter (λ item, item.1 = k) d = [].
Proof.
  unfold PyDict.keys. induction d as [|[k' v'] d IH]; simpl; [done|].
  rewrite not_elem_of_cons. intros [Hne Hk].
  rewrite filter_cons_False by (simpl; congruence). by apply IH.
Qed.

Lemma wf_filter_key {V} (k : string) (v : V) (d : dict V) :
  PyDict.wf d → PyDict.get k d = Some v → filter (λ item, item.1 = k) d = [(k, v)].
Proof.
  unfold PyDict.wf, PyDict.keys.
  induction d as [|[k' v'] d IH]; simpl; [done|].
  intros Hnd. apply NoDup_cons in Hnd as [Hk' Hnd].
  destruct (String.eqb_spec k k') as [->|Hne].
  - intros [= ->]. rewrite filter_cons_True by done.
    by rewrite filter_key_absent.
  - intros Hg. rewrite filter_cons_False by (simpl; congruence). by apply IH.
Qed.

Lemma store_get data kexts :
  bundle_id data ≠ "" → PyDict.get (bundle_id data) (store kexts data) = Some data.
Proof.
  intros Hne. unfold store.
  destruct (String.eqb_spec (bundle_id data) ""); [done|]. simpl.
  apply PyDictFacts.get_set_eq.
Qed.

(** C6.  When several normalized records share one bundle id, the nodes
    mapping has exactly one node for that id and it is the record that came
    last.  (The id is non-empty, as the identity of a record is: the scan
    does not store a record whose id is empty.) *)
Theorem duplicate_id_last_wins (plist_files : list plist_file)
    (earlier later : list kext) (r : kext) :
  normalized plist_files = earlier ++ r :: later →
  bundle_id r ≠ "" →
  Forall (λ r', bundle_id r' ≠ bundle_id r) later →
  PyDict.get (bundle_id r) (scan_kexts_only plist_files) = Some r
  ∧ filter (λ item, item.1 = bundle_id r) (scan_kexts_only plist_files)
      = [(bundle_id r, r)].
Proof.
  intros Hn Hne Hlater.
  assert (Hget : PyDict.get (bundle_id r) (scan_kexts_only plist_files) = Some r).
  { unfold scan_kexts_only. rewrite scan_fold_store, Hn, fold_left_app. simpl.
    rewrite fold_store_other by done. by apply store_get. }
  split; [done|]. apply wf_filter_key; [apply scan_wf | done].
Qed.

Lemma duplicate_id_last_wins_witness :
  normalized Samples.twice = [Samples.older; Samples.other_record] ++ Samples.newer :: []
  ∧ PyDict.get "com.x.a" (scan_kexts_only Samples.twice) = Some Samples.newer
  ∧ filter (λ item, item.1 = "com.x.a") (scan_kexts_only Samples.twice)
      = [("com.x.a", Samples.newer)].
Proof.
  split; [by vm_compute|].
  apply (duplicate_id_last_wins Samples.twice
           [Samples.older; Samples.other_record] [] Samples.newer).
  - by vm_compute.
  - discriminate.
  - constructor.
Defined.

(** C8.  An item the normalizer cannot handle yields a failure for that item
    alone, which the scan loop absorbs: the scan gives what it gives without
    the item, so the item is dropped and all the others are processed. *)
Theorem malformed_item_is_skipped (before after : list plist_file) (bad : plist_file) :
  parse_plist_file bad.1 bad.2 = None →
  scan_kexts_only (before ++ bad :: after) = scan_kexts_only (before ++ after)
  ∧ normalized (before ++ bad :: after) = normalized (before ++ after).
Proof.
  intros Hbad. split.
  - unfold scan_kexts_only. rewrite !fold_left_app. simpl.
    by rewrite scan_step_store, Hbad.
  - unfold normalized. rewrite !omap_app. simpl. by rewrite Hbad.
Qed.

Lemma malformed_item_is_skipped_witness :
  parse_plist_file "/bad/Info.plist" (Some (VDict Samples.bad_personality)) = None
  ∧ scan_kexts_only Samples.with_malformed
    = scan_kexts_only [ ("/a/Info.plist", Some (Samples.descriptor "com.x.a" "A" []));
                        ("/b/Info.plist", Some (Samples.descriptor "com.x.b" "B" [])) ]
  ∧ PyDict.keys (scan_kexts_only Samples.with_malformed) = ["com.x.a"; "com.x.b"].
Proof.
  split; [by vm_compute|]. split; [|by vm_compute].
  apply (malformed_item_is_skipped
           [("/a/Info.plist", Some (Samples.descriptor "com.x.a" "A" []))]
           [("/b/Info.plist", Some (Samples.descriptor "com.x.b" "B" []))]
           ("/bad/Info.plist", Some (VDict Samples.bad_personality))).
  by vm_compute.
Defined.

Lemma parse_mapping plist_path d :
  parse_plist_file plist_path (Some (VDict d)) =
    id_seg ← last_segment (default (VStr "") (PyDict.get "CFBundleIdentifier" d));
    iokit_services ←
      collect_iokit_services (default (VDict []) (PyDict.get "IOKitPersonalities" d));
    iokit_classes ← Py.list_of_set iokit_services;
    Some {| path := plist_path;
            bundle_id := id_seg.1;
            name := default (VStr "") (PyDict.get "CFBundleName" d);
            version := default (VStr "") (PyDict.get "CFBundleVersion" d);
            executable := default (VStr "") (PyDict.get "CFBundleExecutable" d);
            kext_name := id_seg.2;
            source_type := "kext";
            dependencies :=
              coerce_sequence (default (VDict []) (PyDict.get "OSBundleRequirements" d));
            libraries :=
              coerce_sequence (default (VDict []) (PyDict.get "OSBundleLibraries" d));
            iokit_classes := iokit_classes;
            provides :=
              normalize_provides (default (VList []) (PyDict.get "IOProviderClass" d)) |}.
Proof. done. Qed.

Lemma personality_string_raises key s services :
  PyStr.contains "IOClass" s = true →
  personality_step services (key, VStr s) = None.
Proof. intros H. unfold personality_step. simpl. by rewrite H. Qed.

(** C10.  A personalities mapping with an entry whose value is a string in
    which [IOClass] occurs makes the normalization of the whole record fail:
    the record is dropped by the scan, the entry is not merely skipped. *)
Theorem string_personality_drops_record (plist_path : string)
    (d m : list (string * value)) (key s : string) :
  PyDict.get "IOKitPersonalities" d = Some (VDict m) →
  (key, VStr s) ∈ m →
  PyStr.contains "IOClass" s = true →
  parse_plist_file plist_path (Some (VDict d)) = None
  ∧ ∀ kexts, scan_step kexts (plist_path, Some (VDict d)) = kexts.
Proof.
  intros Hp Hin Hs.
  assert (Hnone : parse_plist_file plist_path (Some (VDict d)) = None).
  { rewrite parse_mapping, Hp. simpl.
    destruct (last_segment _); simpl; [|done].
    rewrite (LoopFacts.for_each_raises personality_step m [] (key, VStr s)); [done..|].
    intros sv. by apply personality_string_raises. }
  split; [done|]. intros kexts. rewrite scan_step_store. cbn [fst snd]. by rewrite Hnone.
Qed.

Lemma string_personality_drops_record_witness :
  parse_plist_file "/bad/Info.plist" (Some (VDict Samples.bad_personality)) = None
  ∧ scan_kexts_only [("/bad/Info.plist", Some (VDict Samples.bad_personality))] = []
  ∧ is_Some (parse_plist_file "/bad/Info.plist" (Some (VDict Samples.no_personality))).
Proof.
  destruct (string_personality_drops_record "/bad/Info.plist" Samples.bad_personality
              [("Main", VStr "IOClass=IOService")] "Main" "IOClass=IOService")
    as [Hnone Hscan].
  - by vm_compute.
  - apply elem_of_cons. by left.
  - by vm_compute.
  - split_and!; [exact Hnone | apply Hscan | eexists; by vm_compute].
Defined.

Lemma coerce_sequence_spec field :
  coerce_sequence (default (VDict []) field) = spec_coerce field.
Proof.
  unfold spec_coerce, shape_of. destruct field as [[]|]; simpl; try done.
  unfold PyDict.keys. by rewrite map_map.
Qed.

Lemma get_without_field {V} (k k' : string) (d : dict V) :
  k ≠ k' → PyDict.get k' (filter (λ kv, kv.1 ≠ k) d) = PyDict.get k' d.
Proof.
  intros Hne. induction d as [|[k0 v0] d IH]; [done|].
  destruct (decide (k0 = k)) as [->|Hk].
  - rewrite filter_cons_False by (simpl; tauto). simpl.
    destruct (String.eqb_spec k' k); [by subst | done].
  - rewrite filter_cons_True by done. simpl. by rewrite IH.
Qed.

Lemma parse_depends_on d d' plist_path :
  PyDict.get "CFBundleIdentifier" d = PyDict.get "CFBundleIdentifier" d' →
  PyDict.get "IOKitPersonalities" d = PyDict.get "IOKitPersonalities" d' →
  is_Some (parse_plist_file plist_path (Some (VDict d)))
  ↔ is_Some (parse_plist_file plist_path (Some (VDict d'))).
Proof.
  intros Hb Hp. rewrite !parse_mapping, Hb, Hp.
  destruct (last_segment _); simpl; [|done].
  destruct (collect_iokit_services _); simpl; [|done].
  destruct (Py.list_of_set _); simpl; [|done].
  split; intros _; by eexists.
Qed.

(** C5.  For every raw mapping, the requirement field and the library field
    are coerced alike: a mapping gives its keys in encounter order, a
    sequence is taken as it is, any other shape and a missing field give the
    empty sequence.  No shape of either field is an error: replacing the
    field by any value, or removing it, leaves unchanged whether the mapping
    normalizes. *)
Theorem requirement_fields_coerced (plist_path : string) (d : list (string * value)) :
  (∀ r, parse_plist_file plist_path (Some (VDict d)) = Some r →
        dependencies r = spec_coerce (PyDict.get "OSBundleRequirements" d)
        ∧ libraries r = spec_coerce (PyDict.get "OSBundleLibraries" d))
  ∧ (∀ field, field ∈ requirement_fields →
      (∀ v, is_Some (parse_plist_file plist_path (Some (VDict (with_field field v d))))
            ↔ is_Some (parse_plist_file plist_path (Some (VDict d))))
      ∧ (is_Some (parse_plist_file plist_path (Some (VDict (without_field field d))))
         ↔ is_Some (parse_plist_file plist_path (Some (VDict d))))).
Proof.
  split.
  - intros r. rewrite parse_mapping.
    destruct (last_segment _); simpl; [|done].
    destruct (collect_iokit_services _); simpl; [|done].
    destruct (Py.list_of_set _); simpl; [|done].
    intros [= <-]. simpl. by rewrite !coerce_sequence_spec.
  - intros field Hf. unfold requirement_fields in Hf.
    rewrite !elem_of_cons, elem_of_nil in Hf.
    split; [intros v|]; apply parse_depends_on; unfold with_field, without_field;
      destruct Hf as [->|[->|[]]];
      first [by apply PyDictFacts.get_set_ne | by apply get_without_field].
Qed.

Lemma requirement_fields_coerced_witness :
  ∃ r, parse_plist_file "/d/Info.plist" (Some (VDict Samples.dual_shape)) = Some r
       ∧ dependencies r = [VStr "com.x.a"; VStr "com.x.b"]
       ∧ libraries r = [].
Proof.
  destruct (requirement_fields_coerced "/d/Info.plist" Samples.dual_shape) as [Hshape _].
  destruct (parse_plist_file "/d/Info.plist" (Some (VDict Samples.dual_shape)))
    as [r|] eqn:Hr; [|by vm_compute in Hr].
  exists r. split; [done|]. by apply Hshape.
Defined.

(** ** The category tally *)

(** The tally adds one under the key of the category the categorizer gives
    the record (an absent name reads as the empty string). *)
Lemma tally_step_categorize cats bundle_id kext :
  Compare.tally_step cats (bundle_id, kext)
  = Compare.increment
      (category_key (categorize (default "" (Compare.name kext)) bundle_id)) cats.
Proof. done. Qed.

Lemma tally_shape (cats : dict nat) :
  PyDict.keys cats = map category_key all_categories →
  ∃ n1 n2 n3 n4 n5 n6 n7 n8,
    cats = [("graphics", n1); ("audio", n2); ("usb", n3); ("bluetooth", n4);
            ("apple_specific", n5); ("intel", n6); ("amd", n7); ("other", n8)].
Proof.
  unfold PyDict.keys. intros H.
  do 9 (destruct cats as [|[? ?] cats]; try discriminate H).
  simpl in H. simplify_eq. by eexists _, _, _, _, _, _, _, _.
Qed.

Lemma tally_step_counts cats item :
  PyDict.keys cats = map category_key all_categories →
  PyDict.keys (Compare.tally_step cats item) = map category_key all_categories
  ∧ sum_list (map (λ c, category_count c (Compare.tally_step cats item)) all_categories)
    = S (sum_list (map (λ c, category_count c cats) all_categories)).
Proof.
  intros H. destruct (tally_shape cats H) as (n1&n2&n3&n4&n5&n6&n7&n8&->).
  unfold Compare.tally_step. destruct (cascade _ _);
    (split; [reflexivity | cbn; lia]).
Qed.

Lemma tally_fold_counts data cats :
  PyDict.keys cats = map category_key all_categories →
  PyDict.keys (fold_left Compare.tally_step data cats) = map category_key all_categories
  ∧ sum_list (map (λ c, category_count c (fold_left Compare.tally_step data cats))
                all_categories)
    = (sum_list (map (λ c, category_count c cats) all_categories) + length data)%nat.
Proof.
  revert cats. induction data as [|item data IH]; intros cats H; cbn [fold_left length].
  - split; [done | lia].
  - destruct (tally_step_counts cats item H) as [Hk Hs].
    destruct (IH _ Hk) as [Hk' Hs']. split; [done|]. rewrite Hs', Hs. lia.
Qed.

(** C9.  The per-category counts of the analysis add up, over the eight
    categories, to the number of records of the dataset. *)
Theorem category_counts_sum_to_total (data : dict Compare.entry) :
  let r := Compare.analyze_kexts data in
  sum_list (map (λ c, category_count c (Compare.categories r)) all_categories)
    = Compare.total r
  ∧ Compare.total r = length data
  ∧ PyDict.keys (Compare.categories r) = map category_key all_categories.
Proof.
  cbn [Compare.analyze_kexts Compare.categories Compare.total].
  destruct (tally_fold_counts data Compare.initial_categories eq_refl) as [Hk Hs].
  split_and!; [|done..]. by rewrite Hs.
Qed.

(** ** The version histogram *)

Module HistogramFacts.

Lemma occurrences_snoc v vs x :
  occurrences v (vs ++ [x]) = (occurrences v vs + (if decide (x = v) then 1 else 0))%nat.
Proof.
  unfold occurrences. rewrite filter_app, length_app. f_equal.
  destruct (decide (x = v)) as [->|Hne].
  - by rewrite filter_cons_True.
  - by rewrite filter_cons_False.
Qed.

Lemma occurrences_absent v vs : v ∉ vs → occurrences v vs = 0%nat.
Proof.
  unfold occurrences. induction vs as [|x vs IH]; [done|].
  rewrite not_elem_of_cons. intros [Hne Hv].
  rewrite filter_cons_False by congruence. by apply IH.
Qed.

Lemma first_index_present v vs : v ∈ vs → (first_index v vs < length vs)%nat.
Proof.
  induction vs as [|x vs IH]; [by rewrite elem_of_nil|].
  rewrite elem_of_cons. simpl. destruct (String.eqb_spec v x); [lia|].
  intros [?|Hv]; [done|]. apply IH in Hv. lia.
Qed.

Lemma first_index_snoc_present v vs x :
  v ∈ vs → first_index v (vs ++ [x]) = first_index v vs.
Proof.
  induction vs as [|y vs IH]; [by rewrite elem_of_nil|].
  rewrite elem_of_cons. simpl. destruct (String.eqb_spec v y); [done|].
  intros [?|Hv]; [done|]. by rewrite IH.
Qed.

Lemma first_index_snoc_new v vs : v ∉ vs → first_index v (vs ++ [v]) = length vs.
Proof.
  induction vs as [|y vs IH]; simpl.
  - by rewrite String.eqb_refl.
  - rewrite not_elem_of_cons. intros [Hne Hv].
    destruct (String.eqb_spec v y); [done|]. by rewrite IH.
Qed.

Lemma StronglySorted_change {A} (R1 R2 : relation A) l :
  (∀ x y, x ∈ l → y ∈ l → R1 x y → R2 x y) →
  StronglySorted R1 l → StronglySorted R2 l.
Proof.
  induction l as [|a l IH]; intros Himp Hs; [constructor|].
  apply StronglySorted_cons in Hs as [Hall Hs]. apply StronglySorted_cons. split.
  - rewrite Forall_forall in *. intros y Hy. apply Himp.
    + apply elem_of_cons; by left.
    + apply elem_of_cons; by right.
    + by apply Hall.
  - apply IH; [|done]. intros x y Hx Hy. apply Himp; apply elem_of_cons; by right.
Qed.

Section Dict.
Context {V : Type}.
Implicit Types d : dict V.

Lemma elem_keys k d : k ∈ PyDict.keys d ↔ ∃ v, (k, v) ∈ d.
Proof.
  unfold PyDict.keys. rewrite list_elem_of_fmap. split.
  - intros ([k' v] & -> & H). by exists v.
  - intros [v H]. by exists (k, v).
Qed.

Lemma wf_get_elem k v d : PyDict.wf d → PyDict.get k d = Some v ↔ (k, v) ∈ d.
Proof.
  unfold PyDict.wf, PyDict.keys. intros Hnd. split; [apply PyDictFacts.get_Some_elem|].
  induction d as [|[k' v'] d IH]; [by rewrite elem_of_nil|].
  apply NoDup_cons in Hnd as [Hk' Hnd]. simpl.
  rewrite elem_of_cons. intros [[= -> ->]|Hin].
  - by rewrite String.eqb_refl.
  - destruct (String.eqb_spec k k') as [->|Hne]; [|by apply IH].
    destruct Hk'. apply (list_elem_of_fmap_2 fst) in Hin. done.
Qed.

Lemma elem_set k v d k' v' :
  PyDict.wf d →
  (k', v') ∈ PyDict.set k v d ↔ (k' = k ∧ v' = v) ∨ (k' ≠ k ∧ (k', v') ∈ d).
Proof.
  intros Hwf.
  rewrite <- (wf_get_elem _ _ _ (PyDictFacts.wf_set k v d Hwf)).
  destruct (decide (k' = k)) as [->|Hne].
  - rewrite PyDictFacts.get_set_eq. naive_solver.
  - rewrite PyDictFacts.get_set_ne by done.
    rewrite (wf_get_elem _ _ _ Hwf). naive_solver.
Qed.
End Dict.

Lemma histogram_empty : histogram_of [] [].
Proof.
  split.
  - apply NoDup_nil_2.
  - intros v c. rewrite !elem_of_nil. tauto.
  - constructor.
Qed.

Lemma histogram_keys vs d k : histogram_of vs d → k ∈ PyDict.keys d ↔ k ∈ vs.
Proof.
  intros [Hwf Hc Ho]. rewrite elem_keys. split.
  - intros [c Hin]. by apply Hc in Hin as [? _].
  - intros Hk. exists (occurrences k vs). by apply Hc.
Qed.

Lemma histogram_tick vs d v :
  histogram_of vs d → histogram_of (vs ++ [v]) (tick d v).
Proof.
  intros H. pose proof H as [Hwf Hc Ho]. unfold tick. split.
  - by apply PyDictFacts.wf_set.
  - intros k c. rewrite elem_set by done. rewrite Hc, elem_of_app, list_elem_of_singleton.
    rewrite occurrences_snoc. destruct (decide (v = k)) as [->|Hne].
    + destruct (PyDict.get k d) as [c0|] eqn:Hg.
      * apply wf_get_elem in Hg; [|done]. apply Hc in Hg as [Hk ->]. simpl.
        naive_solver.
      * apply PyDictFacts.get_None_keys in Hg.
        rewrite (histogram_keys _ _ _ H) in Hg.
        rewrite occurrences_absent by done. simpl. naive_solver.
    + rewrite Nat.add_0_r. naive_solver.
  - rewrite PyDictFacts.keys_set. destruct (PyDict.mem v d) eqn:Hm.
    + eapply StronglySorted_change; [|exact Ho].
      intros x y Hx Hy. unfold met_before.
      apply (histogram_keys _ _ _ H) in Hx. apply (histogram_keys _ _ _ H) in Hy.
      by rewrite !first_index_snoc_present.
    + assert (Hv : v ∉ vs).
      { rewrite <- (histogram_keys _ _ _ H), <- PyDictFacts.mem_keys. congruence. }
      apply StronglySorted_app. split_and!.
      * intros x y Hx Hy. apply list_elem_of_singleton in Hy as ->.
        rewrite (histogram_keys _ _ _ H) in Hx. unfold met_before.
        rewrite first_index_snoc_present, first_index_snoc_new by done.
        by apply first_index_present.
      * eapply StronglySorted_change; [|exact Ho].
        intros x y Hx Hy. unfold met_before.
        apply (histogram_keys _ _ _ H) in Hx. apply (histogram_keys _ _ _ H) in Hy.
        by rewrite !first_index_snoc_present.
      * repeat constructor.
Qed.

Lemma histogram_fold vs :
  histogram_of vs (fold_left tick vs []).
Proof.
  induction vs as [|v vs IH] using rev_ind; [apply histogram_empty|].
  rewrite fold_left_app. simpl. by apply histogram_tick.
Qed.

Lemma versions_fold (entries : list Compare.entry) d :
  fold_left Compare.count_version entries d
  = fold_left tick (map version_of entries) d.
Proof.
  revert d. induction entries as [|e entries IH]; intros d; [done|].
  simpl. rewrite IH. done.
Qed.

Lemma insert_desc_perm x l : Compare.insert_desc x l ≡ₚ x :: l.
Proof.
  induction l as [|y l IH]; simpl; [done|].
  destruct (x.2 <? y.2)%nat; [|done]. rewrite IH. apply Permutation_swap.
Qed.

Lemma sorted_desc_perm l : Compare.sorted_desc l ≡ₚ l.
Proof.
  induction l as [|x l IH]; simpl; [done|].
  rewrite insert_desc_perm. by rewrite IH.
Qed.

Lemma insert_desc_ranked vs x s :
  StronglySorted (ranks_before vs) s →
  Forall (λ y, met_before vs x.1 y.1) s →
  StronglySorted (ranks_before vs) (Compare.insert_desc x s).
Proof.
  induction s as [|y s IH]; intros Hs Hx; simpl.
  - repeat constructor.
  - apply StronglySorted_cons in Hs as [Hy Hs].
    apply Forall_cons in Hx as [Hxy Hx].
    destruct (Nat.ltb_spec x.2 y.2) as [Hlt|Hge].
    + apply StronglySorted_cons. split; [|by apply IH].
      rewrite insert_desc_perm. constructor; [by left | done].
    + apply StronglySorted_cons. split; [|by apply StronglySorted_cons].
      assert (Hr : ranks_before vs x y).
      { unfold ranks_before, met_before in *. lia. }
      constructor; [done|].
      rewrite Forall_forall in *. intros z Hz.
      specialize (Hy z Hz). specialize (Hx z Hz).
      unfold ranks_before, met_before in *. lia.
Qed.

Lemma sorted_desc_ranked vs d :
  StronglySorted (met_before vs) (PyDict.keys d) →
  StronglySorted (ranks_before vs) (Compare.sorted_desc d).
Proof.
  unfold PyDict.keys. induction d as [|x d IH]; simpl; intros Hs; [constructor|].
  apply StronglySorted_cons in Hs as [Hx Hs].
  apply insert_desc_ranked; [by apply IH|].
  rewrite sorted_desc_perm. by rewrite Forall_fmap in Hx.
Qed.

End HistogramFacts.

Module StableSortFacts.

Lemma with_count_insert c x s :
  with_count c (Compare.insert_desc x s) = with_count c (x :: s).
Proof.
  unfold with_count. induction s as [|y s IH]; simpl; [done|].
  destruct (Nat.ltb_spec x.2 y.2) as [Hlt|Hge]; [|done].
  destruct (decide (y.2 = c)) as [Hy|Hy].
  - rewrite (filter_cons_True _ y) by done. rewrite IH.
    rewrite (filter_cons_False _ x) by lia.
    rewrite (filter_cons_False _ x) by lia.
    by rewrite filter_cons_True.
  - rewrite (filter_cons_False _ y) by done. rewrite IH.
    destruct (decide (x.2 = c)).
    + rewrite !(filter_cons_True _ x) by done. by rewrite filter_cons_False.
    + rewrite !(filter_cons_False _ x) by done. by rewrite filter_cons_False.
Qed.

(** The sort is stable: items of one count keep their order. *)
Lemma sorted_desc_stable c l :
  with_count c (Compare.sorted_desc l) = with_count c l.
Proof.
  induction l as [|x l IH]; [done|]. simpl.
  rewrite with_count_insert. unfold with_count in *.
  destruct (decide (x.2 = c)).
  - rewrite !(filter_cons_True _ x) by done. by rewrite IH.
  - by rewrite !(filter_cons_False _ x).
Qed.

Lemma insert_desc_count_ge x s :
  StronglySorted count_ge s → StronglySorted count_ge (Compare.insert_desc x s).
Proof.
  induction s as [|y s IH]; intros Hs; simpl; [repeat constructor|].
  apply StronglySorted_cons in Hs as [Hy Hs].
  destruct (Nat.ltb_spec x.2 y.2) as [Hlt|Hge].
  - apply StronglySorted_cons. split; [|by apply IH].
    rewrite HistogramFacts.insert_desc_perm. constructor; [unfold count_ge; lia | done].
  - apply StronglySorted_cons. split; [|by apply StronglySorted_cons].
    constructor; [done|]. eapply Forall_impl; [exact Hy|].
    unfold count_ge. intros z ?. lia.
Qed.

(** The sort puts the counts in descending order. *)
Lemma sorted_desc_count_ge l : StronglySorted count_ge (Compare.sorted_desc l).
Proof.
  induction l as [|x l IH]; simpl; [constructor | by apply insert_desc_count_ge].
Qed.

Lemma with_count_head x l : with_count x.2 (x :: l) = x :: with_count x.2 l.
Proof. unfold with_count. by rewrite filter_cons_True. Qed.

(** Two lists in descending order of count that agree count by count are
    the same list. *)
Lemma descending_stable_unique l1 l2 :
  StronglySorted count_ge l1 → StronglySorted count_ge l2 →
  (∀ c, with_count c l1 = with_count c l2) → l1 = l2.
Proof.
  revert l2. induction l1 as [|x l1 IH]; intros l2 H1 H2 Heq.
  - destruct l2 as [|y l2]; [done|].
    specialize (Heq y.2). by rewrite with_count_head in Heq.
  - destruct l2 as [|y l2].
    { specialize (Heq x.2). by rewrite with_count_head in Heq. }
    apply StronglySorted_cons in H1 as [Hx H1].
    apply StronglySorted_cons in H2 as [Hy H2].
    assert (Hxy : x.2 = y.2).
    { apply Nat.le_antisymm.
      - pose proof (Heq x.2) as E. rewrite with_count_head in E.
        assert (Hin : x ∈ with_count x.2 (y :: l2)) by (rewrite <- E; apply elem_of_cons; by left).
        apply list_elem_of_filter in Hin as [_ Hin].
        apply elem_of_cons in Hin as [->|Hin]; [done|].
        rewrite Forall_forall in Hy. by apply Hy.
      - pose proof (Heq y.2) as E. rewrite (with_count_head y) in E.
        assert (Hin : y ∈ with_count y.2 (x :: l1)) by (rewrite E; apply elem_of_cons; by left).
        apply list_elem_of_filter in Hin as [_ Hin].
        apply elem_of_cons in Hin as [->|Hin]; [done|].
        rewrite Forall_forall in Hx. by apply Hx. }
    pose proof (Heq x.2) as E. rewrite with_count_head in E.
    rewrite Hxy, with_count_head in E. injection E as -> E.
    f_equal. apply IH; [done..|].
    intros c. specialize (Heq c). unfold with_count in *.
    destruct (decide (y.2 = c)).
    + rewrite !(filter_cons_True _ y) in Heq by done. by injection Heq.
    + by rewrite !(filter_cons_False _ y) in Heq.
Qed.

(** Every stable sort into descending counts returns [sorted_desc]. *)
Lemma stable_sort_unique l l' :
  StronglySorted count_ge l' →
  (∀ c, with_count c l' = with_count c l) →
  l' = Compare.sorted_desc l.
Proof.
  intros Hs Hst. apply descending_stable_unique; [done | apply sorted_desc_count_ge |].
  intros c. by rewrite sorted_desc_stable.
Qed.

End StableSortFacts.

(** C7.  The version histogram counts how often each version string occurs
    among the records, a record without a version counting under "N/A".
    [top_versions] has at most five entries; together with the entries left
    out ([rest]) they are the distinct versions, each once with its count,
    ranked by descending count with equal counts in the order the versions
    are first met, so the entries reported are the five that rank highest.
    Over the versions 1.0, 1.0, 2.0 the result is ("1.0", 2) and then
    ("2.0", 1). *)
Theorem version_histogram_top5 (data : dict Compare.entry) :
  let vs := map (λ kext, match Compare.version kext with
                         | Some v => v
                         | None => "N/A"
                         end) (PyDict.values data) in
  let top := Compare.top_versions (Compare.analyze_kexts data) in
  (length top ≤ 5)%nat
  ∧ (∃ rest,
       (rest ≠ [] → length top = 5%nat)
       ∧ NoDup (map fst (top ++ rest))
       ∧ (∀ v c, (v, c) ∈ top ++ rest ↔ v ∈ vs ∧ c = occurrences v vs)
       ∧ StronglySorted (ranks_before vs) (top ++ rest))
  ∧ Compare.top_versions (Compare.analyze_kexts Samples.three_versions)
    = [("1.0", 2%nat); ("2.0", 1%nat)].
Proof.
  intros vs top.
  set (versions := fold_left Compare.count_version (PyDict.values data) []).
  assert (Hh : histogram_of vs versions).
  { unfold versions. rewrite HistogramFacts.versions_fold.
    apply HistogramFacts.histogram_fold. }
  assert (Htop : top = take 5 (Compare.sorted_desc versions)) by done.
  destruct Hh as [Hwf Hc Ho].
  split_and!.
  - rewrite Htop, length_take. lia.
  - exists (drop 5 (Compare.sorted_desc versions)).
    rewrite Htop, take_drop. split_and!.
    + intros Hrest. rewrite length_take.
      destruct (decide (length (Compare.sorted_desc versions) ≤ 5)%nat) as [Hle|]; [|lia].
      by rewrite drop_ge in Hrest.
    + by rewrite HistogramFacts.sorted_desc_perm.
    + intros v c. by rewrite HistogramFacts.sorted_desc_perm.
    + by apply HistogramFacts.sorted_desc_ranked.
  - by vm_compute.
Qed.

(** * Further properties of the sources *)

(** ** Identifiers and normalization *)

Module SplitFacts.
Import PyStr.

#[local] Arguments String.append !_ _ / : simpl nomatch.

Lemma append_assoc a b c : (a +:+ b) +:+ c = a +:+ (b +:+ c).
Proof. induction a as [|x a IH]; simpl; [done | by rewrite IH]. Qed.

Lemma append_empty_r a : a +:+ "" = a.
Proof. induction a as [|x a IH]; simpl; [done | by rewrite IH]. Qed.

Lemma joined_snoc sep init p :
  joined sep (init ++ [p]) = joined sep init +:+ p +:+ String sep "".
Proof.
  induction init as [|q init IH]; simpl.
  - done.
  - rewrite IH. rewrite !append_assoc. done.
Qed.

(** [split] returns the pieces up to the last one and the last one; the
    last one holds no separator, and the string is the pieces joined. *)
Lemma split_pieces sep s :
  ∃ init seg,
    split sep s = init ++ [seg]
    ∧ contains (String sep "") seg = false
    ∧ s = joined sep init +:+ seg.
Proof.
  induction s as [|c t (init & seg & Hsplit & Hseg & Ht)].
  - by exists [], "".
  - simpl. destruct (Ascii.eqb_spec c sep) as [->|Hne].
    + exists ("" :: init), seg. rewrite Hsplit. split_and!; [done..|].
      simpl. by rewrite <- Ht.
    + rewrite Hsplit. destruct init as [|h r]; simpl.
      * exists [], (String c seg). split_and!; [done| |by rewrite Ht].
        simpl. destruct (Ascii.eqb_spec sep c); [congruence|]. simpl.
        exact Hseg.
      * exists (String c h :: r), seg. split_and!; [done..|].
        simpl. by rewrite Ht.
Qed.

Lemma last_item_snoc {A} (l : list A) x : last_item (l ++ [x]) = Some x.
Proof. unfold last_item. apply last_snoc. Qed.

End SplitFacts.

(** X1.  In every normalized record [kext_name] holds no dot, and [bundle_id] is
    [kext_name] itself or ends in a dot followed by [kext_name]. *)
Theorem kext_name_after_last_dot (plist_path : string) (decoded : option value) (r : kext) :
  parse_plist_file plist_path decoded = Some r →
  PyStr.contains "." (kext_name r) = false
  ∧ (bundle_id r = kext_name r
     ∨ ∃ pre, bundle_id r = pre +:+ "." +:+ kext_name r).
Proof.
  destruct decoded as [[| | | | | | | |d]|]; try done.
  rewrite parse_mapping.
  destruct (default (VStr "") (PyDict.get "CFBundleIdentifier" d)) as [| | | |s| | | |];
    try done.
  unfold last_segment.
  destruct (SplitFacts.split_pieces "." s) as (init & seg & Hsplit & Hseg & Hs).
  rewrite Hsplit, SplitFacts.last_item_snoc. simpl.
  destruct (collect_iokit_services _); simpl; [|done].
  destruct (Py.list_of_set _); simpl; [|done].
  intros [= <-]. simpl. split; [done|].
  destruct init as [|p init _] using rev_ind.
  - left. by rewrite Hs.
  - right. exists (joined "." init +:+ p).
    rewrite Hs, SplitFacts.joined_snoc, !SplitFacts.append_assoc. done.
Qed.

Lemma kext_name_after_last_dot_witness :
  parse_plist_file "/a/Info.plist" (Some (Samples.descriptor "com.x.a" "Old" []))
  = Some Samples.older
  ∧ PyStr.contains "." (kext_name Samples.older) = false
  ∧ (bundle_id Samples.older = kext_name Samples.older
     ∨ ∃ pre, bundle_id Samples.older = pre +:+ "." +:+ kext_name Samples.older).
Proof.
  split; [by vm_compute|].
  apply (kext_name_after_last_dot "/a/Info.plist"
           (Some (Samples.descriptor "com.x.a" "Old" []))).
  by vm_compute.
Defined.

Module NormalizerFacts.

Lemma eqb_IOClass x : Py.eqb (VStr "IOClass") x = true ↔ x = VStr "IOClass".
Proof.
  destruct x as [| | | |s| | | |]; try (split; intros H; discriminate H).
  change (Py.eqb (VStr "IOClass") (VStr s)) with (String.eqb "IOClass" s).
  rewrite String.eqb_eq. split; congruence.
Qed.

Lemma str_in_list l :
  Py.str_in "IOClass" (VList l) = Some false ↔ VStr "IOClass" ∉ l.
Proof.
  simpl. split.
  - intros [= H] Hin. apply not_true_iff_false in H. apply H.
    apply existsb_exists. exists (VStr "IOClass"). split; [by apply list_elem_of_In|done].
  - intros Hn. f_equal. apply not_true_iff_false. intros H.
    apply existsb_exists in H as (x & Hx & He). apply eqb_IOClass in He as ->.
    by apply Hn, list_elem_of_In.
Qed.

(** One pass of the loop body: either the value is passed over, or it is a
    mapping and its [IOClass] value is appended. *)
Lemma personality_step_Some services item services' :
  personality_step services item = Some services' ↔
    ((∃ s, item.2 = VStr s ∧ PyStr.contains "IOClass" s = false)
     ∨ (∃ l, item.2 = VList l ∧ VStr "IOClass" ∉ l)
     ∨ (∃ pd, item.2 = VDict pd))
    ∧ services' = services ++ option_list (io_class item).
Proof.
  unfold personality_step, io_class. destruct item as [key v]. simpl.
  destruct v as [| | | |s| | |l|pd]; simpl;
    try (split; [done | intros [[(?&?&?)|[(?&?&?)|(?&?)]] _]; done]).
  - destruct (PyStr.contains "IOClass" s) eqn:Hs; simpl.
    + split; [done|]. intros [[(?&[= <-]&?)|[(?&?&?)|(?&?)]] _]; congruence.
    + rewrite app_nil_r. split.
      * intros [= <-]. split; [|done]. left. by exists s.
      * by intros [_ ->].
  - destruct (existsb _ l) eqn:Hl; simpl.
    + split; [done|]. intros [[(?&?&?)|[(l'&[= <-]&Hn)|(?&?)]] _]; try done.
      apply str_in_list in Hn. simpl in Hn. congruence.
    + rewrite app_nil_r. split.
      * intros [= <-]. split; [|done]. right; left. exists l. split; [done|].
        apply str_in_list. simpl. by rewrite Hl.
      * by intros [_ ->].
  - unfold PyDict.mem. destruct (PyDict.get "IOClass" pd) as [c|]; simpl.
    + split.
      * intros [= <-]. split; [|done]. right; right. by exists pd.
      * by intros [_ ->].
    + rewrite app_nil_r. split.
      * intros [= <-]. split; [|done]. right; right. by exists pd.
      * by intros [_ ->].
Qed.

Lemma omap_io_class_cons item (m : list (string * value)) :
  omap io_class (item :: m) = option_list (io_class item) ++ omap io_class m.
Proof. simpl. by destruct (io_class item). Qed.

Lemma loop_Some m services services' :
  Py.for_each personality_step m services = Some services' ↔
    (∀ item, item ∈ m →
       (∃ s, item.2 = VStr s ∧ PyStr.contains "IOClass" s = false)
       ∨ (∃ l, item.2 = VList l ∧ VStr "IOClass" ∉ l)
       ∨ (∃ pd, item.2 = VDict pd))
    ∧ services' = services ++ omap io_class m.
Proof.
  revert services. induction m as [|item m IH]; intros services.
  - simpl. rewrite app_nil_r. split.
    + intros [= <-]. split; [|done]. intros item Hin. by apply elem_of_nil in Hin.
    + by intros [_ ->].
  - cbn [Py.for_each]. rewrite omap_io_class_cons. split.
    + destruct (personality_step services item) as [s1|] eqn:Hstep; simpl; [|done].
      intros Hrest. apply IH in Hrest as [Hall ->].
      apply personality_step_Some in Hstep as [Hitem ->].
      split; [|by rewrite app_assoc].
      intros it Hin. apply elem_of_cons in Hin as [->|Hin]; [done | by apply Hall].
    + intros [Hall ->].
      assert (Hstep : personality_step services item
                      = Some (services ++ option_list (io_class item))).
      { apply personality_step_Some. split; [|done]. apply Hall, elem_of_cons. by left. }
      rewrite Hstep. simpl. apply IH. split; [|by rewrite app_assoc].
      intros it Hin. apply Hall, elem_of_cons. by right.
Qed.

Lemma list_of_set_Some xs :
  is_Some (Py.list_of_set xs) ↔ ∀ x, x ∈ xs → Py.hashable x = true.
Proof.
  unfold Py.list_of_set. destruct (forallb Py.hashable xs) eqn:H.
  - split; [|by eexists]. intros _ x Hx.
    rewrite forallb_forall in H. by apply H, list_elem_of_In.
  - split; [by intros [? ?]|]. intros Hall.
    apply not_true_iff_false in H. destruct H. apply forallb_forall.
    intros x Hx. by apply Hall, list_elem_of_In.
Qed.

Lemma elem_of_omap_io_class c (m : list (string * value)) :
  c ∈ omap io_class m ↔ ∃ key pd, (key, VDict pd) ∈ m ∧ PyDict.get "IOClass" pd = Some c.
Proof.
  rewrite list_elem_of_omap. split.
  - intros ([key v] & Hin & Hc). unfold io_class in Hc. simpl in Hc.
    destruct v; try done. by eexists _, _.
  - intros (key & pd & Hin & Hc). by exists (key, VDict pd).
Qed.

(** The personalities part of the normalizer goes through exactly on
    harmless personalities. *)
Lemma personalities_pass x :
  is_Some (services ← collect_iokit_services (default (VDict []) x);
           Py.list_of_set services)
  ↔ harmless_personalities x.
Proof.
  destruct x as [v|]; simpl; [|split; [done | by eexists]].
  destruct v as [| | | | | | | |m]; simpl; try (split; [done | by eexists]).
  split.
  - destruct (Py.for_each personality_step m []) as [svcs|] eqn:Hloop; simpl;
      [|by intros [? ?]].
    apply loop_Some in Hloop as [Hall ->]. simpl.
    rewrite list_of_set_Some. intros Hhash key v Hin.
    destruct (Hall _ Hin) as [(s&Hv&Hs)|[(l&Hv&Hl)|(pd&Hv)]]; simpl in Hv; subst v.
    + left. by exists s.
    + right; left. by exists l.
    + right; right. exists pd. split; [done|]. intros c Hc.
      apply Hhash, elem_of_omap_io_class. by exists key, pd.
  - intros Hh.
    assert (Hloop : Py.for_each personality_step m [] = Some (omap io_class m)).
    { apply loop_Some. split; [|done]. intros [key v] Hin. simpl.
      destruct (Hh _ _ Hin) as [(s&->&Hs)|[(l&->&Hl)|(pd&->&_)]].
      - left. by exists s.
      - right; left. by exists l.
      - right; right. by exists pd. }
    rewrite Hloop. simpl. apply list_of_set_Some. intros c Hc.
    apply elem_of_omap_io_class in Hc as (key & pd & Hin & Hc).
    destruct (Hh _ _ Hin) as [(s&?&_)|[(l&?&_)|(pd'&[= <-]&Hp)]]; try done.
    by apply Hp.
Qed.

Lemma last_segment_Some x :
  is_Some (last_segment (default (VStr "") x)) ↔ absent_or_string x.
Proof.
  unfold absent_or_string, last_segment.
  assert (Hs : ∀ s, is_Some (seg ← PyStr.last_item (PyStr.split "." s); Some (s, seg))).
  { intros s. destruct (SplitFacts.split_pieces "." s) as (init & seg & -> & _).
    rewrite SplitFacts.last_item_snoc. by eexists. }
  destruct x as [v|]; simpl.
  - destruct v; try (split; [by intros [? ?] | intros [?|[? ?]]; done]).
    split; [intros _; right; by eexists | intros _; exact (Hs _)].
  - split; [by left | intros _; exact (Hs "")].
Qed.

End NormalizerFacts.

(** X2.  [parse_plist_file] returns a record exactly when the file decoded to a
    mapping, its identifier is missing or a string, and its personalities
    field is missing, not a mapping, or a mapping of harmless values (a
    string without [IOClass], a list without the element [IOClass], or a
    mapping whose [IOClass] value can be hashed). *)
Theorem normalizes_iff (plist_path : string) (decoded : option value) :
  is_Some (parse_plist_file plist_path decoded) ↔ normalizable decoded.
Proof.
  unfold normalizable. destruct decoded as [v|]; [|split; [by intros [? ?] | by intros (?&?&_)]].
  destruct v as [| | | | | | | |d];
    try (split; [by intros [? ?] | by intros (?&?&_)]).
  rewrite parse_mapping.
  pose proof (NormalizerFacts.last_segment_Some (PyDict.get "CFBundleIdentifier" d)) as Hid.
  pose proof (NormalizerFacts.personalities_pass (PyDict.get "IOKitPersonalities" d)) as Hp.
  split.
  - intros Hsome. exists d. split; [done|].
    destruct (last_segment _) as [id_seg|]; simpl in *; [|by destruct Hsome].
    split; [apply Hid; by eexists|]. apply Hp.
    destruct (collect_iokit_services _) as [svcs|]; simpl in *; [|by destruct Hsome].
    destruct (Py.list_of_set svcs); simpl in *; [by eexists | by destruct Hsome].
  - intros (d' & [= <-] & Hi & Hh).
    apply Hid in Hi as [id_seg ->]. apply Hp in Hh. simpl.
    destruct (collect_iokit_services _) as [svcs|]; simpl in *; [|by destruct Hh].
    destruct (Py.list_of_set svcs); simpl in *; [by eexists | by destruct Hh].
Qed.

Module SetFacts.

Lemma eqb_sym a b : Py.eqb a b = Py.eqb b a.
Proof.
  destruct a, b; simpl; try done;
    first [apply Qeq_bool_comm | apply String.eqb_sym | apply Z.eqb_sym | idtac].
  apply bool_decide_ext. split; congruence.
Qed.

Lemma eqb_refl a : Py.hashable a = true → Py.eqb a a = true.
Proof.
  destruct a; simpl; try done; intros _;
    first [apply Qeq_bool_refl | apply String.eqb_refl | apply Z.eqb_refl | idtac].
  by apply bool_decide_eq_true.
Qed.

Lemma eqb_trans a b c : Py.eqb a b = true → Py.eqb b c = true → Py.eqb a c = true.
Proof.
  unfold Py.eqb.
  destruct (Py.numeric a) as [x|] eqn:Ha, (Py.numeric b) as [y|] eqn:Hb,
           (Py.numeric c) as [z|] eqn:Hc; try apply Qeq_bool_trans;
    destruct a, b, c; simpl in *; try done.
  - rewrite !String.eqb_eq. congruence.
  - rewrite !bool_decide_eq_true. congruence.
  - rewrite !Z.eqb_eq. congruence.
Qed.

Lemma dedup_elem x xs : x ∈ Py.dedup xs → x ∈ xs.
Proof.
  revert x. induction xs as [|y xs IH]; intros x; simpl; [done|].
  rewrite !elem_of_cons, list_elem_of_filter. intros [->|[_ Hx]]; [by left|].
  right. by apply IH.
Qed.

Lemma StronglySorted_filter {A} (R : relation A) (P : A → Prop)
    `{∀ x, Decision (P x)} l :
  StronglySorted R l → StronglySorted R (filter P l).
Proof.
  induction l as [|x l IH]; intros Hs; [constructor|].
  apply StronglySorted_cons in Hs as [Hx Hs].
  destruct (decide (P x)).
  - rewrite filter_cons_True by done. apply StronglySorted_cons. split; [|by apply IH].
    rewrite Forall_forall in *. intros y Hy.
    apply list_elem_of_filter in Hy as [_ Hy]. by apply Hx.
  - rewrite filter_cons_False by done. by apply IH.
Qed.

Lemma StronglySorted_lookup {A} (R : relation A) l i j x y :
  StronglySorted R l → (i < j)%nat → l !! i = Some x → l !! j = Some y → R x y.
Proof.
  revert i j. induction l as [|z l IH]; intros i j Hs Hij Hi Hj; [done|].
  apply StronglySorted_cons in Hs as [Hz Hs].
  destruct j as [|j]; [lia|]. simpl in Hj. destruct i as [|i]; simpl in Hi.
  - injection Hi as ->. rewrite Forall_forall in Hz.
    apply Hz. by eapply list_elem_of_lookup_2.
  - eapply (IH i j); [done | lia | done..].
Qed.

(** No two elements of [dedup xs] are equal. *)
Lemma dedup_distinct xs :
  StronglySorted (λ a b, Py.eqb a b = false) (Py.dedup xs).
Proof.
  induction xs as [|x xs IH]; simpl; [constructor|].
  apply StronglySorted_cons. split.
  - apply Forall_forall. intros y Hy. by apply list_elem_of_filter in Hy as [? _].
  - by apply StronglySorted_filter.
Qed.

(** Every hashable element of [xs] is equal to one that [dedup xs] keeps. *)
Lemma dedup_cover x xs :
  Forall (λ v, Py.hashable v = true) xs →
  x ∈ xs → ∃ y, y ∈ Py.dedup xs ∧ Py.eqb y x = true.
Proof.
  induction xs as [|z xs IH]; intros Hh Hx; [by apply elem_of_nil in Hx|].
  apply Forall_cons in Hh as [Hz Hh]. simpl.
  apply elem_of_cons in Hx as [->|Hx].
  - exists z. split; [apply elem_of_cons; by left | by apply eqb_refl].
  - destruct (IH Hh Hx) as (y & Hy & Hyx).
    destruct (Py.eqb z y) eqn:Hzy.
    + exists z. split; [apply elem_of_cons; by left|]. by eapply eqb_trans.
    + exists y. split; [|done]. apply elem_of_cons. right.
      by apply list_elem_of_filter.
Qed.

(** The classes of the record of the model: no value before an equal one,
    each from a personality, each personality's class covered. *)
Lemma model_classes (plist_path : string) (d : list (string * value)) (r : kext) :
  parse_plist_file plist_path (Some (VDict d)) = Some r →
  StronglySorted (λ a b, Py.eqb a b = false) (iokit_classes r)
  ∧ (∀ c, c ∈ iokit_classes r →
       ∃ m key pd, PyDict.get "IOKitPersonalities" d = Some (VDict m)
                   ∧ (key, VDict pd) ∈ m ∧ PyDict.get "IOClass" pd = Some c)
  ∧ (∀ m key pd c,
       PyDict.get "IOKitPersonalities" d = Some (VDict m) →
       (key, VDict pd) ∈ m → PyDict.get "IOClass" pd = Some c →
       ∃ c', c' ∈ iokit_classes r ∧ Py.eqb c' c = true).
Proof.
  rewrite parse_mapping.
  destruct (last_segment _); simpl; [|done].
  destruct (collect_iokit_services _) as [svcs|] eqn:Hsv; simpl; [|done].
  destruct (Py.list_of_set svcs) as [cls|] eqn:Hcls; simpl; [|done].
  intros [= <-]. simpl.
  assert (Hhash : Forall (λ v, Py.hashable v = true) svcs).
  { apply Forall_forall. apply NormalizerFacts.list_of_set_Some. by eexists. }
  assert (Hd : cls = Py.dedup svcs).
  { unfold Py.list_of_set in Hcls. destruct (forallb _ _); congruence. }
  subst cls.
  assert (Hm : ∀ m, PyDict.get "IOKitPersonalities" d = Some (VDict m) →
                    svcs = omap io_class m).
  { intros m Hg. rewrite Hg in Hsv. simpl in Hsv.
    by apply NormalizerFacts.loop_Some in Hsv as [_ ->]. }
  split_and!.
  - apply dedup_distinct.
  - intros c Hc. apply dedup_elem in Hc.
    destruct (PyDict.get "IOKitPersonalities" d) as [[| | | | | | | |m]|] eqn:Hg;
      simpl in Hsv; try (injection Hsv as <-; by apply elem_of_nil in Hc).
    rewrite (Hm m eq_refl) in Hc.
    apply NormalizerFacts.elem_of_omap_io_class in Hc as (key & pd & Hin & Hget).
    by exists m, key, pd.
  - intros m key pd c Hg Hin Hget. apply dedup_cover; [done|].
    rewrite (Hm m Hg). apply NormalizerFacts.elem_of_omap_io_class. by exists key, pd.
Qed.

End SetFacts.

(** X3.  Whatever the order in which the set of classes is listed, the
    [iokit_classes] of a normalized record hold no two equal values; each is
    the [IOClass] value of a personality that is a mapping, and each such
    value that is not a real is equal to one of them.  (Reals are left out
    of the last part: a NaN, which the reals of the model do not include, is
    not equal to itself.) *)
Theorem iokit_classes_are_the_distinct_classes (plist_path : string)
    (d : list (string * value)) (r : kext) :
  returns_up_to_set_order plist_path (Some (VDict d)) r →
  (∀ i j x y, i ≠ j →
     iokit_classes r !! i = Some x → iokit_classes r !! j = Some y →
     Py.eqb x y = false)
  ∧ (∀ c, c ∈ iokit_classes r →
       ∃ m key pd, PyDict.get "IOKitPersonalities" d = Some (VDict m)
                   ∧ (key, VDict pd) ∈ m ∧ PyDict.get "IOClass" pd = Some c)
  ∧ (∀ m key pd c,
       PyDict.get "IOKitPersonalities" d = Some (VDict m) →
       (key, VDict pd) ∈ m → PyDict.get "IOClass" pd = Some c →
       (∀ q, c ≠ VReal q) →
       ∃ c', c' ∈ iokit_classes r ∧ Py.eqb c' c = true).
Proof.
  intros (r0 & Hparse & Hperm & _).
  destruct (SetFacts.model_classes plist_path d r0 Hparse) as (Hsorted & Hfrom & Hcover).
  split_and!.
  - intros i j x y Hij Hi Hj.
    apply Permutation_inj in Hperm as [_ (f & Hf & Hlookup)].
    rewrite Hlookup in Hi, Hj.
    assert (Hne : f i ≠ f j) by (intros Heq; by apply Hf in Heq).
    destruct (decide (f i < f j)%nat) as [Hlt|Hge].
    + exact (SetFacts.StronglySorted_lookup (λ a b, Py.eqb a b = false) _
               (f i) (f j) x y Hsorted Hlt Hi Hj).
    + rewrite SetFacts.eqb_sym.
      assert (Hlt : (f j < f i)%nat) by lia.
      exact (SetFacts.StronglySorted_lookup (λ a b, Py.eqb a b = false) _
               (f j) (f i) y x Hsorted Hlt Hj Hi).
  - intros c Hc. apply Hfrom. by rewrite <- Hperm.
  - intros m key pd c Hg Hin Hget _.
    destruct (Hcover m key pd c Hg Hin Hget) as (c' & Hc' & Heq).
    exists c'. split; [by rewrite Hperm | done].
Qed.

Lemma iokit_classes_are_the_distinct_classes_witness :
  returns_up_to_set_order "/p/Info.plist" (Some (VDict MoreSamples.with_personalities))
    (MoreSamples.personalities_record [VStr "IOHID"; VStr "IOService"])
  ∧ (∀ i j x y, i ≠ j →
       [VStr "IOHID"; VStr "IOService"] !! i = Some x →
       [VStr "IOHID"; VStr "IOService"] !! j = Some y →
       Py.eqb x y = false)
  ∧ (∀ c, c ∈ [VStr "IOHID"; VStr "IOService"] →
       ∃ m key pd,
         PyDict.get "IOKitPersonalities" MoreSamples.with_personalities = Some (VDict m)
         ∧ (key, VDict pd) ∈ m ∧ PyDict.get "IOClass" pd = Some c)
  ∧ (∀ m key pd c,
       PyDict.get "IOKitPersonalities" MoreSamples.with_personalities = Some (VDict m) →
       (key, VDict pd) ∈ m → PyDict.get "IOClass" pd = Some c →
       (∀ q, c ≠ VReal q) →
       ∃ c', c' ∈ [VStr "IOHID"; VStr "IOService"] ∧ Py.eqb c' c = true).
Proof.
  assert (H : returns_up_to_set_order "/p/Info.plist"
                (Some (VDict MoreSamples.with_personalities))
                (MoreSamples.personalities_record [VStr "IOHID"; VStr "IOService"])).
  { exists (MoreSamples.personalities_record [VStr "IOService"; VStr "IOHID"]).
    split; [by vm_compute|]. split; [apply Permutation_swap | reflexivity]. }
  split; [exact H|].
  exact (iokit_classes_are_the_distinct_classes "/p/Info.plist"
           MoreSamples.with_personalities
           (MoreSamples.personalities_record [VStr "IOHID"; VStr "IOService"]) H).
Defined.

(** ** What the scan stores *)

(** X4.  A descriptor whose identifier is missing or the empty string leaves the
    dataset of the scan as it was; if it normalizes, its [bundle_id] and its
    [kext_name] are empty. *)
Theorem unidentified_descriptor_not_stored (plist_path : string)
    (d : list (string * value)) (kexts : dict kext) :
  PyDict.get "CFBundleIdentifier" d = None
    ∨ PyDict.get "CFBundleIdentifier" d = Some (VStr "") →
  scan_step kexts (plist_path, Some (VDict d)) = kexts
  ∧ ∀ r, parse_plist_file plist_path (Some (VDict d)) = Some r →
         bundle_id r = "" ∧ kext_name r = "".
Proof.
  intros Hid.
  assert (Hr : ∀ r, parse_plist_file plist_path (Some (VDict d)) = Some r →
                    bundle_id r = "" ∧ kext_name r = "").
  { intros r. rewrite parse_mapping.
    assert (Hseg : last_segment (default (VStr "") (PyDict.get "CFBundleIdentifier" d))
                   = Some ("", "")).
    { destruct Hid as [Hid|Hid]; by rewrite Hid. }
    rewrite Hseg. simpl.
    destruct (collect_iokit_services _); simpl; [|done].
    destruct (Py.list_of_set _); simpl; [|done].
    by intros [= <-]. }
  split; [|done]. rewrite scan_step_store. cbn [fst snd].
  destruct (parse_plist_file plist_path (Some (VDict d))) as [r|] eqn:Hp; [|done].
  destruct (Hr r eq_refl) as [Hb _]. unfold store. by rewrite Hb.
Qed.

Lemma unidentified_descriptor_not_stored_witness :
  PyDict.get "CFBundleIdentifier" MoreSamples.nameless = None
  ∧ scan_step Samples.overlapping ("/n/Info.plist", Some (VDict MoreSamples.nameless))
    = Samples.overlapping
  ∧ ∀ r, parse_plist_file "/n/Info.plist" (Some (VDict MoreSamples.nameless)) = Some r →
         bundle_id r = "" ∧ kext_name r = "".
Proof.
  split; [by vm_compute|].
  apply (unidentified_descriptor_not_stored "/n/Info.plist" MoreSamples.nameless
           Samples.overlapping).
  left. by vm_compute.
Defined.

Module ScanFacts.

Lemma store_length kexts data : (length (store kexts data) ≤ S (length kexts))%nat.
Proof.
  unfold store. destruct (negb _); [|lia].
  assert (H : (length (PyDict.keys (PyDict.set (bundle_id data) data kexts))
               ≤ S (length (PyDict.keys kexts)))%nat).
  { rewrite PyDictFacts.keys_set. destruct (PyDict.mem _ _); [lia|].
    rewrite length_app. simpl. lia. }
  unfold PyDict.keys in H. by rewrite !length_map in H.
Qed.

Lemma fold_store_length records kexts :
  (length (fold_left store records kexts) ≤ length kexts + length records)%nat.
Proof.
  revert kexts. induction records as [|r records IH]; intros kexts; simpl; [lia|].
  specialize (IH (store kexts r)). pose proof (store_length kexts r). lia.
Qed.

Lemma normalized_length files : (length (normalized files) ≤ length files)%nat.
Proof.
  unfold normalized. induction files as [|f files IH]; csimpl; [lia|].
  destruct (parse_plist_file f.1 f.2); csimpl; lia.
Qed.

Lemma fold_store_items (Q : kext → Prop) records kexts :
  PyDict.wf kexts →
  (∀ k r, (k, r) ∈ kexts → bundle_id r = k ∧ k ≠ "" ∧ Q r) →
  Forall Q records →
  ∀ k r, (k, r) ∈ fold_left store records kexts → bundle_id r = k ∧ k ≠ "" ∧ Q r.
Proof.
  revert kexts. induction records as [|x records IH]; intros kexts Hwf Hk HQ; [done|].
  apply Forall_cons in HQ as [Hx HQ]. simpl.
  apply IH; [by apply store_wf | | done].
  intros k r. unfold store. destruct (String.eqb_spec (bundle_id x) "") as [|Hne]; simpl.
  - apply Hk.
  - rewrite HistogramFacts.elem_set by done. intros [[-> ->]|[_ Hin]]; [done|].
    by apply Hk.
Qed.

Lemma filter_not_in_snoc (ks : list string) id (xs : list string) :
  filter (λ y, y ∉ ks ++ [id]) xs = filter (λ y, y ∉ ks) (filter (λ y, y ≠ id) xs).
Proof.
  rewrite list_filter_filter. apply list_filter_iff. intros y.
  rewrite not_elem_of_app, list_elem_of_singleton. tauto.
Qed.

Lemma filter_not_in_absorb (ks : list string) id (xs : list string) :
  id ∈ ks →
  filter (λ y, y ∉ ks) xs = filter (λ y, y ∉ ks) (filter (λ y, y ≠ id) xs).
Proof.
  intros Hid. rewrite list_filter_filter. apply list_filter_iff. intros y.
  split; [|tauto]. intros Hy. split; [done|]. congruence.
Qed.

Lemma filter_not_in_nil (xs : list string) : filter (λ y, y ∉ []) xs = xs.
Proof.
  induction xs as [|x xs IH]; [done|].
  rewrite filter_cons_True by apply not_elem_of_nil. by rewrite IH.
Qed.

Lemma fold_store_keys records kexts :
  PyDict.keys (fold_left store records kexts)
  = PyDict.keys kexts
    ++ filter (λ y, y ∉ PyDict.keys kexts)
         (first_occurrences (filter (λ s, s ≠ "") (map bundle_id records))).
Proof.
  revert kexts. induction records as [|r records IH]; intros kexts.
  - simpl. by rewrite app_nil_r.
  - cbn [fold_left map]. rewrite IH. unfold store.
    destruct (String.eqb_spec (bundle_id r) "") as [He|Hne]; simpl.
    + by rewrite filter_cons_False by (intros H; by apply H).
    + rewrite (filter_cons_True _ (bundle_id r)) by done. cbn [first_occurrences].
      rewrite PyDictFacts.keys_set. destruct (PyDict.mem _ kexts) eqn:Hm.
      * apply PyDictFacts.mem_keys in Hm.
        rewrite (filter_cons_False _ (bundle_id r)) by (intros H; by apply H).
        by rewrite <- filter_not_in_absorb.
      * assert (Hn : bundle_id r ∉ PyDict.keys kexts).
        { rewrite <- PyDictFacts.mem_keys. congruence. }
        rewrite (filter_cons_True _ (bundle_id r)) by done.
        rewrite <- app_assoc. simpl. by rewrite filter_not_in_snoc.
Qed.

Lemma elem_of_first_occurrences x (xs : list string) :
  x ∈ first_occurrences xs ↔ x ∈ xs.
Proof.
  induction xs as [|y xs IH]; [done|]. simpl.
  rewrite !elem_of_cons, list_elem_of_filter, IH.
  destruct (decide (x = y)); tauto.
Qed.

Lemma scan_keys files :
  PyDict.keys (scan_kexts_only files) = first_occurrences (stored_ids files).
Proof.
  unfold scan_kexts_only, stored_ids. rewrite scan_fold_store, fold_store_keys.
  simpl. apply filter_not_in_nil.
Qed.

End ScanFacts.

(** X5.  The scan returns a dict (no key twice) with at most one item per file
    found; every item is stored under the [bundle_id] of its record, which is
    not empty, and the record is one the normalizer returned. *)
Theorem scan_items_consistent (plist_files : list plist_file) :
  PyDict.wf (scan_kexts_only plist_files)
  ∧ (PyDict.len (scan_kexts_only plist_files) ≤ length plist_files)%nat
  ∧ ∀ k r, (k, r) ∈ scan_kexts_only plist_files →
           bundle_id r = k ∧ k ≠ "" ∧ r ∈ normalized plist_files.
Proof.
  split_and!.
  - apply scan_wf.
  - unfold scan_kexts_only, PyDict.len. rewrite scan_fold_store.
    pose proof (ScanFacts.fold_store_length (normalized plist_files) []).
    pose proof (ScanFacts.normalized_length plist_files). simpl in *. lia.
  - unfold scan_kexts_only. rewrite scan_fold_store.
    apply (ScanFacts.fold_store_items (λ r, r ∈ normalized plist_files)).
    + apply NoDup_nil_2.
    + intros k r Hin. by apply elem_of_nil in Hin.
    + by apply Forall_forall.
Qed.

(** X6.  The keys of the scanned dataset are the distinct non-empty bundle ids of
    the normalized records, each at the place where it is first met. *)
Theorem scan_keys_in_first_occurrence_order (plist_files : list plist_file) :
  PyDict.keys (scan_kexts_only plist_files)
  = first_occurrences (stored_ids plist_files).
Proof. apply ScanFacts.scan_keys. Qed.

(** ** The edges and the document *)

Module GraphFacts.

Section Prefix.
Context {A S : Type} (body : S → A → option S).

(** An invariant indexed by the elements already gone through. *)
Lemma for_each_prefix_invariant (P : list A → S → Prop) xs st0 st :
  P [] st0 →
  (∀ pre x post s s', xs = pre ++ x :: post → P pre s → body s x = Some s' →
                      P (pre ++ [x]) s') →
  Py.for_each body xs st0 = Some st → P xs st.
Proof.
  intros H0 Hstep.
  enough (Hgen : ∀ post pre s, xs = pre ++ post → P pre s →
                   Py.for_each body post s = Some st → P xs st)
    by (by apply (Hgen xs [] st0)).
  induction post as [|x post IH]; intros pre s Hxs HP; simpl.
  - intros [= <-]. rewrite app_nil_r in Hxs. by subst.
  - destruct (body s x) as [s'|] eqn:Hb; simpl; [|done].
    apply (IH (pre ++ [x])).
    + by rewrite <- app_assoc.
    + by eapply Hstep.
Qed.

Lemma for_each_Some_elem xs st x :
  is_Some (Py.for_each body xs st) → x ∈ xs → ∃ s, is_Some (body s x).
Proof.
  revert st. induction xs as [|y xs IH]; intros st Hs Hx; [by apply elem_of_nil in Hx|].
  simpl in Hs. destruct (body st y) as [s1|] eqn:Hb; simpl in Hs; [|by destruct Hs].
  apply elem_of_cons in Hx as [->|Hx]; [exists st; by rewrite Hb | by eapply IH].
Qed.
End Prefix.

Lemma add_edge_Some_hashable k kexts s st dep :
  is_Some (add_edge k kexts s st dep) → Py.hashable dep = true.
Proof. destruct dep; simpl; try done; by intros [? ?]. Qed.

Lemma edges_of_item_Some_hashable kexts st item :
  is_Some (edges_of_item kexts st item) → only_hashable_references item.2.
Proof.
  unfold edges_of_item.
  destruct (Py.for_each _ (dependencies item.2) st) as [st1|] eqn:Hd; simpl;
    [|by intros [? ?]].
  intros Hl. split; apply Forall_forall; intros v Hv.
  - destruct (for_each_Some_elem _ _ st v (mk_is_Some _ _ Hd) Hv) as [s Hs].
    by eapply add_edge_Some_hashable.
  - destruct (for_each_Some_elem _ _ st1 v Hl Hv) as [s Hs].
    by eapply add_edge_Some_hashable.
Qed.

Lemma add_edge_length k kexts s st dep st' :
  add_edge k kexts s st dep = Some st' →
  (length (edges st') ≤ S (length (edges st)))%nat.
Proof.
  unfold add_edge. destruct dep; try (intros [= <-]; lia); try done.
  destruct (_ && _); intros [= <-]; simpl; [rewrite length_app; simpl|]; lia.
Qed.

Lemma inner_length k kexts s ds st st' :
  Py.for_each (add_edge k kexts s) ds st = Some st' →
  (length (edges st') ≤ length (edges st) + length ds)%nat.
Proof.
  revert st. induction ds as [|d ds IH]; intros st; simpl.
  - intros [= <-]. lia.
  - destruct (add_edge k kexts s st d) as [s1|] eqn:Ha; simpl; [|done].
    intros H. apply IH in H. apply add_edge_length in Ha. lia.
Qed.

Lemma item_length kexts st item st' :
  edges_of_item kexts st item = Some st' →
  (length (edges st') ≤ length (edges st) + references item.2)%nat.
Proof.
  unfold edges_of_item, references.
  destruct (Py.for_each _ (dependencies item.2) st) as [st1|] eqn:Hd; simpl; [|done].
  intros Hl. apply inner_length in Hd, Hl. lia.
Qed.

Lemma outer_length kexts items st st' :
  Py.for_each (edges_of_item kexts) items st = Some st' →
  (length (edges st')
   ≤ length (edges st) + sum_list (map references (PyDict.values items)))%nat.
Proof.
  revert st. induction items as [|item items IH]; intros st.
  - intros [= <-]. simpl. lia.
  - cbn [Py.for_each].
    destruct (edges_of_item kexts st item) as [st1|] eqn:Hi; [|done].
    intros H. apply IH in H. apply item_length in Hi.
    unfold PyDict.values in *. cbn [map sum_list].
    change (id (references item.2)) with (references item.2). lia.
Qed.

End GraphFacts.

(** X7.  [create_graphml] returns a document exactly when every entry of every
    [dependencies] and [libraries] list can be hashed; otherwise the test
    [dep in kexts] raises. *)
Theorem create_graphml_returns_iff_hashable (kexts : dict kext) :
  is_Some (create_graphml kexts)
  ↔ Forall (λ item, only_hashable_references item.2) kexts.
Proof.
  unfold create_graphml. split.
  - intros Hs. apply Forall_forall. intros item Hin.
    assert (Hl : is_Some (edge_loop kexts)).
    { destruct (edge_loop kexts); [by eexists | by destruct Hs]. }
    destruct (GraphFacts.for_each_Some_elem _ _ _ item Hl Hin) as [s Hitem].
    by eapply GraphFacts.edges_of_item_Some_hashable.
  - intros H. destruct (edge_loop_total kexts H) as [st ->]. by eexists.
Qed.

(** X8.  A built graph has no more edges than the records have entries in their
    [dependencies] and [libraries] lists. *)
Theorem edges_bounded_by_references (kexts : dict kext) (es : list edge) :
  graph_edges kexts = Some es →
  (length es ≤ sum_list (map references (PyDict.values kexts)))%nat.
Proof.
  unfold graph_edges, edge_loop.
  destruct (Py.for_each _ kexts _) as [st|] eqn:Hl; [|done].
  intros [= <-]. apply GraphFacts.outer_length in Hl. simpl in Hl. lia.
Qed.

Lemma edges_bounded_by_references_witness :
  graph_edges Samples.overlapping = Some [Edge "com.x.b" "com.x.a" depends]
  ∧ sum_list (map references (PyDict.values Samples.overlapping)) = 4%nat
  ∧ (length [Edge "com.x.b" "com.x.a" depends]
     ≤ sum_list (map references (PyDict.values Samples.overlapping)))%nat.
Proof.
  split; [by vm_compute|]. split; [by vm_compute|].
  apply (edges_bounded_by_references Samples.overlapping). by vm_compute.
Defined.

Module EdgeFacts.

Lemma inner_post_start kexts k s st0 : inner_post kexts k s st0 [] st0.
Proof.
  exists []. split_and!.
  - by rewrite app_nil_r.
  - intros p. simpl. rewrite elem_of_nil. tauto.
  - intros e. rewrite elem_of_nil. split; [done|].
    intros (t & _ & Hin & _). by apply elem_of_nil in Hin.
Qed.

Lemma inner_post_skip kexts k s st0 dpre st x :
  (∀ t, x ≠ VStr t) →
  inner_post kexts k s st0 dpre st → inner_post kexts k s st0 (dpre ++ [x]) st.
Proof.
  intros Hx (new & He & Ha & Hn). exists new. split_and!; [done..|].
  intros e. rewrite Hn. split; intros (t & -> & Hin & Hm & Hnot); exists t;
    split_and!; try done.
  - apply elem_of_app. by left.
  - apply elem_of_app in Hin as [Hin|Hin]; [done|].
    apply list_elem_of_singleton in Hin. by destruct (Hx t).
Qed.

Lemma inner_post_step kexts k s st0 dpre st x st' :
  inner_post kexts k s st0 dpre st →
  add_edge k kexts s st x = Some st' →
  inner_post kexts k s st0 (dpre ++ [x]) st'.
Proof.
  intros Hpost. unfold add_edge.
  destruct x as [| | | |t| | | |]; try done;
    try (intros [= <-]; by apply inner_post_skip).
  destruct Hpost as (new & He & Ha & Hn).
  destruct (PyDict.mem t kexts) eqn:Hm; simpl.
  - case_bool_decide as Hnew; intros [= <-].
    + exists (new ++ [Edge s t k]). simpl. split_and!.
      * by rewrite He, app_assoc.
      * intros p. rewrite elem_of_union, elem_of_singleton, Ha, map_app, elem_of_app.
        simpl. rewrite list_elem_of_singleton. unfold pair_of at 2. simpl. tauto.
      * intros e. rewrite elem_of_app, list_elem_of_singleton, Hn. split.
        -- intros [(t' & -> & Hin & Hm' & Hnot)| ->].
           ++ exists t'. split_and!; try done. apply elem_of_app. by left.
           ++ exists t. split_and!; try done.
              ** apply elem_of_app. right. by apply list_elem_of_singleton.
              ** intros Hin. apply Hnew, Ha. by left.
        -- intros (t' & -> & Hin & Hm' & Hnot).
           apply elem_of_app in Hin as [Hin|Hin].
           ++ left. by exists t'.
           ++ apply list_elem_of_singleton in Hin. injection Hin as ->. by right.
    + exists new. split_and!; [done..|].
      intros e. rewrite Hn. split.
      * intros (t' & -> & Hin & Hm' & Hnot). exists t'. split_and!; try done.
        apply elem_of_app. by left.
      * intros (t' & -> & Hin & Hm' & Hnot).
        apply elem_of_app in Hin as [Hin|Hin]; [by exists t'|].
        apply list_elem_of_singleton in Hin. injection Hin as ->.
        apply Ha in Hnew as [Hold|Hpair]; [done|].
        apply list_elem_of_fmap in Hpair as (e' & Hp & He').
        pose proof He' as He''. apply Hn in He'' as (t'' & -> & Hin'' & _ & _).
        unfold pair_of in Hp. simpl in Hp. injection Hp as ->.
        by exists t''.
  - intros [= <-]. exists new. split_and!; [done..|].
    intros e. rewrite Hn. split.
    + intros (t' & -> & Hin & Hm' & Hnot). exists t'. split_and!; try done.
      apply elem_of_app. by left.
    + intros (t' & -> & Hin & Hm' & Hnot).
      apply elem_of_app in Hin as [Hin|Hin]; [by exists t'|].
      apply list_elem_of_singleton in Hin. injection Hin as ->. congruence.
Qed.

(** What one inner loop has done when it ends. *)
Lemma inner_loop_post kexts k s ds st0 st :
  Py.for_each (add_edge k kexts s) ds st0 = Some st →
  inner_post kexts k s st0 ds st.
Proof.
  apply (GraphFacts.for_each_prefix_invariant (add_edge k kexts s)
           (λ dpre st, inner_post kexts k s st0 dpre st)).
  - apply inner_post_start.
  - intros pre x post st1 st2 _. apply inner_post_step.
Qed.

Lemma outer_post_start kexts :
  outer_post kexts [] {| edges := []; edges_added := ∅ |}.
Proof.
  split; simpl.
  - intros p. rewrite elem_of_empty, elem_of_nil. tauto.
  - intros s t k. rewrite elem_of_nil. split; [done|].
    intros (r & Hin & _). by apply elem_of_nil in Hin.
Qed.

(** While the items of one source are not yet gone through, no pair of
    [edges_added] starts at it. *)
Lemma outer_post_fresh kexts pre st s t :
  outer_post kexts pre st → s ∉ PyDict.keys pre → (s, t) ∉ edges_added st.
Proof.
  intros [Ha He] Hs Hin. apply Ha in Hin.
  apply list_elem_of_fmap in Hin as ([s' t' k] & Hp & Hin).
  unfold pair_of in Hp. simpl in Hp. injection Hp as <- <-.
  apply He in Hin as (r & Hr & _). apply Hs.
  apply HistogramFacts.elem_keys. by exists r.
Qed.

Lemma outer_post_step kexts pre st s r st' :
  outer_post kexts pre st → s ∉ PyDict.keys pre →
  edges_of_item kexts st (s, r) = Some st' →
  outer_post kexts (pre ++ [(s, r)]) st'.
Proof.
  intros Hpost Hs. unfold edges_of_item. cbn [fst snd].
  destruct (Py.for_each (add_edge depends kexts s) (dependencies r) st)
    as [st1|] eqn:Hd; [|done]. cbn [mbind option_bind]. intros Hl.
  apply inner_loop_post in Hd as (new1 & He1 & Ha1 & Hn1).
  apply inner_loop_post in Hl as (new2 & He2 & Ha2 & Hn2).
  pose proof (outer_post_fresh kexts pre st s) as Hfresh.
  destruct Hpost as [Ha He].
  assert (Hfresh' : ∀ t, (s, t) ∉ edges_added st) by (intros t; by apply Hfresh).
  clear Hfresh.
  assert (H1 : ∀ e, e ∈ new1 ↔
            ∃ t, e = Edge s t depends ∧ PyDict.mem t kexts = true
                 ∧ listed_as depends r t).
  { intros e. rewrite Hn1. simpl. split; intros (t & -> & ?); exists t; naive_solver. }
  assert (H2 : ∀ e, e ∈ new2 ↔
            ∃ t, e = Edge s t uses_library ∧ PyDict.mem t kexts = true
                 ∧ listed_as uses_library r t).
  { intros e. rewrite Hn2. simpl. split.
    - intros (t & -> & Hin & Hm & Hnot). exists t. split_and!; try done.
      intros Hdep. apply Hnot, Ha1. right.
      apply list_elem_of_fmap. exists (Edge s t depends). split; [done|].
      apply H1. by exists t.
    - intros (t & -> & Hm & Hin & Hnd). exists t. split_and!; try done.
      intros Hadd. apply Ha1 in Hadd as [Hold|Hpair]; [by apply (Hfresh' t)|].
      apply list_elem_of_fmap in Hpair as (e' & Hp & He').
      apply H1 in He' as (t' & -> & _ & Hdep). unfold pair_of in Hp. simpl in Hp.
      injection Hp as ->. done. }
  split.
  - intros p. rewrite Ha2, Ha1, Ha, He2, He1, !map_app, !elem_of_app. tauto.
  - intros s' t k. rewrite He2, He1, !elem_of_app, He, H1, H2. split.
    + intros [[(r' & Hin & Hm & Hl')|(t' & [= -> -> <-] & Hm & Hl')]
             |(t' & [= -> -> <-] & Hm & Hl')].
      * exists r'. split_and!; try done. apply elem_of_app. by left.
      * exists r. split_and!; try done. apply elem_of_app. right.
        by apply list_elem_of_singleton.
      * exists r. split_and!; try done. apply elem_of_app. right.
        by apply list_elem_of_singleton.
    + intros (r' & Hin & Hm & Hl'). apply elem_of_app in Hin as [Hin|Hin].
      * left; left. by exists r'.
      * apply list_elem_of_singleton in Hin. injection Hin as -> ->.
        destruct k; [left; right | right]; by exists t.
Qed.

(** What the edge loop has done when it ends, on a dict. *)
Lemma edge_loop_post kexts st :
  PyDict.wf kexts → edge_loop kexts = Some st → outer_post kexts kexts st.
Proof.
  intros Hwf. unfold edge_loop.
  apply (GraphFacts.for_each_prefix_invariant (edges_of_item kexts)
           (λ pre st, outer_post kexts pre st)).
  - apply outer_post_start.
  - intros pre [s r] post st1 st2 Hk Hpost. apply outer_post_step; [done|].
    unfold PyDict.wf, PyDict.keys in *. rewrite Hk, map_app in Hwf.
    apply NoDup_app in Hwf as (_ & Hdis & _). intros Hin.
    apply (Hdis s Hin). simpl. apply elem_of_cons. by left.
Qed.

End EdgeFacts.

(** X9.  On a dict, the edges of the built graph are exactly these: from a key
    [s] to a key [t], of kind [depends] when the record of [s] lists [t]
    among its requirements, of kind [uses_library] when it lists [t] among its
    libraries and not among its requirements. *)
Theorem edges_are_the_listed_references (kexts : dict kext) (es : list edge) :
  PyDict.wf kexts →
  graph_edges kexts = Some es →
  ∀ s t k,
    Edge s t k ∈ es ↔
    ∃ r, PyDict.get s kexts = Some r ∧ PyDict.mem t kexts = true ∧ listed_as k r t.
Proof.
  intros Hwf. unfold graph_edges.
  destruct (edge_loop kexts) as [st|] eqn:Hl; [|done]. intros [= <-].
  apply EdgeFacts.edge_loop_post in Hl as [_ He]; [|done].
  intros s t k. rewrite He. split; intros (r & Hr & H); exists r; split; try done.
  - by apply HistogramFacts.wf_get_elem.
  - by apply HistogramFacts.wf_get_elem in Hr.
Qed.

Lemma edges_are_the_listed_references_witness :
  PyDict.wf Samples.overlapping
  ∧ graph_edges Samples.overlapping = Some [Edge "com.x.b" "com.x.a" depends]
  ∧ ∀ s t k,
      Edge s t k ∈ [Edge "com.x.b" "com.x.a" depends] ↔
      ∃ r, PyDict.get s Samples.overlapping = Some r
           ∧ PyDict.mem t Samples.overlapping = true ∧ listed_as k r t.
Proof.
  assert (Hwf : PyDict.wf Samples.overlapping).
  { apply (bool_decide_unpack _). by vm_compute. }
  split; [exact Hwf|]. split; [by vm_compute|].
  apply (edges_are_the_listed_references Samples.overlapping); [exact Hwf|].
  by vm_compute.
Defined.

(** X10.  For the dataset of a scan, the edges of the graph are exactly the
    listed references between stored ids: from [s] to [t] when the record
    stored under [s] lists [t] and [t] is the non-empty id of a normalized
    record. *)
Theorem scanned_graph_edges (plist_files : list plist_file) (es : list edge) :
  graph_edges (scan_kexts_only plist_files) = Some es →
  ∀ s t k,
    Edge s t k ∈ es ↔
    ∃ r, PyDict.get s (scan_kexts_only plist_files) = Some r
         ∧ t ∈ stored_ids plist_files ∧ listed_as k r t.
Proof.
  unfold graph_edges.
  destruct (edge_loop (scan_kexts_only plist_files)) as [st|] eqn:Hl; [|done].
  intros [= <-]. apply EdgeFacts.edge_loop_post in Hl as [_ He]; [|apply scan_wf].
  intros s t k. rewrite He.
  assert (Hm : PyDict.mem t (scan_kexts_only plist_files) = true
               ↔ t ∈ stored_ids plist_files).
  { by rewrite PyDictFacts.mem_keys, ScanFacts.scan_keys,
      ScanFacts.elem_of_first_occurrences. }
  split; intros (r & Hr & Ht & Hlist); exists r; split_and!; try done.
  - apply HistogramFacts.wf_get_elem; [apply scan_wf | done].
  - by apply Hm.
  - apply HistogramFacts.wf_get_elem in Hr; [done | apply scan_wf].
  - by apply Hm.
Qed.

Lemma scanned_graph_edges_witness :
  graph_edges (scan_kexts_only Samples.mutual_files)
  = Some [Edge "com.x.a" "com.x.b" depends; Edge "com.x.b" "com.x.a" depends]
  ∧ stored_ids Samples.mutual_files = ["com.x.a"; "com.x.b"]
  ∧ ∀ s t k,
      Edge s t k ∈ [Edge "com.x.a" "com.x.b" depends; Edge "com.x.b" "com.x.a" depends] ↔
      ∃ r, PyDict.get s (scan_kexts_only Samples.mutual_files) = Some r
           ∧ t ∈ stored_ids Samples.mutual_files ∧ listed_as k r t.
Proof.
  split; [by vm_compute|]. split; [by vm_compute|].
  apply (scanned_graph_edges Samples.mutual_files). by vm_compute.
Defined.

Module SanitizeFacts.
Import PyStr.

Lemma contains_char_cons c x t :
  contains (String c "") (String x t) = Ascii.eqb c x || contains (String c "") t.
Proof. simpl. by destruct (Ascii.eqb c x). Qed.

Lemma replace_removes old new s :
  old ≠ new → contains (String old "") (replace old new s) = false.
Proof.
  intros Hne. induction s as [|x s IH]; [done|].
  cbn [replace]. rewrite contains_char_cons, IH, orb_false_r.
  destruct (Ascii.eqb_spec x old) as [->|Hx]; apply Ascii.eqb_neq; congruence.
Qed.

Lemma replace_inj old new a b :
  contains (String new "") a = false → contains (String new "") b = false →
  replace old new a = replace old new b → a = b.
Proof.
  revert b. induction a as [|x a IH]; intros [|y b]; try done.
  rewrite !contains_char_cons, !orb_false_iff. intros [Hx Ha] [Hy Hb].
  cbn [replace]. intros [= Hxy Hab]. f_equal; [|by apply IH].
  apply Ascii.eqb_neq in Hx, Hy.
  destruct (Ascii.eqb_spec x old), (Ascii.eqb_spec y old); congruence.
Qed.

End SanitizeFacts.

(** X11.  The document has one node per item of the dataset; the [source] and
    the [target] of each of its edge elements are ids of its node elements,
    and the label is [depends] or [uses library]. *)
Theorem document_edges_join_document_nodes (kexts : dict kext) (g : graphml) :
  create_graphml kexts = Some g →
  length (node_ids g) = PyDict.len kexts
  ∧ ∀ el, el ∈ edge_elements g →
      source el ∈ node_ids g ∧ target el ∈ node_ids g
      ∧ (label el = "depends" ∨ label el = "uses library").
Proof.
  unfold create_graphml. destruct (edge_loop kexts) as [st|] eqn:Hl; [|done].
  intros [= <-]. simpl. split.
  - unfold PyDict.keys, PyDict.len. by rewrite !length_map.
  - intros el Hel. apply list_elem_of_fmap in Hel as (e & -> & He).
    apply edge_loop_invariant in Hl as [_ _ Hn].
    rewrite Forall_forall in Hn. destruct (Hn _ He) as [Hs Ht].
    apply PyDictFacts.mem_keys in Hs, Ht. simpl. split_and!.
    + by apply list_elem_of_fmap_2.
    + by apply list_elem_of_fmap_2.
    + destruct (kind e); [by left | by right].
Qed.

Lemma document_edges_join_document_nodes_witness :
  create_graphml Samples.overlapping = Some MoreSamples.overlapping_document
  ∧ length (node_ids MoreSamples.overlapping_document) = PyDict.len Samples.overlapping
  ∧ ∀ el, el ∈ edge_elements MoreSamples.overlapping_document →
      source el ∈ node_ids MoreSamples.overlapping_document
      ∧ target el ∈ node_ids MoreSamples.overlapping_document
      ∧ (label el = "depends" ∨ label el = "uses library").
Proof.
  split; [by vm_compute|].
  apply (document_edges_join_document_nodes Samples.overlapping). by vm_compute.
Defined.

(** X12.  No node id holds a dot, whatever the dataset; on a dict none of
    whose keys holds an underscore the node ids are pairwise distinct. *)
Theorem node_ids_distinct_without_underscores (kexts : dict kext) (g : graphml) :
  create_graphml kexts = Some g →
  (∀ id, id ∈ node_ids g → PyStr.contains "." id = false)
  ∧ (PyDict.wf kexts →
     (∀ k, k ∈ PyDict.keys kexts → PyStr.contains "_" k = false) →
     NoDup (node_ids g)).
Proof.
  unfold create_graphml.
  destruct (edge_loop kexts) as [st|]; [|done]. intros [= <-]. simpl. split.
  - intros id Hid. apply list_elem_of_fmap in Hid as (k & -> & _).
    by apply SanitizeFacts.replace_removes.
  - intros Hwf Hu. apply NoDup_fmap_2_strong; [|done].
    intros a b Ha Hb. apply SanitizeFacts.replace_inj; by apply Hu.
Qed.

Lemma node_ids_distinct_without_underscores_witness :
  create_graphml Samples.overlapping = Some MoreSamples.overlapping_document
  ∧ PyDict.wf Samples.overlapping
  ∧ Forall (λ k, PyStr.contains "_" k = false) (PyDict.keys Samples.overlapping)
  ∧ (∀ id, id ∈ node_ids MoreSamples.overlapping_document → PyStr.contains "." id = false)
  ∧ NoDup (node_ids MoreSamples.overlapping_document).
Proof.
  assert (Hwf : PyDict.wf Samples.overlapping).
  { apply (bool_decide_unpack _). by vm_compute. }
  assert (Hkeys : Forall (λ k, PyStr.contains "_" k = false)
                         (PyDict.keys Samples.overlapping)).
  { repeat constructor. }
  assert (Hg : create_graphml Samples.overlapping = Some MoreSamples.overlapping_document).
  { by vm_compute. }
  destruct (node_ids_distinct_without_underscores Samples.overlapping
              MoreSamples.overlapping_document Hg) as [Hdot Hdistinct].
  split; [exact Hg|]. split; [exact Hwf|]. split; [exact Hkeys|].
  split; [exact Hdot|].
  apply Hdistinct; [exact Hwf|].
  intros k Hk. by apply (proj1 (Forall_forall _ _) Hkeys).
Defined.

(** X13.  Two different keys with the same sanitized form give the document two
    nodes with one id. *)
Theorem node_ids_collide (kexts : dict kext) (g : graphml) (a b : string) :
  a ∈ PyDict.keys kexts → b ∈ PyDict.keys kexts → a ≠ b →
  sanitize a = sanitize b →
  create_graphml kexts = Some g →
  ¬ NoDup (node_ids g).
Proof.
  intros Ha Hb Hne Hs. unfold create_graphml.
  destruct (edge_loop kexts) as [st|]; [|done]. intros [= <-]. simpl. intros Hnd.
  apply list_elem_of_lookup in Ha as [i Hi]. apply list_elem_of_lookup in Hb as [j Hj].
  assert (i = j).
  { eapply NoDup_lookup; [exact Hnd | |].
    - by rewrite list_lookup_fmap, Hi.
    - rewrite list_lookup_fmap, Hj. simpl. by rewrite Hs. }
  subst. congruence.
Qed.

Lemma node_ids_collide_witness :
  PyDict.keys MoreSamples.colliding = ["com.x.a_b"; "com.x.a.b"]
  ∧ sanitize "com.x.a_b" = sanitize "com.x.a.b"
  ∧ create_graphml MoreSamples.colliding = Some MoreSamples.colliding_document
  ∧ ¬ NoDup (node_ids MoreSamples.colliding_document).
Proof.
  split; [by vm_compute|]. split; [by vm_compute|]. split; [by vm_compute|].
  apply (node_ids_collide MoreSamples.colliding MoreSamples.colliding_document
           "com.x.a_b" "com.x.a.b").
  - apply (list_elem_of_lookup_2 _ 0%nat). by vm_compute.
  - apply (list_elem_of_lookup_2 _ 1%nat). by vm_compute.
  - discriminate.
  - by vm_compute.
  - by vm_compute.
Defined.

(** ** Versions and statistics *)

Module VersionFacts.

Lemma tick_sum d v :
  sum_list (PyDict.values (tick d v)) = S (sum_list (PyDict.values d)).
Proof.
  unfold tick, PyDict.values.
  induction d as [|[k c] d IH]; [done|].
  cbn [PyDict.get PyDict.set]. destruct (String.eqb_spec v k) as [->|Hne].
  - cbn. lia.
  - cbn [map snd sum_list_with sum_list]. cbn in IH |- *. rewrite IH. lia.
Qed.

Lemma fold_tick_sum vs d :
  sum_list (PyDict.values (fold_left tick vs d))
  = (sum_list (PyDict.values d) + length vs)%nat.
Proof.
  revert d. induction vs as [|v vs IH]; intros d; simpl; [lia|].
  rewrite IH, tick_sum. lia.
Qed.

Lemma sum_take_le n (l : list nat) : (sum_list (take n l) ≤ sum_list l)%nat.
Proof.
  revert n. induction l as [|x l IH]; intros [|n]; simpl; try lia.
  specialize (IH n). lia.
Qed.

End VersionFacts.

(** X14.  [unique_versions] is the number of distinct version strings (a missing
    version being "N/A"); [top_versions] has five entries or, if there are
    fewer, one per distinct version; its counts add up to at most the number
    of records, and to exactly that number when there are at most five
    distinct versions. *)
Theorem version_figures (data : dict Compare.entry) :
  let vs := map (λ kext, match Compare.version kext with
                         | Some v => v
                         | None => "N/A"
                         end) (PyDict.values data) in
  let r := Compare.analyze_kexts data in
  Compare.unique_versions r = size (list_to_set vs : gset string)
  ∧ length (Compare.top_versions r) = Nat.min 5 (Compare.unique_versions r)
  ∧ (sum_list (map snd (Compare.top_versions r)) ≤ Compare.total r)%nat
  ∧ ((Compare.unique_versions r ≤ 5)%nat →
     sum_list (map snd (Compare.top_versions r)) = Compare.total r).
Proof.
  intros vs r.
  set (versions := fold_left Compare.count_version (PyDict.values data) []).
  assert (Hv : versions = fold_left tick vs []) by apply HistogramFacts.versions_fold.
  assert (Hh : histogram_of vs versions).
  { rewrite Hv. apply HistogramFacts.histogram_fold. }
  assert (Hsum : sum_list (map snd (Compare.sorted_desc versions)) = Compare.total r).
  { rewrite HistogramFacts.sorted_desc_perm.
    change (map snd versions) with (PyDict.values versions).
    rewrite Hv, VersionFacts.fold_tick_sum. simpl.
    unfold vs, PyDict.len, PyDict.values. by rewrite !length_map. }
  assert (Hlen : length (Compare.sorted_desc versions) = PyDict.len versions).
  { by rewrite HistogramFacts.sorted_desc_perm. }
  change (Compare.unique_versions r) with (PyDict.len versions).
  change (Compare.top_versions r) with (take 5 (Compare.sorted_desc versions)).
  split_and!.
  - destruct Hh as [Hwf Hc Ho]. unfold PyDict.len.
    rewrite <- (length_map fst versions).
    rewrite <- (size_list_to_set (C:=gset string)) by exact Hwf.
    f_equal. apply set_eq. intros x. rewrite !elem_of_list_to_set.
    apply (HistogramFacts.histogram_keys vs versions x). by split.
  - by rewrite length_take, Hlen.
  - rewrite <- Hsum, <- firstn_map. apply VersionFacts.sum_take_le.
  - intros Hle. rewrite take_ge by lia. done.
Qed.

Module StatisticsFacts.

(** On a dict with the eight keys, the step of [generate_statistics] and
    the step of [compare_kexts.analyze_kexts] do the same: no key is missed,
    and every branch adds one to the same entry. *)
Lemma statistics_step_tally cats item e :
  PyDict.keys cats = map category_key all_categories →
  same_key_and_name item e →
  statistics_step cats item = Some (Compare.tally_step cats e).
Proof.
  intros Hshape [Hk Hn].
  destruct (tally_shape cats Hshape) as (n1&n2&n3&n4&n5&n6&n7&n8&->).
  unfold statistics_step, Compare.tally_step, cascade.
  rewrite Hn, Hk. unfold stored_name, lowered_name. cbn [mbind option_bind].
  generalize (PyStr.lower (default "" (Compare.name e.2))) as name.
  generalize (PyStr.lower e.1) as bundle_lower. intros bundle_lower name.
  split_contains.
Qed.

Lemma statistics_loop_tally kexts data cats :
  PyDict.keys cats = map category_key all_categories →
  Forall2 same_key_and_name kexts data →
  Py.for_each statistics_step kexts cats = Some (fold_left Compare.tally_step data cats).
Proof.
  intros Hshape H. revert cats Hshape.
  induction H as [|item e kexts data Hi _ IH]; intros cats Hshape; [done|].
  cbn [Py.for_each fold_left]. rewrite (statistics_step_tally _ _ e Hshape Hi).
  cbn [mbind option_bind]. apply IH. by apply tally_step_counts.
Qed.

Lemma statistics_step_Some cats item :
  is_Some (statistics_step cats item) → ∃ s, name item.2 = VStr s.
Proof.
  unfold statistics_step. destruct (name item.2); simpl; try by intros [? ?].
  intros _. by eexists.
Qed.

(** The dataset that carries the keys and the names of [kexts]. *)
Lemma names_as_dataset (kexts : dict kext) :
  (∀ k r, (k, r) ∈ kexts → ∃ s, name r = VStr s) →
  ∃ data, Forall2 same_key_and_name kexts data.
Proof.
  induction kexts as [|[k r] kexts IH]; intros H.
  - exists []. constructor.
  - destruct (H k r) as [s Hs]; [apply elem_of_cons; by left|].
    destruct IH as [data Hd].
    { intros k' r' Hin. apply (H k' r'). apply elem_of_cons. by right. }
    exists ((k, named s) :: data). constructor; [|done]. by split.
Qed.

Lemma sum_references (rs : list kext) :
  (sum_list (map (λ k, length (dependencies k)) rs)
   + sum_list (map (λ k, length (libraries k)) rs))%nat
  = sum_list (map references rs).
Proof.
  induction rs as [|r rs IH]; [done|]. cbn [map sum_list sum_list_with] in *.
  unfold references at 1. cbn in *. lia.
Qed.

Lemma loop_Some_names kexts cats :
  is_Some (Py.for_each statistics_step kexts cats) →
  ∀ k r, (k, r) ∈ kexts → ∃ s, name r = VStr s.
Proof.
  intros Hl k r Hin.
  destruct (GraphFacts.for_each_Some_elem _ _ _ (k, r) Hl Hin) as [s Hstep].
  by apply statistics_step_Some in Hstep.
Qed.

End StatisticsFacts.

(** X15.  [generate_statistics] gets through its category loop exactly when the
    [name] of every stored record is a string. *)
Theorem statistics_returns_iff_names_are_strings (kexts : dict kext) :
  is_Some (generate_statistics kexts)
  ↔ ∀ k r, (k, r) ∈ kexts → ∃ s, name r = VStr s.
Proof.
  unfold generate_statistics. split.
  - intros Hs. apply (StatisticsFacts.loop_Some_names kexts statistics_categories).
    destruct (Py.for_each statistics_step kexts _); [by eexists | by destruct Hs].
  - intros Hn. destruct (StatisticsFacts.names_as_dataset kexts Hn) as [data Hd].
    rewrite (StatisticsFacts.statistics_loop_tally _ data) by done. by eexists.
Qed.

(** X16.  When [generate_statistics] returns, the total is the number of items,
    the eight category counts add up to it, and the two reference totals add
    up to the number of entries of all requirement and library lists. *)
Theorem statistics_add_up (kexts : dict kext) (st : statistics) :
  generate_statistics kexts = Some st →
  total_kexts st = PyDict.len kexts
  ∧ sum_list (map (λ c, category_count c (category_distribution st)) all_categories)
    = total_kexts st
  ∧ (total_deps st + total_libs st)%nat
    = sum_list (map references (PyDict.values kexts)).
Proof.
  intros Hst.
  assert (Hn : ∀ k r, (k, r) ∈ kexts → ∃ s, name r = VStr s).
  { apply (StatisticsFacts.loop_Some_names kexts statistics_categories).
    unfold generate_statistics in Hst.
    destruct (Py.for_each statistics_step kexts _); [by eexists | done]. }
  destruct (StatisticsFacts.names_as_dataset kexts Hn) as [data Hd].
  unfold generate_statistics in Hst.
  rewrite (StatisticsFacts.statistics_loop_tally _ data) in Hst by done.
  cbn [mbind option_bind] in Hst. injection Hst as <-.
  cbn [total_kexts category_distribution total_deps total_libs].
  destruct (tally_fold_counts data statistics_categories eq_refl) as [_ Hs].
  split_and!; [done | | apply StatisticsFacts.sum_references].
  rewrite Hs. cbn. unfold PyDict.len. symmetry. by eapply Forall2_length.
Qed.

Lemma statistics_add_up_witness :
  generate_statistics Samples.overlapping = Some MoreSamples.overlapping_statistics
  ∧ total_kexts MoreSamples.overlapping_statistics = PyDict.len Samples.overlapping
  ∧ sum_list (map (λ c, category_count c
                          (category_distribution MoreSamples.overlapping_statistics))
                  all_categories)
    = total_kexts MoreSamples.overlapping_statistics
  ∧ (total_deps MoreSamples.overlapping_statistics
     + total_libs MoreSamples.overlapping_statistics)%nat
    = sum_list (map references (PyDict.values Samples.overlapping)).
Proof.
  split; [by vm_compute|].
  apply (statistics_add_up Samples.overlapping). by vm_compute.
Defined.

(** X17.  The category loop of [generate_statistics] and the one of
    [compare_kexts.analyze_kexts], each transcribed from its own file, agree:
    on a stored dataset and a read-back dataset with the same keys in the
    same order and the same names, [generate_statistics] returns, and its
    category counts and its total are those of [compare_kexts.analyze_kexts]. *)
Theorem both_tallies_agree (kexts : dict kext) (data : dict Compare.entry) :
  Forall2 same_key_and_name kexts data →
  ∃ st, generate_statistics kexts = Some st
        ∧ category_distribution st = Compare.categories (Compare.analyze_kexts data)
        ∧ total_kexts st = Compare.total (Compare.analyze_kexts data).
Proof.
  intros Hd. unfold generate_statistics.
  rewrite (StatisticsFacts.statistics_loop_tally _ data) by done.
  eexists. split; [done|]. cbn. split; [done|].
  unfold PyDict.len. by eapply Forall2_length.
Qed.

Lemma both_tallies_agree_witness :
  Forall2 same_key_and_name Samples.overlapping MoreSamples.overlapping_names
  ∧ ∃ st, generate_statistics Samples.overlapping = Some st
          ∧ category_distribution st
            = Compare.categories (Compare.analyze_kexts MoreSamples.overlapping_names)
          ∧ total_kexts st
            = Compare.total (Compare.analyze_kexts MoreSamples.overlapping_names).
Proof.
  assert (H : Forall2 same_key_and_name Samples.overlapping MoreSamples.overlapping_names).
  { repeat (constructor; [by vm_compute|]). constructor. }
  split; [exact H|].
  apply (both_tallies_agree Samples.overlapping MoreSamples.overlapping_names H).
Defined.

(** ** The report *)

Module ReportFacts.
Import Report.

Lemma count_step_Some data counts k :
  k ∈ PyDict.keys data →
  count_step data counts k
  = Some ((counts.1 + if usb_audio_record data k then 1 else 0)%nat,
          (counts.2 + if mobile_display_record data k then 1 else 0)%nat).
Proof.
  intros Hk. unfold count_step, mobile_display_record, usb_audio_record.
  apply PyDictFacts.mem_keys in Hk. unfold PyDict.mem in Hk.
  destruct (PyDict.get k data) as [kext|]; [|done]. simpl.
  destruct counts as [a b]. simpl.
  destruct (_ || _); simpl.
  - do 2 f_equal; lia.
  - destruct (PyStr.contains "mobiledisp" _); do 2 f_equal; lia.
Qed.

Lemma count_loop data ids counts :
  (∀ k, k ∈ ids → k ∈ PyDict.keys data) →
  Py.for_each (count_step data) ids counts
  = Some ((counts.1 + length (filter (λ k, usb_audio_record data k = true) ids))%nat,
          (counts.2 + length (filter (λ k, mobile_display_record data k = true) ids))%nat).
Proof.
  revert counts. induction ids as [|k ids IH]; intros counts Hk.
  - simpl. destruct counts. do 2 f_equal; simpl; lia.
  - cbn [Py.for_each]. rewrite count_step_Some by (apply Hk, elem_of_cons; by left).
    cbn [mbind option_bind]. rewrite IH by (intros k' ?; apply Hk, elem_of_cons; by right).
    cbn [fst snd]. rewrite !filter_cons.
    destruct (usb_audio_record data k), (mobile_display_record data k); simpl;
      repeat case_decide; try done; do 2 f_equal; simpl; lia.
Qed.

Lemma only_ids_are_keys (A B : dict Compare.entry) k :
  k ∈ elements ((list_to_set (PyDict.keys A) : gset string) ∖ list_to_set (PyDict.keys B)) →
  k ∈ PyDict.keys A.
Proof.
  rewrite elem_of_elements, elem_of_difference, elem_of_list_to_set. tauto.
Qed.

Lemma len_zero {V} (d : dict V) : PyDict.len d = 0%nat ↔ d = [].
Proof. unfold PyDict.len. by destruct d. Qed.

Lemma size_ids_le (A : dict Compare.entry) :
  (size (list_to_set (PyDict.keys A) : gset string) ≤ PyDict.len A)%nat.
Proof.
  unfold PyDict.len, PyDict.keys.
  induction A as [|[k v] A IH]; cbn [map length fst].
  - rewrite list_to_set_nil, size_empty. lia.
  - rewrite list_to_set_cons, size_union_alt, size_singleton.
    assert (Hsub : (list_to_set (map fst A) ∖ {[k]} : gset string)
                   ⊆ list_to_set (map fst A)).
    { intros x. rewrite elem_of_difference. tauto. }
    apply subseteq_size in Hsub. lia.
Qed.

Lemma size_ids_wf (A : dict Compare.entry) :
  PyDict.wf A → size (list_to_set (PyDict.keys A) : gset string) = PyDict.len A.
Proof.
  unfold PyDict.wf, PyDict.len. intros Hnd.
  rewrite size_list_to_set by done. unfold PyDict.keys. by rewrite length_map.
Qed.

End ReportFacts.

(** X18.  [generate_comparison_report] raises exactly when both datasets are
    empty: the percentage then divides by zero. *)
Theorem report_raises_iff_both_empty (vmapple host : dict Compare.entry)
    (va ha : Compare.analysis) :
  Report.generate_comparison_report vmapple host va ha = None
  ↔ vmapple = [] ∧ host = [].
Proof.
  unfold Report.generate_comparison_report.
  destruct (Nat.eqb_spec (Nat.max (PyDict.len vmapple) (PyDict.len host)) 0) as [Hz|Hnz].
  - split; [|done]. intros _. split; apply ReportFacts.len_zero; lia.
  - rewrite ReportFacts.count_loop by apply ReportFacts.only_ids_are_keys.
    simpl. split; [done|]. intros [-> ->]. by destruct Hnz.
Qed.

Module FigureFacts.
Import Report.

Lemma percent_bounds (c m : nat) :
  (c ≤ m)%nat → (0 < m)%nat →
  (0 <= inject_Z (Z.of_nat c) / inject_Z (Z.of_nat m) * 100
   ∧ inject_Z (Z.of_nat c) / inject_Z (Z.of_nat m) * 100 <= 100)%Q.
Proof.
  intros Hc Hm.
  assert (Hmq : (0 < inject_Z (Z.of_nat m))%Q).
  { change 0%Q with (inject_Z 0). rewrite <- Zlt_Qlt. lia. }
  assert (Hcq : (0 <= inject_Z (Z.of_nat c))%Q).
  { change 0%Q with (inject_Z 0). rewrite <- Zle_Qle. lia. }
  assert (Hle : (inject_Z (Z.of_nat c) <= inject_Z (Z.of_nat m))%Q).
  { rewrite <- Zle_Qle. lia. }
  split.
  - apply Qmult_le_0_compat; [|done].
    apply Qle_shift_div_l; [done|]. by rewrite Qmult_0_l.
  - apply (Qle_trans _ (1 * 100)%Q); [|by rewrite Qmult_1_l; apply Qle_refl].
    apply Qmult_le_compat_r; [|done].
    apply Qle_shift_div_r; [done|]. by rewrite Qmult_1_l.
Qed.

Lemma only_permutation (A B : dict Compare.entry) :
  PyDict.wf A →
  elements ((list_to_set (PyDict.keys A) : gset string) ∖ list_to_set (PyDict.keys B))
  ≡ₚ filter (λ k, PyDict.mem k B = false) (PyDict.keys A).
Proof.
  intros Hwf. apply NoDup_Permutation.
  - apply NoDup_elements.
  - by apply NoDup_filter.
  - intros k. rewrite elem_of_elements, elem_of_difference, !elem_of_list_to_set,
      list_elem_of_filter, <- (PyDictFacts.mem_keys k A), <- (PyDictFacts.mem_keys k B).
    destruct (PyDict.mem k B), (PyDict.mem k A); intuition congruence.
Qed.

Lemma disjoint_filters_length {A} (P Q : A → Prop)
    `{!∀ x, Decision (P x), !∀ x, Decision (Q x)} (l : list A) :
  (∀ x, P x → Q x → False) →
  (length (filter P l) + length (filter Q l) ≤ length l)%nat.
Proof.
  intros Hd. induction l as [|x l IH]; [done|].
  rewrite !filter_cons. destruct (decide (P x)), (decide (Q x)); simpl; try lia.
  by destruct (Hd x).
Qed.

Lemma usb_audio_not_mobile data k :
  usb_audio_record data k = true → mobile_display_record data k = true → False.
Proof. unfold mobile_display_record. by intros ->. Qed.

End FigureFacts.

(** X19.  In a report, the common count is at most the size of either dataset,
    the common percentage lies between 0 and 100, the two loop counters
    together are at most the number of ids only the first dataset has, and
    common and one-sided counts together are within the size of the dataset. *)
Theorem report_figures_bounded (vmapple host : dict Compare.entry)
    (va ha : Compare.analysis) (f : Report.figures) :
  Report.generate_comparison_report vmapple host va ha = Some f →
  (Report.common_count f ≤ Nat.min (PyDict.len vmapple) (PyDict.len host))%nat
  ∧ (0 <= Report.common_percent f ∧ Report.common_percent f <= 100)%Q
  ∧ (Report.usb_audio_count f + Report.mobile_display_count f
     ≤ Report.only_vmapple_count f)%nat
  ∧ (Report.common_count f + Report.only_vmapple_count f ≤ PyDict.len vmapple)%nat
  ∧ (Report.common_count f + Report.only_host_count f ≤ PyDict.len host)%nat.
Proof.
  unfold Report.generate_comparison_report.
  set (a := list_to_set (PyDict.keys vmapple) : gset string).
  set (b := list_to_set (PyDict.keys host) : gset string).
  destruct (Nat.eqb_spec (Nat.max (PyDict.len vmapple) (PyDict.len host)) 0) as [Hz|Hnz];
    [done|].
  rewrite ReportFacts.count_loop by apply ReportFacts.only_ids_are_keys.
  cbn [mbind option_bind fst snd]. intros [= <-]. cbn.
  pose proof (ReportFacts.size_ids_le vmapple) as Ha.
  pose proof (ReportFacts.size_ids_le host) as Hb.
  fold a in Ha. fold b in Hb.
  assert (Hca : (size (a ∩ b) + size (a ∖ b) ≤ size a)%nat).
  { rewrite <- size_union.
    - apply subseteq_size. intros x.
      rewrite elem_of_union, elem_of_intersection, elem_of_difference. tauto.
    - apply elem_of_disjoint. intros x.
      rewrite elem_of_intersection, elem_of_difference. tauto. }
  assert (Hcb : (size (a ∩ b) + size (b ∖ a) ≤ size b)%nat).
  { rewrite <- size_union.
    - apply subseteq_size. intros x.
      rewrite elem_of_union, elem_of_intersection, elem_of_difference. tauto.
    - apply elem_of_disjoint. intros x.
      rewrite elem_of_intersection, elem_of_difference. tauto. }
  split_and!; try lia.
  - apply FigureFacts.percent_bounds; lia.
  - apply FigureFacts.percent_bounds; lia.
  - unfold size, set_size. simpl.
    apply FigureFacts.disjoint_filters_length. apply FigureFacts.usb_audio_not_mobile.
Qed.

Lemma report_figures_bounded_witness :
  Report.generate_comparison_report MoreSamples.vm_dataset MoreSamples.host_dataset
    (Compare.analyze_kexts MoreSamples.vm_dataset)
    (Compare.analyze_kexts MoreSamples.host_dataset)
  = Some MoreSamples.vm_host_figures
  ∧ (Report.common_count MoreSamples.vm_host_figures
     ≤ Nat.min (PyDict.len MoreSamples.vm_dataset) (PyDict.len MoreSamples.host_dataset))%nat
  ∧ (0 <= Report.common_percent MoreSamples.vm_host_figures
     ∧ Report.common_percent MoreSamples.vm_host_figures <= 100)%Q
  ∧ (Report.usb_audio_count MoreSamples.vm_host_figures
     + Report.mobile_display_count MoreSamples.vm_host_figures
     ≤ Report.only_vmapple_count MoreSamples.vm_host_figures)%nat
  ∧ (Report.common_count MoreSamples.vm_host_figures
     + Report.only_vmapple_count MoreSamples.vm_host_figures
     ≤ PyDict.len MoreSamples.vm_dataset)%nat
  ∧ (Report.common_count MoreSamples.vm_host_figures
     + Report.only_host_count MoreSamples.vm_host_figures
     ≤ PyDict.len MoreSamples.host_dataset)%nat.
Proof.
  split; [by vm_compute|].
  apply (report_figures_bounded MoreSamples.vm_dataset MoreSamples.host_dataset
           (Compare.analyze_kexts MoreSamples.vm_dataset)
           (Compare.analyze_kexts MoreSamples.host_dataset)).
  by vm_compute.
Defined.

(** X20.  The counters of the report loop do not depend on the order in which
    the set [only_in_vmapple] is gone through: on a dict they are the numbers
    of keys of the first dataset, absent from the second, that pass the
    first test, respectively fail it and pass the second. *)
Theorem report_counts_follow_dataset (vmapple host : dict Compare.entry)
    (va ha : Compare.analysis) (f : Report.figures) :
  PyDict.wf vmapple →
  Report.generate_comparison_report vmapple host va ha = Some f →
  Report.only_vmapple_count f
    = length (filter (λ k, PyDict.mem k host = false) (PyDict.keys vmapple))
  ∧ Report.usb_audio_count f
    = length (filter (λ k, PyDict.mem k host = false ∧ usb_audio_record vmapple k = true)
                     (PyDict.keys vmapple))
  ∧ Report.mobile_display_count f
    = length (filter (λ k, PyDict.mem k host = false
                           ∧ mobile_display_record vmapple k = true)
                     (PyDict.keys vmapple)).
Proof.
  intros Hwf. unfold Report.generate_comparison_report.
  destruct (Nat.eqb_spec (Nat.max (PyDict.len vmapple) (PyDict.len host)) 0) as [Hz|Hnz];
    [done|].
  rewrite ReportFacts.count_loop by apply ReportFacts.only_ids_are_keys.
  cbn [mbind option_bind fst snd]. intros [= <-]. cbn.
  pose proof (FigureFacts.only_permutation vmapple host Hwf) as Hp.
  split_and!.
  - unfold size, set_size. simpl. by rewrite Hp.
  - rewrite Hp, list_filter_filter. f_equal. apply list_filter_iff. tauto.
  - rewrite Hp, list_filter_filter. f_equal. apply list_filter_iff. tauto.
Qed.

Lemma report_counts_follow_dataset_witness :
  PyDict.wf MoreSamples.vm_dataset
  ∧ Report.generate_comparison_report MoreSamples.vm_dataset MoreSamples.host_dataset
      (Compare.analyze_kexts MoreSamples.vm_dataset)
      (Compare.analyze_kexts MoreSamples.host_dataset)
    = Some MoreSamples.vm_host_figures
  ∧ Report.only_vmapple_count MoreSamples.vm_host_figures
    = length (filter (λ k, PyDict.mem k MoreSamples.host_dataset = false)
                     (PyDict.keys MoreSamples.vm_dataset))
  ∧ Report.usb_audio_count MoreSamples.vm_host_figures
    = length (filter (λ k, PyDict.mem k MoreSamples.host_dataset = false
                           ∧ usb_audio_record MoreSamples.vm_dataset k = true)
                     (PyDict.keys MoreSamples.vm_dataset))
  ∧ Report.mobile_display_count MoreSamples.vm_host_figures
    = length (filter (λ k, PyDict.mem k MoreSamples.host_dataset = false
                           ∧ mobile_display_record MoreSamples.vm_dataset k = true)
                     (PyDict.keys MoreSamples.vm_dataset)).
Proof.
  assert (Hwf : PyDict.wf MoreSamples.vm_dataset).
  { apply (bool_decide_unpack _). by vm_compute. }
  split; [exact Hwf|]. split; [by vm_compute|].
  apply (report_counts_follow_dataset MoreSamples.vm_dataset MoreSamples.host_dataset
           (Compare.analyze_kexts MoreSamples.vm_dataset)
           (Compare.analyze_kexts MoreSamples.host_dataset)); [exact Hwf|].
  by vm_compute.
Defined.

Module TableFacts.

Lemma sorted_names :
  Report.sorted_set (map category_key all_categories ++ map category_key all_categories)
  = sorted_category_names.
Proof. by vm_compute. Qed.

End TableFacts.

(** X21.  The category table of two analysed datasets has the eight categories
    in alphabetical order, and its difference column adds up to the
    difference of the two totals. *)
Theorem category_table_rows (vmapple host : dict Compare.entry) :
  let va := Compare.analyze_kexts vmapple in
  let ha := Compare.analyze_kexts host in
  let table := Report.category_table va ha in
  map (λ row, row.1.1.1) table = sorted_category_names
  ∧ difference_total table = (Z.of_nat (Compare.total va) - Z.of_nat (Compare.total ha))%Z.
Proof.
  cbn zeta. unfold Report.category_table, Report.category_row.
  destruct (tally_fold_counts vmapple Compare.initial_categories eq_refl) as [Hka Hsa].
  destruct (tally_fold_counts host Compare.initial_categories eq_refl) as [Hkb Hsb].
  cbn [Compare.analyze_kexts Compare.categories Compare.total].
  rewrite Hka, Hkb, TableFacts.sorted_names.
  destruct (tally_shape _ Hka) as (a1&a2&a3&a4&a5&a6&a7&a8&Ea).
  destruct (tally_shape _ Hkb) as (b1&b2&b3&b4&b5&b6&b7&b8&Eb).
  rewrite Ea in Hsa. rewrite Eb in Hsb.
  rewrite Ea, Eb.
  split; [done|].
  unfold PyDict.len in *. cbn in Hsa, Hsb. cbn. lia.
Qed.

(** X22.  For two dicts, the common ids and the ids of one side only are as many
    as that side has records. *)
Theorem diff_sets_sizes (vmapple host : dict Compare.entry) :
  PyDict.wf vmapple → PyDict.wf host →
  let r := Compare.compare_kext_datasets vmapple host in
  (size (Compare.common r) + size (Compare.only_in_vmapple r)
   = Compare.total (Compare.vmapple_analysis r))%nat
  ∧ (size (Compare.common r) + size (Compare.only_in_host r)
     = Compare.total (Compare.host_analysis r))%nat.
Proof.
  intros Ha Hb. cbn.
  set (a := list_to_set (PyDict.keys vmapple) : gset string).
  set (b := list_to_set (PyDict.keys host) : gset string).
  rewrite <- (ReportFacts.size_ids_wf vmapple Ha), <- (ReportFacts.size_ids_wf host Hb).
  fold a b. split.
  - rewrite <- size_union.
    + f_equal. apply set_eq. intros x.
      rewrite elem_of_union, elem_of_intersection, elem_of_difference.
      destruct (decide (x ∈ b)); tauto.
    + apply elem_of_disjoint. intros x.
      rewrite elem_of_intersection, elem_of_difference. tauto.
  - rewrite <- size_union.
    + f_equal. apply set_eq. intros x.
      rewrite elem_of_union, elem_of_intersection, elem_of_difference.
      destruct (decide (x ∈ a)); tauto.
    + apply elem_of_disjoint. intros x.
      rewrite elem_of_intersection, elem_of_difference. tauto.
Qed.

Lemma diff_sets_sizes_witness :
  PyDict.wf MoreSamples.vm_dataset ∧ PyDict.wf MoreSamples.host_dataset
  ∧ (size (Compare.common
             (Compare.compare_kext_datasets MoreSamples.vm_dataset MoreSamples.host_dataset))
     + size (Compare.only_in_vmapple
               (Compare.compare_kext_datasets MoreSamples.vm_dataset MoreSamples.host_dataset))
     = 3)%nat
  ∧ (size (Compare.common
             (Compare.compare_kext_datasets MoreSamples.vm_dataset MoreSamples.host_dataset))
     + size (Compare.only_in_host
               (Compare.compare_kext_datasets MoreSamples.vm_dataset MoreSamples.host_dataset))
     = 2)%nat.
Proof.
  assert (Hvm : PyDict.wf MoreSamples.vm_dataset).
  { apply (bool_decide_unpack _). by vm_compute. }
  assert (Hhost : PyDict.wf MoreSamples.host_dataset).
  { apply (bool_decide_unpack _). by vm_compute. }
  split; [exact Hvm|]. split; [exact Hhost|].
  exact (diff_sets_sizes MoreSamples.vm_dataset MoreSamples.host_dataset Hvm Hhost).
Defined.

(** X23.  Exchanging the two datasets exchanges the two one-sided sets and keeps
    the common set; both one-sided sets are empty exactly when the datasets
    have the same ids. *)
Theorem diff_sets_swap_and_self (A B : dict Compare.entry) :
  let r := Compare.compare_kext_datasets A B in
  let r' := Compare.compare_kext_datasets B A in
  Compare.common r' = Compare.common r
  ∧ Compare.only_in_vmapple r' = Compare.only_in_host r
  ∧ Compare.only_in_host r' = Compare.only_in_vmapple r
  ∧ (Compare.ids A = Compare.ids B ↔
       Compare.only_in_vmapple r = ∅ ∧ Compare.only_in_host r = ∅).
Proof.
  cbn. unfold Compare.ids.
  set (a := list_to_set (PyDict.keys A) : gset string).
  set (b := list_to_set (PyDict.keys B) : gset string).
  split_and!; [|done..|].
  - apply set_eq. intros x. rewrite !elem_of_intersection. tauto.
  - split.
    + intros ->. split; apply set_eq; intros x;
        rewrite elem_of_difference, elem_of_empty; tauto.
    + intros [H1 H2]. apply set_eq. intros x.
      assert (E1 : x ∈ a ∖ b ↔ x ∈ (∅ : gset string)) by (by rewrite H1).
      assert (E2 : x ∈ b ∖ a ↔ x ∈ (∅ : gset string)) by (by rewrite H2).
      rewrite elem_of_difference, elem_of_empty in E1, E2.
      destruct (decide (x ∈ a)), (decide (x ∈ b)); tauto.
Qed.

(** ** The orchestration *)

Module SuiteFacts.
Import Suite.

Section World.
Context {world : Type}.
Variable exists_file : world → string → bool.
Variable run : string → world → bool * world.

Abbreviation check := (check_data_files exists_file).
Abbreviation act := (@action world).
Abbreviation guarded := (Suite.guarded exists_file).

Lemma check_true w :
  (check w).1.1 = true ↔ data_present exists_file w.
Proof.
  unfold check_data_files, data_present.
  destruct (filter _ required_files) as [|f fs] eqn:Hf; simpl.
  - split; [|done]. intros _ f Hin.
    destruct (exists_file w f) eqn:He; [done|].
    assert (Hin' : f ∈ filter (λ f, exists_file w f = false) required_files)
      by (by apply list_elem_of_filter).
    rewrite Hf in Hin'. by apply elem_of_nil in Hin'.
  - split; [done|]. intros Hall.
    assert (Hin : f ∈ filter (λ f, exists_file w f = false) required_files)
      by (rewrite Hf; apply elem_of_cons; by left).
    apply list_elem_of_filter in Hin as [He Hin]. rewrite (Hall f Hin) in He. done.
Qed.

Lemma check_world w : (check w).2 = w.
Proof. unfold check_data_files. by destruct (filter _ _). Qed.

Lemma check_scripts w : scripts (check w).1.2 = [].
Proof. unfold check_data_files. by destruct (filter _ _). Qed.

Lemma guarded_ret : guarded (ret tt).
Proof. intros w s w0 ok H. by apply elem_of_nil in H. Qed.

Lemma guarded_say msg : guarded (say msg).
Proof.
  intros w s w0 ok H. apply list_elem_of_singleton in H. done.
Qed.

Lemma guarded_bind (m k : act unit) :
  guarded m → guarded k → guarded (bind m (λ _, k)).
Proof.
  intros Hm Hk w s w0 ok. unfold bind.
  destruct (m w) as [[x log1] w1] eqn:Em. destruct (k w1) as [[y log2] w2] eqn:Ek.
  simpl. rewrite elem_of_app. intros [H|H].
  - apply (Hm w s w0 ok). by rewrite Em.
  - apply (Hk w1 s w0 ok). by rewrite Ek.
Qed.

Lemma guarded_when b m : guarded m → guarded (when b m).
Proof. destruct b; [done | intros _; apply guarded_ret]. Qed.

Lemma guarded_analysis (k : bool → act unit) :
  (∀ ok, guarded (k ok)) → guarded (bind (run_script run "analyze_kexts.py") k).
Proof.
  intros Hk w s w0 ok. unfold bind, run_script.
  destruct (run "analyze_kexts.py" w) as [ok1 w1].
  destruct (k ok1 w1) as [[y log2] w2] eqn:Ek. simpl.
  rewrite elem_of_cons. intros [[= -> _ _]|H]; [by left|].
  apply (Hk ok1 w1 s w0 ok). by rewrite Ek.
Qed.

Lemma guarded_checked script (k : bool → act unit) (otherwise : act unit) :
  (∀ ok, guarded (k ok)) → guarded otherwise →
  guarded (bind check (λ present,
             if present : bool then bind (run_script run script) k else otherwise)).
Proof.
  intros Hk Ho w s w0 ok. unfold bind at 1.
  pose proof (check_true w) as Ht. pose proof (check_world w) as Hw.
  destruct (check w) as [[present log1] w1] eqn:Ec. simpl in Ht, Hw. subst w1.
  assert (Hlog : ∀ e, e ∈ log1 → ∃ m, e = Said m).
  { intros e. unfold check_data_files in Ec. destruct (filter _ _); injection Ec as <- <-.
    - intros H. by apply elem_of_nil in H.
    - intros H. apply list_elem_of_singleton in H. by eexists. }
  destruct present.
  - unfold bind, run_script. destruct (run script w) as [ok1 w1].
    destruct (k ok1 w1) as [[y log2] w2] eqn:Ek. simpl.
    rewrite !elem_of_app, elem_of_cons. intros [H|[[= -> -> _]|H]].
    + by destruct (Hlog _ H).
    + right. by apply Ht.
    + apply (Hk ok1 w1 s w0 ok). by rewrite Ek.
  - destruct (otherwise w) as [[y log2] w2] eqn:Eo. simpl.
    rewrite elem_of_app. intros [H|H].
    + by destruct (Hlog _ H).
    + apply (Ho w s w0 ok). by rewrite Eo.
Qed.

Lemma guarded_main a : guarded (main exists_file run a).
Proof.
  unfold main. apply guarded_bind; [apply guarded_say|].
  destruct (negb (any_flag a)); [apply guarded_say|].
  destruct (flag_check a).
  { intros w s w0 ok. unfold bind.
    pose proof (check_world w) as Hw.
    destruct (check w) as [[present log1] w1] eqn:Ec. simpl in Hw. subst w1.
    assert (Hlog : ∀ e, e ∈ log1 → ∃ m, e = Said m).
    { intros e. unfold check_data_files in Ec.
      destruct (filter _ _); injection Ec as <- <-.
      - intros H. by apply elem_of_nil in H.
      - intros H. apply list_elem_of_singleton in H. by eexists. }
    destruct present; simpl; rewrite elem_of_app, list_elem_of_singleton;
      (intros [H|H]; [by destruct (Hlog _ H) | done]). }
  destruct (flag_all a).
  - unfold workflow. apply guarded_bind; [apply guarded_say|].
    apply guarded_analysis. intros [|]; [|apply guarded_say].
    apply guarded_bind.
    + unfold guarded_step. apply guarded_checked; [|apply guarded_say].
      intros [|]; [apply guarded_ret | apply guarded_say].
    + apply guarded_bind; [|apply guarded_say].
      unfold guarded_step. apply guarded_checked; [|apply guarded_say].
      intros [|]; [apply guarded_ret | apply guarded_say].
  - unfold components. apply guarded_bind.
    { apply guarded_when, guarded_analysis. intros ok. apply guarded_ret. }
    apply guarded_bind.
    { apply guarded_when. unfold component. apply guarded_checked; [|apply guarded_say].
      intros ok. apply guarded_ret. }
    apply guarded_bind.
    { apply guarded_when. unfold component. apply guarded_checked; [|apply guarded_say].
      intros ok. apply guarded_ret. }
    apply guarded_bind; apply guarded_when, guarded_say.
Qed.

Lemma starts_ret {A} (x : A) : starts_among (ret x : act A) [].
Proof. intros w. constructor. Qed.

Lemma starts_say msg : starts_among (say msg : act unit) [].
Proof. intros w. simpl. constructor. Qed.

Lemma starts_check : starts_among check [].
Proof. intros w. by rewrite check_scripts. Qed.

Lemma starts_run s : starts_among (run_script run s) [s].
Proof. intros w. unfold run_script. by destruct (run s w). Qed.

Lemma starts_bind {A B} (m : act A) (k : A → act B) l1 l2 :
  starts_among m l1 → (∀ x, starts_among (k x) l2) →
  starts_among (bind m k) (l1 ++ l2).
Proof.
  intros Hm Hk w. unfold bind. specialize (Hm w).
  destruct (m w) as [[x log1] w1]. specialize (Hk x w1).
  destruct (k x w1) as [[y log2] w2]. simpl in *.
  unfold scripts in *. rewrite omap_app. by apply sublist_app.
Qed.

Lemma starts_more {A} (m : act A) l l' :
  sublist l l' → starts_among m l → starts_among m l'.
Proof. intros Hl Hm w. transitivity l; [apply Hm | exact Hl]. Qed.

Lemma starts_checked s (k : bool → act unit) (otherwise : act unit) :
  (∀ ok, starts_among (k ok) []) → starts_among otherwise [] →
  starts_among (bind check (λ present,
                  if present : bool then bind (run_script run s) k else otherwise)) [s].
Proof.
  intros Hk Ho. apply (starts_bind _ _ [] [s]); [apply starts_check|].
  intros [|].
  - apply (starts_bind _ _ [s] []); [apply starts_run | done].
  - eapply starts_more; [|done]. apply sublist_nil_l.
Qed.

Lemma starts_when b (m : act unit) l : starts_among m l → starts_among (when b m) l.
Proof.
  destruct b; [done|]. intros _. eapply starts_more; [|apply starts_ret].
  apply sublist_nil_l.
Qed.

Lemma starts_main a : starts_among (main exists_file run a) all_scripts.
Proof.
  unfold main. apply (starts_bind _ _ [] all_scripts); [apply starts_say|]. intros _.
  destruct (negb (any_flag a)).
  { eapply starts_more; [|apply starts_say]. apply sublist_nil_l. }
  destruct (flag_check a).
  { eapply starts_more; [apply sublist_nil_l|].
    apply (starts_bind _ _ [] []); [apply starts_check|].
    intros [|]; apply starts_say. }
  destruct (flag_all a).
  - unfold workflow. apply (starts_bind _ _ [] all_scripts); [apply starts_say|]. intros _.
    apply (starts_bind _ _ ["analyze_kexts.py"]
             ["compare_kexts.py"; "generate_visualizations.py"]); [apply starts_run|].
    intros [|]; [|eapply starts_more; [apply sublist_nil_l | apply starts_say]].
    apply (starts_bind _ _ ["compare_kexts.py"] ["generate_visualizations.py"]).
    + unfold guarded_step. apply starts_checked; [|apply starts_say].
      intros [|]; [apply starts_ret | apply starts_say].
    + intros _. apply (starts_bind _ _ ["generate_visualizations.py"] []).
      * unfold guarded_step. apply starts_checked; [|apply starts_say].
        intros [|]; [apply starts_ret | apply starts_say].
      * intros _. apply starts_say.
  - unfold components.
    apply (starts_bind _ _ ["analyze_kexts.py"]
             ["compare_kexts.py"; "generate_visualizations.py"]).
    { apply starts_when. apply (starts_bind _ _ ["analyze_kexts.py"] []);
        [apply starts_run | intros ?; apply starts_ret]. }
    intros _. apply (starts_bind _ _ ["compare_kexts.py"] ["generate_visualizations.py"]).
    { apply starts_when. unfold component. apply starts_checked; [|apply starts_say].
      intros ?. apply starts_ret. }
    intros _. apply (starts_bind _ _ ["generate_visualizations.py"] []).
    { apply starts_when. unfold component. apply starts_checked; [|apply starts_say].
      intros ?. apply starts_ret. }
    intros _. apply (starts_bind _ _ [] []); [apply starts_when, starts_say|].
    intros _. apply starts_when, starts_say.
Qed.

End World.
End SuiteFacts.

(** X24.  Whatever the flags and whatever the scripts do, [main] starts the
    comparison and the visualization only in a state in which both data
    files exist. *)
Theorem dependent_scripts_need_data {world : Type}
    (exists_file : world → string → bool) (run : string → world → bool * world)
    (a : Suite.args) (w : world) (s : string) (w0 : world) (ok : bool) :
  Suite.Ran s w0 ok ∈ Suite.log_of (Suite.main exists_file run a) w →
  s = "analyze_kexts.py" ∨ Suite.data_present exists_file w0.
Proof. apply SuiteFacts.guarded_main. Qed.

Lemma dependent_scripts_need_data_witness :
  Suite.Ran "compare_kexts.py" 1%nat false
    ∈ Suite.log_of (Suite.main MoreSamples.data_after_first_run
                      MoreSamples.comparison_fails MoreSamples.only_all) 0%nat
  ∧ ("compare_kexts.py" = "analyze_kexts.py"
     ∨ Suite.data_present MoreSamples.data_after_first_run 1%nat).
Proof.
  assert (H : Suite.Ran "compare_kexts.py" 1%nat false
                ∈ Suite.log_of (Suite.main MoreSamples.data_after_first_run
                                  MoreSamples.comparison_fails MoreSamples.only_all) 0%nat).
  { apply (list_elem_of_lookup_2 _ 3%nat). by vm_compute. }
  split; [exact H|].
  exact (dependent_scripts_need_data MoreSamples.data_after_first_run
           MoreSamples.comparison_fails MoreSamples.only_all 0%nat
           "compare_kexts.py" 1%nat false H).
Defined.

(** X25.  Without any flag, and with [--check] whatever the other flags, [main]
    starts no script and leaves the world as it is. *)
Theorem check_starts_no_script {world : Type}
    (exists_file : world → string → bool) (run : string → world → bool * world)
    (a : Suite.args) (w : world) :
  Suite.any_flag a = false ∨ Suite.flag_check a = true →
  Suite.scripts (Suite.log_of (Suite.main exists_file run a) w) = []
  ∧ Suite.final (Suite.main exists_file run a) w = w.
Proof.
  unfold Suite.log_of, Suite.final, Suite.main, Suite.bind, Suite.say.
  intros [Hn|Hc].
  - rewrite Hn. simpl. done.
  - assert (Ha : Suite.any_flag a = true).
    { unfold Suite.any_flag. rewrite Hc. by rewrite !orb_true_r. }
    rewrite Ha, Hc. cbn [negb].
    pose proof (SuiteFacts.check_world exists_file w) as Hw.
    pose proof (SuiteFacts.check_scripts exists_file w) as Hs.
    destruct (Suite.check_data_files exists_file w) as [[present log1] w1].
    simpl in Hw, Hs. subst w1.
    destruct present; simpl; unfold Suite.scripts in *;
      rewrite omap_app, Hs; done.
Qed.

Lemma check_starts_no_script_witness :
  Suite.flag_check MoreSamples.every_flag = true
  ∧ Suite.scripts (Suite.log_of (Suite.main MoreSamples.data_after_first_run
                                   MoreSamples.comparison_fails MoreSamples.every_flag) 0%nat)
    = []
  ∧ Suite.final (Suite.main MoreSamples.data_after_first_run
                   MoreSamples.comparison_fails MoreSamples.every_flag) 0%nat = 0%nat.
Proof.
  split; [reflexivity|].
  apply (check_starts_no_script MoreSamples.data_after_first_run
           MoreSamples.comparison_fails MoreSamples.every_flag 0%nat).
  right. reflexivity.
Defined.

(** X26.  Whatever the flags, the scripts [main] starts are some of the
    analysis, the comparison and the visualization, each at most once and in
    this order. *)
Theorem scripts_once_and_in_order {world : Type}
    (exists_file : world → string → bool) (run : string → world → bool * world)
    (a : Suite.args) (w : world) :
  sublist (Suite.scripts (Suite.log_of (Suite.main exists_file run a) w))
          Suite.all_scripts.
Proof. apply SuiteFacts.starts_main. Qed.

(** X27.  Under [--all], when the analysis fails nothing else is started: the
    log is the banner, the start of the workflow, the failed run and the
    failure message. *)
Theorem failed_analysis_ends_workflow {world : Type}
    (exists_file : world → string → bool) (run : string → world → bool * world)
    (a : Suite.args) (w : world) :
  Suite.flag_check a = false → Suite.flag_all a = true →
  (run "analyze_kexts.py" w).1 = false →
  Suite.log_of (Suite.main exists_file run a) w
  = [Suite.Said Suite.Banner; Suite.Said Suite.RunningWorkflow;
     Suite.Ran "analyze_kexts.py" w false; Suite.Said Suite.FailedAnalysis]
  ∧ Suite.final (Suite.main exists_file run a) w = (run "analyze_kexts.py" w).2.
Proof.
  intros Hc Ha Hr.
  unfold Suite.log_of, Suite.final, Suite.main, Suite.any_flag. rewrite Hc, Ha.
  unfold Suite.workflow, Suite.bind, Suite.say, Suite.run_script. cbn [orb negb].
  destruct (run "analyze_kexts.py" w) as [ok w1]. simpl in Hr. subst ok. done.
Qed.

Lemma failed_analysis_ends_workflow_witness :
  (MoreSamples.nothing_works "analyze_kexts.py" 0%nat).1 = false
  ∧ Suite.log_of (Suite.main MoreSamples.data_after_first_run
                    MoreSamples.nothing_works MoreSamples.only_all) 0%nat
    = [Suite.Said Suite.Banner; Suite.Said Suite.RunningWorkflow;
       Suite.Ran "analyze_kexts.py" 0%nat false; Suite.Said Suite.FailedAnalysis]
  ∧ Suite.final (Suite.main MoreSamples.data_after_first_run
                   MoreSamples.nothing_works MoreSamples.only_all) 0%nat
    = (MoreSamples.nothing_works "analyze_kexts.py" 0%nat).2.
Proof.
  split; [reflexivity|].
  apply (failed_analysis_ends_workflow MoreSamples.data_after_first_run
           MoreSamples.nothing_works MoreSamples.only_all 0%nat); reflexivity.
Defined.

(** X28.  Under [--all], a failed comparison does not end the workflow: with the
    data files there, the visualization is started after it. *)
Theorem failed_comparison_continues {world : Type}
    (exists_file : world → string → bool) (run : string → world → bool * world)
    (a : Suite.args) (w w1 w2 : world) :
  Suite.flag_check a = false → Suite.flag_all a = true →
  run "analyze_kexts.py" w = (true, w1) →
  Suite.data_present exists_file w1 →
  run "compare_kexts.py" w1 = (false, w2) →
  Suite.data_present exists_file w2 →
  Suite.scripts (Suite.log_of (Suite.main exists_file run a) w)
  = ["analyze_kexts.py"; "compare_kexts.py"; "generate_visualizations.py"].
Proof.
  intros Hc Ha Hr1 Hp1 Hr2 Hp2.
  apply (SuiteFacts.check_true exists_file) in Hp1, Hp2.
  pose proof (SuiteFacts.check_world exists_file w1) as Hw1.
  pose proof (SuiteFacts.check_world exists_file w2) as Hw2.
  pose proof (SuiteFacts.check_scripts exists_file w1) as Hs1.
  pose proof (SuiteFacts.check_scripts exists_file w2) as Hs2.
  unfold Suite.log_of, Suite.main, Suite.any_flag. rewrite Hc, Ha.
  unfold Suite.workflow, Suite.guarded_step, Suite.bind, Suite.say, Suite.run_script,
    Suite.ret. cbn [orb negb]. rewrite Hr1.
  destruct (Suite.check_data_files exists_file w1) as [[p1 l1] w1'].
  simpl in Hp1, Hw1, Hs1. subst p1 w1'. rewrite Hr2.
  destruct (Suite.check_data_files exists_file w2) as [[p2 l2] w2'].
  simpl in Hp2, Hw2, Hs2. subst p2 w2'.
  destruct (run "generate_visualizations.py" w2) as [ok3 w3].
  unfold Suite.scripts in *. destruct ok3; simpl;
    rewrite ?omap_app, ?Hs1; simpl; rewrite ?omap_app, ?Hs2; done.
Qed.

Lemma failed_comparison_continues_witness :
  MoreSamples.comparison_fails "analyze_kexts.py" 0%nat = (true, 1%nat)
  ∧ MoreSamples.comparison_fails "compare_kexts.py" 1%nat = (false, 2%nat)
  ∧ Suite.data_present MoreSamples.data_after_first_run 1%nat
  ∧ Suite.data_present MoreSamples.data_after_first_run 2%nat
  ∧ Suite.scripts (Suite.log_of (Suite.main MoreSamples.data_after_first_run
                                   MoreSamples.comparison_fails MoreSamples.only_all) 0%nat)
    = ["analyze_kexts.py"; "compare_kexts.py"; "generate_visualizations.py"].
Proof.
  split; [by vm_compute|]. split; [by vm_compute|].
  split; [by intros f _|]. split; [by intros f _|].
  apply (failed_comparison_continues MoreSamples.data_after_first_run
           MoreSamples.comparison_fails MoreSamples.only_all 0%nat 1%nat 2%nat).
  - reflexivity.
  - reflexivity.
  - by vm_compute.
  - by intros f _.
  - by vm_compute.
  - by intros f _.
Defined.
